(** * dydactic: coercion engine, structural caster and streaming pipeline

    A shallow embedding of [dydactic/cast.py], [dydactic/transform.py],
    [dydactic/rules.py], [dydactic/hooks.py], [dydactic/result.py],
    [dydactic/options.py], [dydactic/validate.py] and the counts of
    [dydactic/stats.py].

    Python values are an inductive type, raised exceptions are the [Raise]
    branch of a result type, the generators of [validate.py] are functions to
    the log of what a complete iteration does (items pulled from the caller's
    iterator, callbacks invoked, results yielded, and how the iteration
    ends).  The third-party libraries (pydantic, dateutil) are parameters:
    a model class carries its own validation functions, the date parser and
    pydantic's error constructor are the classes [Dateutil] and [Pydantic].

    Not modelled: the interpreter's resource limits (recursion depth, the
    digit limit of int/str conversions), object identity, the module of a
    class in [str(type(obj))], and the text of [cast.ValidationError]'s
    message. *)

From Stdlib Require Import ZArith List String Ascii Bool Lia.
From Stdlib Require Import DecimalString SpecFloat Permutation Sorted.
Import ListNotations.

Local Open Scope string_scope.
Local Open Scope Z_scope.

(** ** Outcomes of Python calls *)

Inductive outcome (E A : Type) : Type :=
| Ok (a : A)
| Raise (e : E).
Arguments Ok {E A} a.
Arguments Raise {E A} e.

Definition bind {E A B} (m : outcome E A) (k : A -> outcome E B) : outcome E B :=
  match m with
  | Ok a => k a
  | Raise e => Raise e
  end.

Notation "'do' x <- m ; k" := (bind m (fun x => k))
  (at level 10, x name, m at level 100, k at level 200).

(** A list comprehension, or a loop that collects: the first exception
    ends it. *)
Fixpoint mapM {E A B} (f : A -> outcome E B) (l : list A) : outcome E (list B) :=
  match l with
  | [] => Ok []
  | x :: l' => do y <- f x; do ys <- mapM f l'; Ok (y :: ys)
  end.

(** ** Python values *)

(** [datetime.datetime]; [tzinfo] holds the UTC offset in seconds and the
    repr of the tzinfo object. *)
Record datetime : Type := mk_datetime {
  year : Z; month : Z; day : Z;
  hour : Z; minute : Z; second : Z; microsecond : Z;
  tzinfo : option (Z * string)
}.

(** Mappings are keyed by [str], as [dict[str, Any]] in every signature of
    the package; a list of items in insertion order.  An object holds its
    class name, what [model_dump()] returns when it has that method (pydantic
    instances), and its [__dict__]. *)
#[warnings="-register-all"]
Inductive pyval : Type :=
| VNone
| VBool (b : bool)
| VInt (z : Z)
| VFloat (f : spec_float)
| VStr (s : string)
| VList (l : list pyval)
| VTuple (l : list pyval)
| VSet (l : list pyval)
| VDict (d : list (string * pyval))
| VDatetime (t : datetime)
| VObj (cls : string) (dump : option (list (string * pyval)))
       (attrs : list (string * pyval)).

Definition dict : Type := list (string * pyval).

(** ** Exceptions *)

(** The exception classes the package names, and [OtherException] for every
    other subclass of [Exception]. *)
Record line_error : Type := mk_line_error {
  le_type : string;
  le_loc : list string;
  le_msg : string;
  le_input : pyval
}.

Record pydantic_error : Type := mk_pydantic_error {
  pe_title : string;
  pe_errors : list line_error
}.

Inductive exn : Type :=
| ValueError (msg : string)
| TypeError (msg : string)
| KeyError (msg : string)
| OverflowError (msg : string)
| AttributeError (msg : string)
| ParserError (msg : string)
| PydanticValidationError (e : pydantic_error)
| OtherException (cls : string) (msg : string).

Definition res : Type -> Type := outcome exn.

(** [isinstance(e, ValueError)]: [dateutil.parser.ParserError] and
    [pydantic.ValidationError] are subclasses of [ValueError]. *)
Definition is_ValueError (e : exn) : bool :=
  match e with
  | ValueError _ | ParserError _ | PydanticValidationError _ => true
  | _ => false
  end.

Definition is_TypeError (e : exn) : bool :=
  match e with TypeError _ => true | _ => false end.

Definition is_KeyError (e : exn) : bool :=
  match e with KeyError _ => true | _ => false end.

Definition is_ParserError (e : exn) : bool :=
  match e with ParserError _ => true | _ => false end.

(** ** Dictionaries *)

Fixpoint dict_get {A} (k : string) (d : list (string * A)) : option A :=
  match d with
  | [] => None
  | (k', v) :: d' => if String.eqb k k' then Some v else dict_get k d'
  end.

Definition dict_keys {A} (d : list (string * A)) : list string := map fst d.

Definition dict_mem {A} (k : string) (d : list (string * A)) : bool :=
  existsb (String.eqb k) (dict_keys d).

(** [d[k] = v]: the item keeps its position when the key exists. *)
Fixpoint dict_set {A} (k : string) (v : A) (d : list (string * A))
  : list (string * A) :=
  match d with
  | [] => [(k, v)]
  | (k', v') :: d' =>
      if String.eqb k k' then (k, v) :: d' else (k', v') :: dict_set k v d'
  end.

Definition str_mem (k : string) (l : list string) : bool :=
  existsb (String.eqb k) l.

(** ** Text of values: [repr] and [str] *)

Definition join (sep : string) (l : list string) : string :=
  match l with
  | [] => ""
  | x :: xs => fold_left (fun acc y => acc ++ sep ++ y) xs x
  end.

Definition str_of_Z (z : Z) : string := NilZero.string_of_int (Z.to_int z).

Definition char_str (c : ascii) : string := String c EmptyString.

Definition hex_digit (n : nat) : ascii :=
  match get n "0123456789abcdef" with
  | Some c => c
  | None => "0"%char
  end.

Definition chars (s : string) : list ascii := list_ascii_of_string s.

Definition has_char (c : ascii) (s : string) : bool :=
  existsb (Ascii.eqb c) (chars s).

Definition dquote : ascii := "034"%char.
Definition squote : ascii := "'"%char.
Definition backslash : ascii := "\"%char.

(** Characters are code points below 256; [repr] escapes the quote in use,
    the backslash and the non-printable ones. *)
Definition escape_char (quote c : ascii) : string :=
  let n := nat_of_ascii c in
  if Ascii.eqb c quote || Ascii.eqb c backslash then String backslash (char_str c)
  else if Nat.eqb n 9 then String backslash "t"
  else if Nat.eqb n 10 then String backslash "n"
  else if Nat.eqb n 13 then String backslash "r"
  else if Nat.ltb n 32 || Nat.eqb n 127 || (Nat.leb 128 n && Nat.leb n 160)
          || Nat.eqb n 173
  then String backslash
         (String "x" (String (hex_digit (Nat.div n 16))
                        (char_str (hex_digit (Nat.modulo n 16)))))
  else char_str c.

Definition repr_str (s : string) : string :=
  let quote := if has_char squote s && negb (has_char dquote s)
               then dquote else squote in
  String quote (String.concat "" (map (escape_char quote) (chars s)))
    ++ char_str quote.

(** ** Floats: binary64, by the Standard Library's specification floats *)

Definition float : Type := spec_float.

Definition float_of_Z (z : Z) : float := binary_normalize 53 1024 z 0 false.

(** The float nearest to [m * 10^e] (ties to even), for [m >= 0]: the
    quotient by a power of ten is taken with 64 extra bits and a sticky bit
    before it is rounded. *)
Definition float_of_decimal (neg : bool) (m e : Z) : float :=
  if m =? 0 then S754_zero neg
  else if 0 <=? e then
    binary_normalize 53 1024 (if neg then - (m * 10 ^ e) else m * 10 ^ e) 0 false
  else
    let d := 10 ^ (- e) in
    let s := Z.max 0 (Z.log2 d - Z.log2 m + 64) in
    let q := (m * 2 ^ s) / d in
    let sticky := if (m * 2 ^ s) mod d =? 0 then 0 else 1 in
    binary_normalize 53 1024
      (if neg then - (2 * q + sticky) else 2 * q + sticky) (- (s + 1)) false.

Definition float_is_zero (f : float) : bool :=
  match f with S754_zero _ => true | _ => false end.

(** [int(f)]: truncation towards zero. *)
Definition int_of_float (f : float) : res Z :=
  match f with
  | S754_zero _ => Ok 0
  | S754_nan => Raise (ValueError "cannot convert float NaN to integer")
  | S754_infinity _ =>
      Raise (OverflowError "cannot convert float infinity to integer")
  | S754_finite s m e =>
      let a := if 0 <=? e then Z.pos m * 2 ^ e else Z.pos m / 2 ^ (- e) in
      Ok (if s then - a else a)
  end.

(** [float(z)] *)
Definition float_of_int (z : Z) : res float :=
  match float_of_Z z with
  | S754_infinity _ => Raise (OverflowError "int too large to convert to float")
  | f => Ok f
  end.

(** *** Reading numbers *)

(** The characters that [int()] and [float()] strip: the ASCII whitespace
    (tab to carriage return, and the space) and, of the code points above
    127, the two spaces below 256, which the parsers first turn into a
    space.  The separators U+001C to U+001F are not stripped. *)
Definition is_space (c : ascii) : bool :=
  let n := nat_of_ascii c in
  (Nat.leb 9 n && Nat.leb n 13) || Nat.eqb n 32
  || Nat.eqb n 133 || Nat.eqb n 160.

Fixpoint lstrip (l : list ascii) : list ascii :=
  match l with
  | c :: l' => if is_space c then lstrip l' else l
  | [] => []
  end.

Definition strip (l : list ascii) : list ascii := rev (lstrip (rev (lstrip l))).

Definition digit_val (c : ascii) : option Z :=
  let n := nat_of_ascii c in
  if Nat.leb 48 n && Nat.leb n 57 then Some (Z.of_nat (n - 48)) else None.

(** [digit (["_"] digit)*]: the digits read, most significant first, and the
    rest of the input. *)
Fixpoint digitpart_more (l : list ascii) : list Z * list ascii :=
  match l with
  | c :: l' =>
      match digit_val c with
      | Some d => let (ds, r) := digitpart_more l' in (d :: ds, r)
      | None =>
          if Ascii.eqb c "_" then
            match l' with
            | c' :: l'' =>
                match digit_val c' with
                | Some d => let (ds, r) := digitpart_more l'' in (d :: ds, r)
                | None => ([], l)
                end
            | [] => ([], l)
            end
          else ([], l)
      end
  | [] => ([], [])
  end.

Definition digitpart (l : list ascii) : list Z * list ascii :=
  match l with
  | c :: _ => match digit_val c with
              | Some _ => digitpart_more l
              | None => ([], l)
              end
  | [] => ([], [])
  end.

Definition Z_of_digits (ds : list Z) : Z :=
  fold_left (fun acc d => 10 * acc + d) ds 0.

Definition read_sign (l : list ascii) : bool * list ascii :=
  match l with
  | c :: l' => if Ascii.eqb c "-" then (true, l')
               else if Ascii.eqb c "+" then (false, l') else (false, l)
  | [] => (false, [])
  end.

(** [int(s)] in base 10 *)
Definition parse_int (s : string) : option Z :=
  let (neg, l) := read_sign (strip (chars s)) in
  match digitpart l with
  | (d :: ds, []) => let z := Z_of_digits (d :: ds) in
                     Some (if neg then - z else z)
  | _ => None
  end.

Definition lower (c : ascii) : ascii :=
  let n := nat_of_ascii c in
  if Nat.leb 65 n && Nat.leb n 90 then ascii_of_nat (n + 32) else c.

Definition lowered (l : list ascii) : string :=
  string_of_list_ascii (map lower l).

Definition read_exponent (l : list ascii) : option (Z * list ascii) :=
  match l with
  | c :: l' =>
      if Ascii.eqb (lower c) "e" then
        let (neg, l'') := read_sign l' in
        match digitpart l'' with
        | (d :: ds, r) => let z := Z_of_digits (d :: ds) in
                          Some (if neg then - z else z, r)
        | _ => None
        end
      else Some (0, l)
  | [] => Some (0, [])
  end.

(** [float(s)] *)
Definition parse_float (s : string) : option float :=
  let (neg, l) := read_sign (strip (chars s)) in
  let w := lowered l in
  if String.eqb w "inf" || String.eqb w "infinity" then Some (S754_infinity neg)
  else if String.eqb w "nan" then Some S754_nan
  else
    let (ip, r1) := digitpart l in
    let (fp, r2) :=
      match r1 with
      | c :: r => if Ascii.eqb c "." then digitpart r else ([], r1)
      | [] => ([], [])
      end in
    match (ip ++ fp)%list with
    | [] => None
    | ds =>
        match read_exponent r2 with
        | Some (e, []) =>
            Some (float_of_decimal neg (Z_of_digits ds)
                    (e - Z.of_nat (List.length fp)))
        | _ => None
        end
    end.

(** *** Writing floats: the shortest digits that read back *)

(** Is [n / d >= 10^k]? *)
Definition ge_pow10 (n d k : Z) : bool :=
  if 0 <=? k then d * 10 ^ k <=? n else d <=? n * 10 ^ (- k).

Fixpoint raise_exp10 (fuel : nat) (n d p : Z) : Z :=
  match fuel with
  | O => p
  | S fuel' => if ge_pow10 n d (p + 1) then raise_exp10 fuel' n d (p + 1) else p
  end.

(** [floor (log10 (n / d))], from a lower estimate by the binary logarithms *)
Definition exp10 (n d : Z) : Z :=
  raise_exp10 8 n d ((Z.log2 n - Z.log2 d - 1) * 30102 / 100000 - 1).

Definition strip_zeros (z : Z) : Z * Z :=
  (fix go (fuel : nat) (z k : Z) : Z * Z :=
     match fuel with
     | O => (z, k)
     | S fuel' => if (z mod 10 =? 0) && negb (z =? 0)
                  then go fuel' (z / 10) (k + 1) else (z, k)
     end) 20%nat z 0.

(** The [n]-digit decimals next to [num / den], the nearer first. *)
Definition candidates (num den p : Z) (n : Z) : list (Z * Z) :=
  let sc := n - 1 - p in
  let a := if 0 <=? sc then num * 10 ^ sc else num in
  let b := if 0 <=? sc then den else den * 10 ^ (- sc) in
  let lo := a / b in
  let r := a mod b in
  if r =? 0 then [(lo, - sc)]
  else if (2 * r <? b) || ((2 * r =? b) && Z.even lo)
       then [(lo, - sc); (lo + 1, - sc)]
       else [(lo + 1, - sc); (lo, - sc)].

Fixpoint shortest_digits (fuel : nat) (x : float) (num den p n : Z)
  : Z * Z :=
  match fuel with
  | O => (num, 0)
  | S fuel' =>
      match filter (fun c => SFeqb (float_of_decimal false (fst c) (snd c)) x)
                   (candidates num den p n) with
      | c :: _ => let (z, k) := strip_zeros (fst c) in (z, snd c + k)
      | [] => shortest_digits fuel' x num den p (n + 1)
      end
  end.

Definition zeros (n : Z) : string :=
  string_of_list_ascii (repeat "0"%char (Z.to_nat n)).

(** [repr(f)]: fixed notation when the decimal point falls within
    [(-4, 16]], exponent notation otherwise. *)
Definition repr_finite (m : positive) (e : Z) : string :=
  let num := if 0 <=? e then Z.pos m * 2 ^ e else Z.pos m in
  let den := if 0 <=? e then 1 else 2 ^ (- e) in
  let (z, k) := shortest_digits 17 (S754_finite false m e) num den
                                (exp10 num den) 1 in
  let ds := str_of_Z z in
  let nd := Z.of_nat (String.length ds) in
  let decpt := nd + k in
  if (-4 <? decpt) && (decpt <=? 16) then
    if decpt <=? 0 then "0." ++ zeros (- decpt) ++ ds
    else if nd <=? decpt then ds ++ zeros (decpt - nd) ++ ".0"
    else substring 0 (Z.to_nat decpt) ds ++ "."
         ++ substring (Z.to_nat decpt) (Z.to_nat (nd - decpt)) ds
  else
    let x := decpt - 1 in
    substring 0 1 ds
    ++ (if 1 <? nd then "." ++ substring 1 (Z.to_nat (nd - 1)) ds else "")
    ++ "e" ++ (if x <? 0 then "-" else "+")
    ++ (if Z.abs x <? 10 then "0" else "") ++ str_of_Z (Z.abs x).

Definition repr_float (f : float) : string :=
  match f with
  | S754_zero s => if s then "-0.0" else "0.0"
  | S754_infinity s => if s then "-inf" else "inf"
  | S754_nan => "nan"
  | S754_finite s m e => (if s then "-" else "") ++ repr_finite m e
  end.

(** *** Dates *)

Definition pad (width : nat) (z : Z) : string :=
  let s := str_of_Z z in
  string_of_list_ascii (repeat "0"%char (width - String.length s)) ++ s.

Definition str_utcoffset (off : Z) : string :=
  let a := Z.abs off in
  (if off <? 0 then "-" else "+") ++ pad 2 (a / 3600) ++ ":"
  ++ pad 2 (a mod 3600 / 60)
  ++ (if a mod 60 =? 0 then "" else ":" ++ pad 2 (a mod 60)).

(** [str(t)], which is [t.isoformat(sep=' ')] *)
Definition str_datetime (t : datetime) : string :=
  pad 4 (year t) ++ "-" ++ pad 2 (month t) ++ "-" ++ pad 2 (day t) ++ " "
  ++ pad 2 (hour t) ++ ":" ++ pad 2 (minute t) ++ ":" ++ pad 2 (second t)
  ++ (if microsecond t =? 0 then "" else "." ++ pad 6 (microsecond t))
  ++ match tzinfo t with
     | Some (off, _) => str_utcoffset off
     | None => ""
     end.

Definition repr_datetime (t : datetime) : string :=
  let date := [str_of_Z (year t); str_of_Z (month t); str_of_Z (day t);
               str_of_Z (hour t); str_of_Z (minute t)] in
  let secs := if microsecond t =? 0
              then if second t =? 0 then [] else [str_of_Z (second t)]
              else [str_of_Z (second t); str_of_Z (microsecond t)] in
  let tz := match tzinfo t with
            | Some (_, r) => ["tzinfo=" ++ r]
            | None => []
            end in
  "datetime.datetime(" ++ join ", " (List.app date (List.app secs tz)) ++ ")".

(** *** [repr(v)] and [str(v)] *)

(** An object with [model_dump] prints as pydantic prints a model; any other
    object prints its class, without the address that CPython adds. *)
Fixpoint repr (v : pyval) : string :=
  match v with
  | VNone => "None"
  | VBool b => if b then "True" else "False"
  | VInt z => str_of_Z z
  | VFloat f => repr_float f
  | VStr s => repr_str s
  | VList l => "[" ++ join ", " (map repr l) ++ "]"
  | VTuple l =>
      match l with
      | [x] => "(" ++ repr x ++ ",)"
      | _ => "(" ++ join ", " (map repr l) ++ ")"
      end
  | VSet l =>
      match l with
      | [] => "set()"
      | _ => "{" ++ join ", " (map repr l) ++ "}"
      end
  | VDict d =>
      "{" ++ join ", " (map (fun kv => repr_str (fst kv) ++ ": " ++ repr (snd kv)) d)
      ++ "}"
  | VDatetime t => repr_datetime t
  | VObj cls dump attrs =>
      match dump with
      | Some _ =>
          cls ++ "("
          ++ join ", " (map (fun kv => fst kv ++ "=" ++ repr (snd kv)) attrs)
          ++ ")"
      | None => "<" ++ cls ++ " object>"
      end
  end.

Definition py_str (v : pyval) : string :=
  match v with
  | VStr s => s
  | VDatetime t => str_datetime t
  | VObj cls (Some _) attrs =>
      join " " (map (fun kv => fst kv ++ "=" ++ repr (snd kv)) attrs)
  | _ => repr v
  end.

(** [bool(v)] *)
Definition truthy (v : pyval) : bool :=
  match v with
  | VNone => false
  | VBool b => b
  | VInt z => negb (z =? 0)
  | VFloat f => negb (float_is_zero f)
  | VStr s => negb (String.eqb s "")
  | VList l | VTuple l | VSet l => match l with [] => false | _ => true end
  | VDict d => match d with [] => false | _ => true end
  | VDatetime _ => true
  | VObj _ _ _ => true
  end.

(** [type(v).__name__] *)
Definition type_name (v : pyval) : string :=
  match v with
  | VNone => "NoneType"
  | VBool _ => "bool"
  | VInt _ => "int"
  | VFloat _ => "float"
  | VStr _ => "str"
  | VList _ => "list"
  | VTuple _ => "tuple"
  | VSet _ => "set"
  | VDict _ => "dict"
  | VDatetime _ => "datetime"
  | VObj cls _ _ => cls
  end.

(** The name of the type in the messages of the builtin constructors
    ([tp_name]), which has the module for [datetime]. *)
Definition tp_name (v : pyval) : string :=
  match v with
  | VDatetime _ => "datetime.datetime"
  | _ => type_name v
  end.

(** ** Builtin constructors *)

(** [int(v)] *)
Definition py_int (v : pyval) : res Z :=
  match v with
  | VBool b => Ok (if b then 1 else 0)
  | VInt z => Ok z
  | VFloat f => int_of_float f
  | VStr s =>
      match parse_int s with
      | Some z => Ok z
      | None => Raise (ValueError ("invalid literal for int() with base 10: "
                                   ++ repr_str s))
      end
  | _ => Raise (TypeError
                  ("int() argument must be a string, a bytes-like object or a real number, not '"
                   ++ tp_name v ++ "'"))
  end.

(** [float(v)] *)
Definition py_float (v : pyval) : res float :=
  match v with
  | VBool b => Ok (float_of_Z (if b then 1 else 0))
  | VInt z => float_of_int z
  | VFloat f => Ok f
  | VStr s =>
      match parse_float s with
      | Some f => Ok f
      | None => Raise (ValueError ("could not convert string to float: "
                                   ++ repr_str s))
      end
  | _ => Raise (TypeError
                  ("float() argument must be a string or a real number, not '"
                   ++ tp_name v ++ "'"))
  end.

(** [str(e)] of an exception; for a pydantic error, its first line and one
    line for each error. *)
Definition str_line_error (le : line_error) : string :=
  join "." (le_loc le) ++ ": " ++ le_msg le ++ " [type=" ++ le_type le
  ++ ", input_value=" ++ repr (le_input le) ++ ", input_type="
  ++ type_name (le_input le) ++ "]".

Definition str_pydantic_error (e : pydantic_error) : string :=
  let n := List.length (pe_errors e) in
  str_of_Z (Z.of_nat n) ++ " validation error"
  ++ (if Nat.eqb n 1 then "" else "s") ++ " for " ++ pe_title e
  ++ String.concat "" (map (fun le => String "010" (str_line_error le))
                           (pe_errors e)).

Definition exn_str (e : exn) : string :=
  match e with
  | ValueError m | TypeError m | OverflowError m
  | AttributeError m | ParserError m | OtherException _ m => m
  | KeyError m => repr_str m
  | PydanticValidationError pe => str_pydantic_error pe
  end.

(** ** Classes *)

(** An instance of a class: its class name, what [model_dump()] returns when
    it has that method, and its [__dict__]. *)
Record instance : Type := mk_instance {
  inst_class : string;
  inst_dump : option dict;
  inst_dict : dict
}.

Definition value_of_instance (i : instance) : pyval :=
  VObj (inst_class i) (inst_dump i) (inst_dict i).

(** A subclass of [pydantic.BaseModel], with what pydantic does for it:
    [model_validate(obj, from_attributes=, strict=)],
    [model_validate_json(data, strict=)] and
    [TypeAdapter(list[model]).validate_python(objs, strict=)]. *)
Record pydantic_model : Type := mk_pydantic_model {
  pm_name : string;
  model_validate : pyval -> option bool -> option bool -> res instance;
  model_validate_json : string -> option bool -> res instance;
  validate_python_list : list pyval -> option bool -> res (list instance)
}.

(** Any other object used as a type annotation: a class of the caller, a
    builtin such as [list] or [type(None)], a parameterized generic (whose
    instance check raises [TypeError]).  [cls_model] is set when it is a
    class and [issubclass(cls, pydantic.BaseModel)]. *)
Record pyclass : Type := mk_pyclass {
  cls_name : string;
  cls_str : string;
  cls_isinstance : pyval -> res bool;
  cls_call : pyval -> res pyval;
  cls_model : option pydantic_model
}.

Inductive pytype : Type :=
| TInt
| TFloat
| TStr
| TBool
| TDatetime
| TClass (c : pyclass).

(** A type annotation: a type, [typing.Union[X, Y, ...]], or [X | Y]
    ([types.UnionType]), with the members in declared order. *)
Inductive annotation : Type :=
| Plain (t : pytype)
| Union (members : list pytype)
| UnionType (members : list pytype).

(** [t.__name__] and [str(t)] *)
Definition pytype_name (t : pytype) : string :=
  match t with
  | TInt => "int"
  | TFloat => "float"
  | TStr => "str"
  | TBool => "bool"
  | TDatetime => "datetime"
  | TClass c => cls_name c
  end.

Definition pytype_str (t : pytype) : string :=
  match t with
  | TInt => "<class 'int'>"
  | TFloat => "<class 'float'>"
  | TStr => "<class 'str'>"
  | TBool => "<class 'bool'>"
  | TDatetime => "<class 'datetime.datetime'>"
  | TClass c => cls_str c
  end.

(** [a.__name__], as CPython 3.10 to 3.13 have it: a [typing.Union] of two
    members, one of them [type(None)], is called Optional, and [X | Y] has
    no [__name__]. *)
Definition is_optional (members : list pytype) : bool :=
  match members with
  | [a; b] => String.eqb (pytype_name a) "NoneType"
              || String.eqb (pytype_name b) "NoneType"
  | _ => false
  end.

Definition annotation_name (a : annotation) : res string :=
  match a with
  | Plain t => Ok (pytype_name t)
  | Union ms => Ok (if is_optional ms then "Optional" else "Union")
  | UnionType _ =>
      Raise (AttributeError
               "'types.UnionType' object has no attribute '__name__'")
  end.

Definition annotation_str (a : annotation) : string :=
  match a with
  | Plain t => pytype_str t
  | Union ms => "typing.Union[" ++ join ", " (map pytype_name ms) ++ "]"
  | UnionType ms => join " | " (map pytype_name ms)
  end.

(** [isinstance(value, t)]; [bool] is a subclass of [int]. *)
Definition isinstance (v : pyval) (t : pytype) : res bool :=
  match t, v with
  | TInt, (VInt _ | VBool _) => Ok true
  | TFloat, VFloat _ => Ok true
  | TStr, VStr _ => Ok true
  | TBool, VBool _ => Ok true
  | TDatetime, VDatetime _ => Ok true
  | TClass c, _ => cls_isinstance c v
  | _, _ => Ok false
  end.

(** [t(value)] *)
Definition construct (t : pytype) (v : pyval) : res pyval :=
  match t with
  | TInt => do z <- py_int v; Ok (VInt z)
  | TFloat => do f <- py_float v; Ok (VFloat f)
  | TStr => Ok (VStr (py_str v))
  | TBool => Ok (VBool (truthy v))
  | TDatetime =>
      Raise (TypeError "function missing required argument 'month' (pos 2)")
  | TClass c => cls_call c v
  end.

(** [type(None)] and [list] as annotations *)
Definition NoneType : pyclass :=
  {| cls_name := "NoneType";
     cls_str := "<class 'NoneType'>";
     cls_isinstance := fun v => Ok (match v with VNone => true | _ => false end);
     cls_call := fun _ => Raise (TypeError "NoneType takes no arguments");
     cls_model := None |}.

Definition py_list (v : pyval) : res pyval :=
  match v with
  | VList l | VTuple l | VSet l => Ok (VList l)
  | VStr s => Ok (VList (map (fun c => VStr (char_str c)) (chars s)))
  | VDict d => Ok (VList (map (fun kv => VStr (fst kv)) d))
  | _ => Raise (TypeError ("'" ++ tp_name v ++ "' object is not iterable"))
  end.

Definition list_class : pyclass :=
  {| cls_name := "list";
     cls_str := "<class 'list'>";
     cls_isinstance := fun v => Ok (match v with VList _ => true | _ => false end);
     cls_call := py_list;
     cls_model := None |}.

(** ** The third-party functions the package calls *)

(** [dateutil.parser.parse] *)
Class Dateutil : Type := {
  dateutil_parse : pyval -> res pyval
}.

(** [pydantic.ValidationError.from_exception_data(title, line_errors)] *)
Class Pydantic : Type := {
  from_exception_data : string -> list line_error -> res pydantic_error
}.

(** ** cast.py *)

(** The entry of one field in [ValidationError.errors].  The caster writes
    the keys type, input_value, input_type and error; [RuleValidator] writes
    rule, message, type (the string ValidationRule) and input_value. *)
Inductive error_info : Type :=
| CastError (type : annotation) (input_value : pyval) (input_type : string)
            (error : string)
| RuleError (rule : string) (message : string) (input_value : pyval).

(** [cast.ValidationError], a subclass of [ValueError] *)
Record ValidationError : Type := mk_ValidationError {
  errors : list (string * error_info)
}.

(** What the caster raises: its own [ValidationError], or an exception of a
    field's coercion or of the constructor that none of its handlers
    catches. *)
Inductive cast_exn : Type :=
| Invalid (e : ValidationError)
| Uncaught (e : exn).

Definition is_rule_error (kv : string * error_info) : bool :=
  match snd kv with RuleError _ _ _ => true | CastError _ _ _ _ => false end.

(** [err['type'].__name__] for an entry: the name of the annotation for an
    entry of the caster; a rule entry has a string there. *)
Definition entry_type_name (info : error_info) : res string :=
  match info with
  | CastError type _ _ _ => annotation_name type
  | RuleError _ _ _ =>
      Raise (AttributeError "'str' object has no attribute '__name__'")
  end.

(** [ValidationError(errors)]: [__init__] formats
    [err['type'].__name__] for every entry, in the order of the mapping;
    the first entry without one ends it with an [AttributeError]. *)
Definition new_ValidationError (errs : list (string * error_info))
  : res ValidationError :=
  do _ <- mapM (fun item => entry_type_name (snd item)) errs;
  Ok (mk_ValidationError errs).

Definition is_scalar_kind (t : pytype) : bool :=
  match t with
  | TInt | TFloat | TStr | TBool => true
  | _ => false
  end.

Definition is_container (v : pyval) : bool :=
  match v with
  | VList _ | VDict _ | VTuple _ | VSet _ => true
  | _ => false
  end.

Definition is_datetime (t : pytype) : bool :=
  match t with TDatetime => true | _ => false end.

(** [except (ValueError, TypeError, dateutil.parser.ParserError)] *)
Definition caught_in_union (e : exn) : bool :=
  is_ValueError e || is_TypeError e || is_ParserError e.

(** [except (ValueError, TypeError, dateutil.parser.ParserError, KeyError)] *)
Definition caught_in_caster (e : exn) : bool :=
  is_ValueError e || is_TypeError e || is_ParserError e || is_KeyError e.

Definition _is_union_type (a : annotation) : bool :=
  match a with Union _ | UnionType _ => true | Plain _ => false end.

Definition _get_union_args (a : annotation) : res (list pytype) :=
  match a with
  | Union members | UnionType members => Ok members
  | Plain _ => Raise (ValueError (annotation_str a ++ " is not a union type"))
  end.

(** The target class of [cast_to_annotated_class]: its [__annotations__],
    whether it is a pydantic model, the parameter names of its [__init__]
    after [self], and what calling it with keyword arguments does. *)
Record annotated_class : Type := mk_annotated_class {
  ac_name : string;
  ac_annotations : list (string * annotation);
  ac_model : option pydantic_model;
  ac_init_params : list string;
  ac_call : dict -> res instance
}.

Definition cls_annotations (cls : annotated_class) : list (string * annotation) :=
  ac_annotations cls.

Section Cast.
Context `{Dateutil}.

Definition cast_as (value : pyval) (annotation : pytype) : res pyval :=
  do matches <- isinstance value annotation;
  if matches then Ok value
  else if is_datetime annotation then dateutil_parse value
  else construct annotation value.

(** The body of the [try] for one member: [Ok (Some v)] is [return v],
    [Ok None] is the guard's [attempted_types.append(_type); continue]. *)
Definition try_member (value : pyval) (_type : pytype)
  : res (option pyval) :=
  do matches <- isinstance value _type;
  if matches then Ok (Some value)
  else if is_scalar_kind _type && is_container value then
    match value with
    | VList [x] | VTuple [x] => do r <- cast_as x _type; Ok (Some r)
    | _ => Ok None
    end
  else do r <- cast_as value _type; Ok (Some r).

Fixpoint union_loop (value : pyval) (union_types attempted_types : list pytype)
  : res pyval :=
  match union_types with
  | [] =>
      Raise (TypeError
               ("Failed to cast value " ++ repr value
                ++ " to any of the union types: "
                ++ join ", " (map pytype_str attempted_types)))
  | _type :: rest =>
      match try_member value _type with
      | Ok (Some r) => Ok r
      | Ok None => union_loop value rest (List.app attempted_types [_type])
      | Raise e =>
          if caught_in_union e
          then union_loop value rest (List.app attempted_types [_type])
          else Raise e
      end
  end.

Definition cast_as_union (value : pyval) (union_annotation : annotation)
  : res pyval :=
  do union_types <- _get_union_args union_annotation;
  union_loop value union_types [].

Definition cast_as_annotation (value : pyval) (annotation : annotation)
  : res pyval :=
  if _is_union_type annotation then cast_as_union value annotation
  else match annotation with
       | Plain t => cast_as value t
       | Union _ | UnionType _ => cast_as_union value annotation
       end.

(** The [try] body of the caster's loop for one field. *)
Definition cast_field (value : pyval) (annotation : annotation)
  : res pyval :=
  match annotation, value with
  | Plain (TClass {| cls_model := Some m |}), VDict _ =>
      do i <- model_validate m value None None; Ok (value_of_instance i)
  | _, _ => cast_as_annotation value annotation
  end.

(** [for key, value in new_data.items()] *)
Fixpoint cast_fields (items : dict) (annotations : list (string * annotation))
         (new_data : dict) (errors : list (string * error_info))
  : res (dict * list (string * error_info)) :=
  match items with
  | [] => Ok (new_data, errors)
  | (key, value) :: rest =>
      match dict_get key annotations with
      | None => cast_fields rest annotations new_data errors
      | Some annotation =>
          match cast_field value annotation with
          | Ok v => cast_fields rest annotations (dict_set key v new_data) errors
          | Raise e =>
              if caught_in_caster e
              then cast_fields rest annotations new_data
                     (dict_set key
                        (CastError annotation value (type_name value) (exn_str e))
                        errors)
              else Raise e
          end
      end
  end.

(** [set(annotations.keys()) - set(d.keys())]; the order in which Python
    iterates over a set is unspecified, declaration order stands for it. *)
Definition missing_keys (annotations : list (string * annotation)) (d : dict)
  : list string :=
  filter (fun key => negb (dict_mem key d))
         (nodup string_dec (dict_keys annotations)).

Definition missing_entry (annotations : list (string * annotation))
           (key : string) : string * error_info :=
  (key, CastError (match dict_get key annotations with
                   | Some a => a
                   | None => Plain (TClass NoneType)
                   end)
                  VNone "NoneType" "Missing required field").

(** [cls.__new__(cls)] followed by [setattr] of every item *)
Definition set_attributes (cls : annotated_class) (new_data : dict) : instance :=
  mk_instance (ac_name cls) None new_data.

Definition lift {A} (m : res A) : outcome cast_exn A :=
  match m with
  | Ok a => Ok a
  | Raise e => Raise (Uncaught e)
  end.

Definition raise_ValidationError {A} (errs : list (string * error_info))
  : outcome cast_exn A :=
  match new_ValidationError errs with
  | Ok e => Raise (Invalid e)
  | Raise e => Raise (Uncaught e)
  end.

Definition model_failure_entry (annotations : list (string * annotation))
           (new_data : dict) (e : exn) (key : string) : string * error_info :=
  (key, CastError (match dict_get key annotations with
                   | Some a => a
                   | None => Plain (TClass NoneType)
                   end)
                  (match dict_get key new_data with
                   | Some v => v
                   | None => VNone
                   end)
                  (match dict_get key new_data with
                   | Some v => type_name v
                   | None => "NoneType"
                   end)
                  (exn_str e)).

Definition cast_to_annotated_class (d : dict) (cls : annotated_class)
  : outcome cast_exn instance :=
  let annotations := cls_annotations cls in
  match missing_keys annotations d with
  | (_ :: _) as missing =>
      raise_ValidationError (map (missing_entry annotations) missing)
  | [] =>
      do casted <- lift (cast_fields d annotations d []);
      let (new_data, errors) := casted in
      match errors with
      | _ :: _ => raise_ValidationError errors
      | [] =>
          match ac_model cls with
          | Some m =>
              match model_validate m (VDict new_data) None None with
              | Ok i => Ok i
              | Raise e =>
                  raise_ValidationError
                    (map (model_failure_entry annotations new_data e)
                         (dict_keys annotations))
              end
          | None =>
              if existsb (fun param => String.eqb param "**kwargs"
                                       || String.eqb param "*args"
                                       || dict_mem param new_data)
                         (ac_init_params cls)
              then match ac_call cls new_data with
                   | Ok i => Ok i
                   | Raise e =>
                       if is_TypeError e
                       then Ok (set_attributes cls new_data)
                       else Raise (Uncaught e)
                   end
              else Ok (set_attributes cls new_data)
          end
      end
  end.
End Cast.

(** ** record.py, result.py, options.py *)

(** [Record = dict | pydantic.BaseModel]; [validate_record] also takes any
    object with a [__dict__]. *)
Inductive record : Type :=
| RecordDict (d : dict)
| RecordObject (i : instance).

(** [Json = str | bytes | bytearray] *)
Definition Json : Type := string.

Definition is_dict (r : record) : bool :=
  match r with RecordDict _ => true | RecordObject _ => false end.

(** [RecordValidationResult] and [JsonValidationResult]: the same named
    tuple, over the kind of input. *)
Record ValidationResult (V : Type) : Type := mk_result {
  error : option pydantic_error;
  result : option instance;
  value : V
}.
Arguments mk_result {V} error result value.
Arguments error {V} _.
Arguments result {V} _.
Arguments value {V} _.

Definition RecordValidationResult : Type := ValidationResult record.
Definition JsonValidationResult : Type := ValidationResult Json.

Inductive ErrorOption : Type := RETURN | RAISE | SKIP.

Definition is_RAISE (o : ErrorOption) : bool :=
  match o with RAISE => true | _ => false end.
Definition is_SKIP (o : ErrorOption) : bool :=
  match o with SKIP => true | _ => false end.
Definition is_RETURN (o : ErrorOption) : bool :=
  match o with RETURN => true | _ => false end.

(** ** transform.py *)

(** [field = None] makes a record-level transform. *)
Record Transform : Type := mk_Transform {
  func : pyval -> res pyval;
  field : option string;
  apply_before_validation : bool
}.

Inductive transforms_arg : Type :=
| TransformDict (d : list (string * Transform))
| TransformList (l : list Transform).

(** [str(type(v))]; for an instance of a class of the caller the text also
    has the module of the class, which values do not carry. *)
Definition value_type_str (v : pyval) : string :=
  match v with
  | VDatetime _ => "<class 'datetime.datetime'>"
  | _ => "<class '" ++ type_name v ++ "'>"
  end.

Definition record_level (transform : Transform) (result : dict) : res dict :=
  do result <- func transform (VDict result);
  match result with
  | VDict d => Ok d
  | _ => Raise (ValueError ("Record-level transform must return dict, got "
                            ++ value_type_str result))
  end.

Definition field_level (transform : Transform) (name : string) (result : dict)
  : res dict :=
  match dict_get name result with
  | Some v => do v' <- func transform v; Ok (dict_set name v' result)
  | None => Ok result
  end.

Fixpoint apply_transform_dict (items : list (string * Transform)) (result : dict)
  : res dict :=
  match items with
  | [] => Ok result
  | (field_name, transform) :: rest =>
      do result <- match field transform with
                   | None => record_level transform result
                   | Some _ => field_level transform field_name result
                   end;
      apply_transform_dict rest result
  end.

Fixpoint apply_transform_list (items : list Transform) (result : dict)
  : res dict :=
  match items with
  | [] => Ok result
  | transform :: rest =>
      do result <- match field transform with
                   | None => record_level transform result
                   | Some name => field_level transform name result
                   end;
      apply_transform_list rest result
  end.

Definition apply_transforms (record : dict) (transforms : option transforms_arg)
  : res dict :=
  match transforms with
  | None => Ok record
  | Some (TransformDict d) => apply_transform_dict d record
  | Some (TransformList l) => apply_transform_list l record
  end.

(** ** rules.py *)

Record ValidationRule : Type := mk_ValidationRule {
  rule_field : string;
  validator : pyval -> res bool;
  rule_message : string;
  priority : Z
}.

(** [ValidationRule.validate] *)
Definition rule_validate (rule : ValidationRule) (v : pyval) : bool * string :=
  match validator rule v with
  | Ok is_valid => (is_valid, if is_valid then "" else rule_message rule)
  | Raise e => (false, rule_message rule ++ ": " ++ exn_str e)
  end.

(** [sorted(rules, key=lambda r: r.priority)], which is stable *)
Fixpoint insert_rule (r : ValidationRule) (l : list ValidationRule)
  : list ValidationRule :=
  match l with
  | [] => [r]
  | x :: l' => if priority r <=? priority x then r :: l
               else x :: insert_rule r l'
  end.

Definition sorted_rules (rules : list ValidationRule) : list ValidationRule :=
  fold_right insert_rule [] rules.

Record RuleValidator : Type := mk_RuleValidator {
  rv_rules : list ValidationRule;
  field_rules : list (string * list ValidationRule);
  record_rules : list ValidationRule
}.

Definition add_field_rule (rule : ValidationRule)
           (d : list (string * list ValidationRule))
  : list (string * list ValidationRule) :=
  match dict_get (rule_field rule) d with
  | Some rs => dict_set (rule_field rule) (List.app rs [rule]) d
  | None => dict_set (rule_field rule) [rule] d
  end.

Definition new_RuleValidator (rules : list ValidationRule) : RuleValidator :=
  let rules := sorted_rules rules in
  mk_RuleValidator rules
    (fold_left (fun d rule => if String.eqb (rule_field rule) "*" then d
                              else add_field_rule rule d) rules [])
    (filter (fun rule => String.eqb (rule_field rule) "*") rules).

Definition check_record_rules (rules : list ValidationRule) (record_dict : dict)
           (errors : list (string * error_info)) : list (string * error_info) :=
  fold_left (fun errors rule =>
               let (is_valid, error_msg) := rule_validate rule (VDict record_dict) in
               if is_valid then errors
               else dict_set "__record__"
                      (RuleError (rule_field rule) error_msg (VDict record_dict))
                      errors)
            rules errors.

Definition check_field_rules (field_name : string) (rules : list ValidationRule)
           (v : pyval) (errors : list (string * error_info))
  : list (string * error_info) :=
  fold_left (fun errors rule =>
               let (is_valid, error_msg) := rule_validate rule v in
               if is_valid || dict_mem field_name errors then errors
               else dict_set field_name
                      (RuleError (rule_field rule) error_msg v) errors)
            rules errors.

(** The dictionary a rule sees for a validated instance: [model_dump()] when
    it has one, its [__dict__] otherwise. *)
Definition instance_dict (i : instance) : dict :=
  match inst_dump i with
  | Some d => d
  | None => inst_dict i
  end.

(** [RuleValidator.validate], on a validated instance *)
Definition rules_validate (rv : RuleValidator) (record : instance)
  : list (string * error_info) :=
  let record_dict := instance_dict record in
  fold_left (fun errors item =>
               match dict_get (fst item) record_dict with
               | Some v => check_field_rules (fst item) (snd item) v errors
               | None => errors
               end)
            (field_rules rv)
            (check_record_rules (record_rules rv) record_dict []).

(** ** hooks.py *)

(** What an iteration of a generator of [validate.py] does, in order: an
    item is pulled from the iterator the caller passed, a callback of the
    caller is invoked, a result is yielded. *)
Inductive event (V : Type) : Type :=
| Next (item : V)
| BeforeValidate (record : V)
| AfterValidate (r : ValidationResult V)
| OnSuccess (r : ValidationResult V)
| OnError (r : ValidationResult V)
| ShouldContinue (r : ValidationResult V)
| Progress (index : nat) (total : option nat) (r : ValidationResult V)
| Yield (r : ValidationResult V).
Arguments Next {V} item.
Arguments BeforeValidate {V} record.
Arguments AfterValidate {V} r.
Arguments OnSuccess {V} r.
Arguments OnError {V} r.
Arguments ShouldContinue {V} r.
Arguments Progress {V} index total r.
Arguments Yield {V} r.

(** A complete iteration: its events, and the exception that ended it, if
    one did.  A caller that stops early sees a prefix of the log. *)
Record run (V : Type) : Type := mk_run {
  log : list (event V);
  raised : option exn
}.
Arguments mk_run {V} log raised.
Arguments log {V} _.
Arguments raised {V} _.

Definition finished {V} : run V := mk_run [] None.
Definition raising {V} (e : exn) : run V := mk_run [] (Some e).
Definition after {V} (events : list (event V)) (r : run V) : run V :=
  mk_run (List.app events (log r)) (raised r).

(** The callbacks; what a callback computes is lost to the pipeline, except
    for the answer of [should_continue]. *)
Record ValidationHooks (V : Type) : Type := mk_ValidationHooks {
  before_validate : option (V -> res unit);
  after_validate : option (ValidationResult V -> res unit);
  on_success : option (ValidationResult V -> res unit);
  on_error : option (ValidationResult V -> res unit);
  should_continue : option (ValidationResult V -> res bool)
}.
Arguments mk_ValidationHooks {V}.
Arguments before_validate {V} _.
Arguments after_validate {V} _.
Arguments on_success {V} _.
Arguments on_error {V} _.
Arguments should_continue {V} _.

Definition ProgressCallback (V : Type) : Type :=
  nat -> option nat -> ValidationResult V -> res unit.

Definition is_None {A} (o : option A) : bool :=
  match o with None => true | Some _ => false end.

Section Hooks.
Context {V : Type}.

Definition call_before_validate (self : ValidationHooks V) (record : V)
  : list (event V) :=
  match before_validate self with
  | Some f => match f record with
              | Ok _ | Raise _ => [BeforeValidate record]
              end
  | None => []
  end.

Definition call_after_validate (self : ValidationHooks V)
           (r : ValidationResult V) : list (event V) :=
  match after_validate self with
  | Some f => match f r with
              | Ok _ | Raise _ => [AfterValidate r]
              end
  | None => []
  end.

Definition call_on_success (self : ValidationHooks V)
           (r : ValidationResult V) : list (event V) :=
  match on_success self with
  | Some f => if is_None (error r)
              then match f r with
                   | Ok _ | Raise _ => [OnSuccess r]
                   end
              else []
  | None => []
  end.

Definition call_on_error (self : ValidationHooks V)
           (r : ValidationResult V) : list (event V) :=
  match on_error self with
  | Some f => if is_None (error r) then []
              else match f r with
                   | Ok _ | Raise _ => [OnError r]
                   end
  | None => []
  end.

Definition check_should_continue (self : ValidationHooks V)
           (r : ValidationResult V) : list (event V) * bool :=
  match should_continue self with
  | Some f => match f r with
              | Ok answer => ([ShouldContinue r], answer)
              | Raise _ => ([ShouldContinue r], true)
              end
  | None => ([], true)
  end.

(** The calls of the pipeline after a validation, under
    [if hooks is not None]: the events, and whether to stop. *)
Definition call_hooks (hooks : option (ValidationHooks V))
           (r : ValidationResult V) : list (event V) * bool :=
  match hooks with
  | Some h =>
      let (asked, answer) := check_should_continue h r in
      (List.app (call_after_validate h r)
         (List.app (call_on_success h r)
            (List.app (call_on_error h r) asked)),
       negb answer)
  | None => ([], false)
  end.

(** [on_progress(index, total, result)] under [try] / [except Exception] *)
Definition call_progress (on_progress : option (ProgressCallback V))
           (index : nat) (total : option nat) (r : ValidationResult V)
  : list (event V) :=
  match on_progress with
  | Some f => match f index total r with
              | Ok _ | Raise _ => [Progress index total r]
              end
  | None => []
  end.
End Hooks.

(** ** validate.py *)

(** The [model] argument: an instance of a pydantic model, a pydantic model
    class, or any other class with annotations. *)
Inductive model_arg : Type :=
| ModelInstance (m : pydantic_model)
| ModelClass (m : pydantic_model)
| AnnotatedClass (cls : annotated_class).

(** [model.__name__ if isinstance(model, type) else "Unknown"] *)
Definition model_title (model : model_arg) : string :=
  match model with
  | ModelInstance _ => "Unknown"
  | ModelClass m => pm_name m
  | AnnotatedClass cls => ac_name cls
  end.

(** The [records] argument, and what the variable holds later: a list, the
    iterator the caller passed, or an iterator made by [iter(records_list)].
    An iterator is the list of the items it has left. *)
Inductive source (V : Type) : Type :=
| CallerList (l : list V)
| CallerIterator (remaining : list V)
| ListIterator (remaining : list V).
Arguments CallerList {V} l.
Arguments CallerIterator {V} remaining.
Arguments ListIterator {V} remaining.

(** [list(records)], or [records] itself when it is a list: the items, the
    pulls from the caller's iterator, and the variable afterwards. *)
Definition materialize {V} (records : source V)
  : list V * list (event V) * source V :=
  match records with
  | CallerList l => (l, [], CallerList l)
  | CallerIterator remaining => (remaining, map Next remaining, CallerIterator [])
  | ListIterator remaining => (remaining, [], ListIterator [])
  end.

Definition record_value (r : record) : pyval :=
  match r with
  | RecordDict d => VDict d
  | RecordObject i => value_of_instance i
  end.

Definition _filter_record_fields (record : dict) (fields : list string) : dict :=
  filter (fun kv => str_mem (fst kv) fields) record.

Definition _project_model_fields (model_instance : instance) (fields : list string)
  : dict :=
  filter (fun kv => str_mem (fst kv) fields) (instance_dict model_instance).

(** [isinstance(i, pydantic.BaseModel)] *)
Definition is_BaseModel (i : instance) : bool := negb (is_None (inst_dump i)).

(** [type("ProjectedResult", (), projected)()]: the items are attributes of
    the new class. *)
Definition ProjectedResult (projected : dict) : instance :=
  mk_instance "ProjectedResult" None projected.

(** The entries handed to [from_exception_data] for a [cast.ValidationError] *)
Definition pydantic_errors_of (errs : list (string * error_info))
  : res (list line_error) :=
  mapM (fun item =>
          match snd item with
          | CastError type input_value input_type _ =>
              do name <- annotation_name type;
              Ok (mk_line_error "type_error" [fst item]
                    ("expected " ++ name ++ ", got " ++ input_type)
                    input_value)
          | RuleError _ _ _ =>
              Raise (AttributeError "'str' object has no attribute '__name__'")
          end)
       errs.

Definition _can_use_bulk {V} (records : source V) (model : model_arg)
           (error_option : ErrorOption) : bool :=
  match model with
  | ModelClass _ => is_RETURN error_option
  | _ => false
  end.

Section Validate.
Context `{Dateutil} `{Pydantic}.

Variable model : model_arg.
Variables from_attributes strict : option bool.
Variables fields project_fields : option (list string).
Variable transforms : option transforms_arg.
Variable rules : option (list ValidationRule).

(** [record.copy()], [record.model_dump()] or [record.__dict__]; the last
    branch of the conversion is for what is not a [Record]. *)
Definition record_to_dict (record : record) : dict :=
  match record with
  | RecordDict d => d
  | RecordObject i => instance_dict i
  end.

Definition check_rules (validated_record : instance) : outcome cast_exn unit :=
  match rules with
  | Some rules =>
      match rules_validate (new_RuleValidator rules) validated_record with
      | [] => Ok tt
      | rule_errors => raise_ValidationError rule_errors
      end
  | None => Ok tt
  end.

(** The body of the [try] of [validate_record] *)
Definition validate_body (record_dict : dict) : outcome cast_exn instance :=
  do validated_record <-
     match model with
     | ModelInstance m | ModelClass m =>
         lift (model_validate m (VDict record_dict) from_attributes strict)
     | AnnotatedClass cls => cast_to_annotated_class record_dict cls
     end;
  do _ <- check_rules validated_record;
  Ok (match project_fields with
      | Some project_fields =>
          if is_BaseModel validated_record
          then ProjectedResult (_project_model_fields validated_record project_fields)
          else validated_record
      | None => validated_record
      end).

Definition validate_record (record : record) (raise_errors : bool)
  : res RecordValidationResult :=
  let original_record := record in
  let record_dict := record_to_dict record in
  do record_dict <- apply_transforms record_dict transforms;
  let record_dict := match fields with
                     | Some fields => _filter_record_fields record_dict fields
                     | None => record_dict
                     end in
  match validate_body record_dict with
  | Ok validated_record =>
      Ok (mk_result None (Some validated_record) original_record)
  | Raise (Uncaught (PydanticValidationError e)) =>
      if raise_errors then Raise (PydanticValidationError e)
      else Ok (mk_result (Some e) None original_record)
  | Raise (Invalid e) =>
      do pydantic_errors <- pydantic_errors_of (errors e);
      do pydantic_error <- from_exception_data (model_title model) pydantic_errors;
      if raise_errors then Raise (PydanticValidationError pydantic_error)
      else Ok (mk_result (Some pydantic_error) None original_record)
  | Raise (Uncaught e) =>
      if raise_errors then Raise e
      else
        do pydantic_error <-
           from_exception_data (model_title model)
             [mk_line_error "value_error" [] (exn_str e)
                            (record_value original_record)];
        Ok (mk_result (Some pydantic_error) None original_record)
  end.

Variable error_option : ErrorOption.
Variable on_progress : option (ProgressCallback record).
Variable hooks : option (ValidationHooks record).

(** The loop of the individual validation, from [index] on *)
Fixpoint individual_loop (records : list record) (total : option nat)
         (index : nat) : run record :=
  match records with
  | [] => finished
  | record :: rest =>
      after (match hooks with
             | Some h => call_before_validate h record
             | None => []
             end)
        match validate_record record (is_RAISE error_option) with
        | Raise e => raising e
        | Ok record_result =>
            let (called, stop) := call_hooks hooks record_result in
            after called
              (if stop then finished
               else
                 after (call_progress on_progress index total record_result)
                   (if negb (is_None (error record_result))
                       && is_SKIP error_option
                    then individual_loop rest total (S index)
                    else after [Yield record_result]
                           (individual_loop rest total (S index))))
        end
  end.

(** The individual validation, the default and the fallback of the bulk
    path: the records are made a list to know their number. *)
Definition individual (records : source record) : run record :=
  let '(records_list, pulled, _) := materialize records in
  after pulled (individual_loop records_list (Some (List.length records_list)) 0).

(** The two list comprehensions of the bulk path *)
Definition bulk_prepare (records_list : list dict) : res (list dict) :=
  do records_list <- match transforms with
                     | Some _ => mapM (fun r => apply_transforms r transforms)
                                      records_list
                     | None => Ok records_list
                     end;
  Ok (match fields with
      | Some fields => map (fun r => _filter_record_fields r fields) records_list
      | None => records_list
      end).

Definition project (validated_model : instance) : instance :=
  match project_fields with
  | Some project_fields =>
      ProjectedResult (_project_model_fields validated_model project_fields)
  | None => validated_model
  end.

(** [records_list[idx]] *)
Definition item_at (records_list : list dict) (idx : nat) : res record :=
  match nth_error records_list idx with
  | Some r => Ok (RecordDict r)
  | None => Raise (OtherException "IndexError" "list index out of range")
  end.

(** The result of the bulk path for one validated model *)
Definition bulk_result (model_name : string) (records_list : list dict)
           (idx : nat) (validated_model : instance)
  : res RecordValidationResult :=
  match rules with
  | Some rules =>
      match rules_validate (new_RuleValidator rules) validated_model with
      | [] =>
          do v <- item_at records_list idx;
          Ok (mk_result None (Some (project validated_model)) v)
      | rule_errors =>
          do cast_error <- new_ValidationError rule_errors;
          do pydantic_errors_list <- pydantic_errors_of (errors cast_error);
          do pydantic_err <- from_exception_data model_name pydantic_errors_list;
          do v <- item_at records_list idx;
          Ok (mk_result (Some pydantic_err) None v)
      end
  | None =>
      do v <- item_at records_list idx;
      Ok (mk_result None (Some (project validated_model)) v)
  end.

(** [for idx, validated_model in enumerate(validated_models)]: the events,
    and the exception that left the loop, if one did. *)
Fixpoint bulk_loop (model_name : string) (records_list : list dict)
         (total_count : nat) (validated_models : list instance) (idx : nat)
  : run record :=
  match validated_models with
  | [] => finished
  | validated_model :: rest =>
      match bulk_result model_name records_list idx validated_model with
      | Raise e => raising e
      | Ok result =>
          let (called, stop) := call_hooks hooks result in
          after called
            (if stop then finished
             else
               after (List.app
                        (call_progress on_progress idx (Some total_count) result)
                        [Yield result])
                 (bulk_loop model_name records_list total_count rest (S idx)))
      end
  end.

Definition as_dict (r : record) : dict :=
  match r with
  | RecordDict d => d
  | RecordObject i => instance_dict i
  end.

(** What follows the bulk attempt when an exception leaves it: the inner
    handler rebinds [records], the outer one does not. *)
Definition fall_back (e : exn) (records_list : list dict)
           (records : source record) : run record :=
  match e with
  | PydanticValidationError _ =>
      individual (ListIterator (map RecordDict records_list))
  | _ => individual records
  end.

Definition validate_records (records : source record) (bulk : bool)
  : run record :=
  if bulk && _can_use_bulk records model error_option then
    let '(records_list, pulled, records) := materialize records in
    after pulled
      match records_list with
      | [] => finished
      | _ :: _ =>
          if negb (forallb is_dict records_list)
          then individual (ListIterator records_list)
          else
            match bulk_prepare (map as_dict records_list) with
            | Raise _ => individual records
            | Ok records_list =>
                match model with
                | ModelClass m =>
                    match validate_python_list m (map VDict records_list) strict with
                    | Raise e => fall_back e records_list records
                    | Ok validated_models =>
                        let r := bulk_loop (pm_name m) records_list
                                           (List.length records_list)
                                           validated_models 0 in
                        match raised r with
                        | Some e =>
                            after (log r) (fall_back e records_list records)
                        | None => r
                        end
                    end
                | _ => individual records
                end
            end
      end
  else individual records.
End Validate.

(** [validate_json] and [validate_jsons] *)
Section ValidateJson.
Variable model : pydantic_model.
Variable strict : option bool.

Definition validate_json (json : Json) (raise_errors : bool)
  : res JsonValidationResult :=
  match model_validate_json model json strict with
  | Ok validated_record => Ok (mk_result None (Some validated_record) json)
  | Raise (PydanticValidationError e) =>
      if raise_errors then Raise (PydanticValidationError e)
      else Ok (mk_result (Some e) None json)
  | Raise e => Raise e
  end.

Variable error_option : ErrorOption.
Variable on_progress : option (ProgressCallback Json).
Variable hooks : option (ValidationHooks Json).

(** [for record in records]: [pulls] tells whether each item comes from
    the caller's iterator. *)
Fixpoint jsons_loop (pulls : bool) (records : list Json) (total : option nat)
         (index : nat) : run Json :=
  match records with
  | [] => finished
  | record :: rest =>
      after (List.app (if pulls then [Next record] else [])
               (match hooks with
                | Some h => call_before_validate h record
                | None => []
                end))
        match validate_json record (is_RAISE error_option) with
        | Raise e => raising e
        | Ok result =>
            let (called, stop) := call_hooks hooks result in
            after called
              (if stop then finished
               else
                 after (call_progress on_progress index total result)
                   (if negb (is_None (error result)) && is_SKIP error_option
                    then jsons_loop pulls rest total (S index)
                    else after [Yield result]
                           (jsons_loop pulls rest total (S index))))
        end
  end.

Definition validate_jsons (records : source Json) : run Json :=
  match records with
  | CallerList l => jsons_loop false l (Some (List.length l)) 0
  | CallerIterator remaining => jsons_loop true remaining None 0
  | ListIterator remaining => jsons_loop false remaining None 0
  end.
End ValidateJson.

(** [validate]: records and JSON texts in one sequence.  An item is a JSON
    text when [isinstance(record, (str, bytes, bytearray))]. *)
Inductive any_record : Type :=
| OfRecord (r : record)
| OfJson (json : Json).

(** The same result, its [value] seen as an item of the mixed sequence. *)
Definition result_of {V W} (f : V -> W) (r : ValidationResult V)
  : ValidationResult W :=
  mk_result (error r) (result r) (f (value r)).

Section ValidateAny.
Context `{Dateutil} `{Pydantic}.

Variable model : model_arg.
Variables from_attributes strict : option bool.
Variables fields project_fields : option (list string).
Variable transforms : option transforms_arg.
Variable rules : option (list ValidationRule).
Variable error_option : ErrorOption.
Variable on_progress : option (ProgressCallback any_record).
Variable hooks : option (ValidationHooks any_record).

(** The two branches of the body of the loop; a class that is no pydantic
    model has no [model_validate_json]. *)
Definition validate_item (record : any_record) (raise_errors : bool)
  : res (ValidationResult any_record) :=
  match record with
  | OfJson json =>
      match model with
      | ModelInstance m | ModelClass m =>
          do r <- validate_json m strict json raise_errors;
          Ok (result_of OfJson r)
      | AnnotatedClass cls =>
          Raise (AttributeError ("type object '" ++ ac_name cls
                                 ++ "' has no attribute 'model_validate_json'"))
      end
  | OfRecord record =>
      do r <- validate_record model from_attributes strict fields
                              project_fields transforms rules record raise_errors;
      Ok (result_of OfRecord r)
  end.

Fixpoint validate_loop (pulls : bool) (records : list any_record)
         (total : option nat) (index : nat) : run any_record :=
  match records with
  | [] => finished
  | record :: rest =>
      after (List.app (if pulls then [Next record] else [])
               (match hooks with
                | Some h => call_before_validate h record
                | None => []
                end))
        match validate_item record (is_RAISE error_option) with
        | Raise e => raising e
        | Ok result =>
            let (called, stop) := call_hooks hooks result in
            after called
              (if stop then finished
               else
                 after (call_progress on_progress index total result)
                   (if negb (is_None (error result)) && is_SKIP error_option
                    then validate_loop pulls rest total (S index)
                    else after [Yield result]
                           (validate_loop pulls rest total (S index))))
        end
  end.

(** [validate]; its [bulk] argument is not used. *)
Definition validate (records : source any_record) (bulk : bool)
  : run any_record :=
  match records with
  | CallerList l => validate_loop false l (Some (List.length l)) 0
  | CallerIterator remaining => validate_loop true remaining None 0
  | ListIterator remaining => validate_loop false remaining None 0
  end.
End ValidateAny.

(** ** stats.py *)

(** [a / b] for ints [a >= 0] and [b > 0]: the float nearest to the
    quotient (ties to even), the quotient being taken with 64 extra bits and
    a sticky bit before it is rounded. *)
Definition int_truediv (a b : Z) : float :=
  if a =? 0 then S754_zero false
  else
    let s := Z.max 0 (Z.log2 b - Z.log2 a + 64) in
    let q := (a * 2 ^ s) / b in
    let sticky := if (a * 2 ^ s) mod b =? 0 then 0 else 1 in
    binary_normalize 53 1024 (2 * q + sticky) (- (s + 1)) false.

(** [collections.Counter]: [counter[key] += 1] *)
Definition Counter : Type := list (string * Z).

Definition counter_incr (key : string) (counter : Counter) : Counter :=
  match dict_get key counter with
  | Some n => dict_set key (n + 1) counter
  | None => dict_set key 1 counter
  end.

Record ValidationStats : Type := mk_ValidationStats {
  total : Z;
  valid_count : Z;
  invalid_count : Z;
  valid_percentage : float;
  invalid_percentage : float;
  error_counts : Counter;
  field_error_counts : Counter;
  total_errors : Z
}.

(** The inner loop of [from_results], over the entries of
    [result.error.errors()]: an entry with a location counts for the field
    it names. *)
Definition count_field_errors (details : list line_error)
           (counted : Counter * Z) : Counter * Z :=
  fold_left (fun (counted : Counter * Z) (error_detail : line_error) =>
               let (field_error_counter, total_errors) := counted in
               match le_loc error_detail with
               | [] => counted
               | loc =>
                   (counter_incr (join "." loc) field_error_counter,
                    total_errors + 1)
               end)
            details counted.

(** The loop of [from_results]; the class of a result's error is
    [pydantic.ValidationError]. *)
Definition count_errors {V} (results_list : list (ValidationResult V))
  : Counter * Counter * Z :=
  fold_left (fun (counted : Counter * Counter * Z) (result : ValidationResult V) =>
               let '(error_type_counter, field_error_counter, total_errors) :=
                 counted in
               match error result with
               | Some e =>
                   let (field_error_counter, total_errors) :=
                     count_field_errors (pe_errors e)
                       (field_error_counter, total_errors + 1) in
                   (counter_incr "ValidationError" error_type_counter,
                    field_error_counter, total_errors)
               | None => counted
               end)
            results_list ([], [], 0).

(** [ValidationStats.from_results] *)
Definition from_results {V} (results : list (ValidationResult V))
  : ValidationStats :=
  let results_list := results in
  let total := Z.of_nat (List.length results_list) in
  let valid_count :=
    Z.of_nat (List.length (filter (fun r => is_None (error r)) results_list)) in
  let invalid_count := total - valid_count in
  let valid_percentage :=
    if 0 <? total
    then SFmul 53 1024 (int_truediv valid_count total) (float_of_Z 100)
    else S754_zero false in
  let invalid_percentage :=
    if 0 <? total
    then SFmul 53 1024 (int_truediv invalid_count total) (float_of_Z 100)
    else S754_zero false in
  let '(error_type_counter, field_error_counter, total_errors) :=
    count_errors results_list in
  mk_ValidationStats total valid_count invalid_count valid_percentage
                     invalid_percentage error_type_counter field_error_counter
                     total_errors.

(** [get_stats] *)
Definition get_stats {V} (results : list (ValidationResult V)) : ValidationStats :=
  from_results results.

(** ** Stand-ins for the libraries and the models of the test-suite

    The theorems hold for every date parser, every error constructor and
    every model; these are the ones the examples run with. *)

Definition two_digits (a b : ascii) : option Z :=
  match digit_val a, digit_val b with
  | Some x, Some y => Some (10 * x + y)
  | _, _ => None
  end.

Definition read_date (l : list ascii) : option (Z * Z * Z * list ascii) :=
  match l with
  | y1 :: y2 :: y3 :: y4 :: s1 :: m1 :: m2 :: s2 :: d1 :: d2 :: rest =>
      match two_digits y1 y2, two_digits y3 y4, two_digits m1 m2, two_digits d1 d2 with
      | Some a, Some b, Some m, Some d =>
          if Ascii.eqb s1 "-" && Ascii.eqb s2 "-"
             && (1 <=? m) && (m <=? 12) && (1 <=? d) && (d <=? 28)
             && (1 <=? 100 * a + b)
          then Some (100 * a + b, m, d, rest) else None
      | _, _, _, _ => None
      end
  | _ => None
  end.

Definition read_time (l : list ascii) : option (Z * Z * Z) :=
  match l with
  | [] => Some (0, 0, 0)
  | [sep; h1; h2; s1; m1; m2; s2; c1; c2] =>
      match two_digits h1 h2, two_digits m1 m2, two_digits c1 c2 with
      | Some h, Some m, Some c =>
          if (Ascii.eqb sep "T" || Ascii.eqb sep " ")
             && Ascii.eqb s1 ":" && Ascii.eqb s2 ":"
             && (h <=? 23) && (m <=? 59) && (c <=? 59)
          then Some (h, m, c) else None
      | _, _, _ => None
      end
  | _ => None
  end.

(** A date parser that reads [YYYY-MM-DD] and [YYYY-MM-DDTHH:MM:SS] (days up
    to the 28th) as dateutil does, and rejects every other text, which
    dateutil does not. *)
Definition iso_parse (v : pyval) : res pyval :=
  match v with
  | VStr s =>
      match read_date (chars s) with
      | Some (y, m, d, rest) =>
          match read_time rest with
          | Some (h, mi, c) => Ok (VDatetime (mk_datetime y m d h mi c 0 None))
          | None => Raise (ParserError ("Unknown string format: " ++ s))
          end
      | None => Raise (ParserError ("Unknown string format: " ++ s))
      end
  | _ => Raise (TypeError ("Parser must be a string or character stream, not "
                           ++ type_name v))
  end.

Definition iso_dateutil : Dateutil := {| dateutil_parse := iso_parse |}.

(** The error constructor of pydantic 2, for the error types the examples
    meet.  A type that is none of pydantic's error types, as type_error, is
    refused with a [KeyError]; value_error needs a context, which an entry
    here does not have, and is refused with a [TypeError]; for its own
    types pydantic writes the message itself. *)
Definition pydantic_messages : list (string * string) :=
  [("missing", "Field required");
   ("int_parsing",
    "Input should be a valid integer, unable to parse string as an integer");
   ("float_parsing",
    "Input should be a valid number, unable to parse string as a number");
   ("string_type", "Input should be a valid string")].

Definition pydantic_line_error (le : line_error) : res line_error :=
  if String.eqb (le_type le) "value_error"
  then Raise (TypeError "ValueError: 'error' required in context")
  else match dict_get (le_type le) pydantic_messages with
       | Some msg => Ok (mk_line_error (le_type le) (le_loc le) msg (le_input le))
       | None => Raise (KeyError ("Invalid error type: '" ++ le_type le ++ "'"))
       end.

Definition pydantic_2 : Pydantic :=
  {| from_exception_data :=
       fun title line_errors =>
         do line_errors <- mapM pydantic_line_error line_errors;
         Ok (mk_pydantic_error title line_errors) |}.

(** [class Person(pydantic.BaseModel): id: int; name: str; age: float], with
    a validation that takes an int or the text of one for [id], a str for
    [name], a float, an int or the text of a float for [age]. *)
Definition lax_int (v : pyval) : option pyval :=
  match v with
  | VInt z => Some (VInt z)
  | VStr s => option_map VInt (parse_int s)
  | _ => None
  end.

Definition lax_float (v : pyval) : option pyval :=
  match v with
  | VFloat f => Some (VFloat f)
  | VInt z => Some (VFloat (float_of_Z z))
  | VStr s => option_map VFloat (parse_float s)
  | _ => None
  end.

Definition lax_str (v : pyval) : option pyval :=
  match v with
  | VStr s => Some (VStr s)
  | _ => None
  end.

Definition Person_fields : list (string * (string * (pyval -> option pyval))) :=
  [("id", ("int_parsing", lax_int));
   ("name", ("string_type", lax_str));
   ("age", ("float_parsing", lax_float))].

Definition check_person_field (d : dict)
           (f : string * (string * (pyval -> option pyval)))
  : (string * pyval) + line_error :=
  match dict_get (fst f) d with
  | None => inr (mk_line_error "missing" [fst f] "Field required" (VDict d))
  | Some v =>
      match snd (snd f) v with
      | Some v' => inl (fst f, v')
      | None => inr (mk_line_error (fst (snd f)) [fst f] "Input is not valid" v)
      end
  end.

Definition lefts {A B} (l : list (A + B)) : list A :=
  flat_map (fun x => match x with inl a => [a] | inr _ => [] end) l.

Definition rights {A B} (l : list (A + B)) : list B :=
  flat_map (fun x => match x with inl _ => [] | inr b => [b] end) l.

Definition Person_validate (v : pyval) (from_attributes strict : option bool)
  : res instance :=
  match v with
  | VDict d =>
      let checked := map (check_person_field d) Person_fields in
      match rights checked with
      | [] => Ok (mk_instance "Person" (Some (lefts checked)) (lefts checked))
      | errs => Raise (PydanticValidationError (mk_pydantic_error "Person" errs))
      end
  | _ =>
      Raise (PydanticValidationError
               (mk_pydantic_error "Person"
                  [mk_line_error "model_type" []
                     "Input should be a valid dictionary or instance of Person" v]))
  end.

Definition alice : dict :=
  [("id", VInt 1); ("name", VStr "Alice"); ("age", VFloat (float_of_Z 30))].
Definition bob : dict :=
  [("id", VStr "invalid"); ("name", VStr "Bob"); ("age", VFloat (float_of_Z 25))].
Definition charlie : dict :=
  [("id", VInt 3); ("name", VStr "Charlie"); ("age", VFloat (float_of_Z 35))].

(** The JSON texts of the test-suite with what they parse to *)
Definition quoted (s : string) : string := String dquote s ++ char_str dquote.

Definition json_person (id name age : string) : string :=
  "{" ++ quoted "id" ++ ": " ++ id ++ ", " ++ quoted "name" ++ ": " ++ name
  ++ ", " ++ quoted "age" ++ ": " ++ age ++ "}".

Definition alice_json : Json := json_person "1" (quoted "Alice") "30.0".
Definition bob_json : Json := json_person (quoted "invalid") (quoted "Bob") "25.0".
Definition charlie_json : Json := json_person "3" (quoted "Charlie") "35.0".

Definition known_json : list (string * dict) :=
  [(alice_json, alice); (bob_json, bob); (charlie_json, charlie)].

Definition Person_validate_json (json : string) (strict : option bool)
  : res instance :=
  match dict_get json known_json with
  | Some d => Person_validate (VDict d) None strict
  | None =>
      Raise (PydanticValidationError
               (mk_pydantic_error "Person"
                  [mk_line_error "json_invalid" [] "Invalid JSON" (VStr json)]))
  end.

Definition Person : pydantic_model :=
  {| pm_name := "Person";
     model_validate := Person_validate;
     model_validate_json := Person_validate_json;
     validate_python_list :=
       fun objs strict => mapM (fun v => Person_validate v None strict) objs |}.

(** [class Person: id: int; name: str; age: float], a plain class: its
    [__init__] is [object.__init__], which takes no keyword. *)
Definition PersonClass : annotated_class :=
  {| ac_name := "Person";
     ac_annotations := [("id", Plain TInt); ("name", Plain TStr); ("age", Plain TFloat)];
     ac_model := None;
     ac_init_params := ["args"; "kwargs"];
     ac_call := fun _ => Raise (TypeError "Person() takes no arguments") |}.

Definition inf : float := S754_infinity false.

(** A record-level transform that returns [None], hooks with a
    before-validate callback only, and Alice with one more key. *)
Definition to_none : Transform :=
  {| func := fun _ => Ok VNone; field := None; apply_before_validation := true |}.

Definition watching : ValidationHooks record :=
  {| before_validate := Some (fun _ => Ok tt);
     after_validate := None;
     on_success := None;
     on_error := None;
     should_continue := None |}.

(** What the stand-in of pydantic returns for Alice, Bob and Charlie. *)
Definition alice_result : RecordValidationResult :=
  mk_result None (Some (mk_instance "Person" (Some alice) alice)) (RecordDict alice).

Definition bob_error : pydantic_error :=
  mk_pydantic_error "Person"
    [mk_line_error "int_parsing" ["id"] "Input is not valid" (VStr "invalid")].

Definition bob_result : RecordValidationResult :=
  mk_result (Some bob_error) None (RecordDict bob).

Definition charlie_result : RecordValidationResult :=
  mk_result None (Some (mk_instance "Person" (Some charlie) charlie))
            (RecordDict charlie).

Definition alice_nick : dict := List.app alice [("nickname", VStr "Al")].

(** Rules, transforms, hooks and one more model for the examples: rules on
    the id and on the whole record, a transform of the id, hooks that stop
    at the first failure, and a model with a validator that raises a
    [RuntimeError] for Bob. *)
Definition id_below (bound priority : Z) : ValidationRule :=
  {| rule_field := "id";
     validator := fun v => match v with
                           | VInt z => Ok (z <? bound)
                           | _ => Raise (TypeError "id is not an int")
                           end;
     rule_message := "id must be below " ++ str_of_Z bound;
     priority := priority |}.

Definition reject_all : ValidationRule :=
  {| rule_field := "*";
     validator := fun _ => Ok false;
     rule_message := "rejected";
     priority := 0 |}.

Definition double_id : Transform :=
  {| func := fun v => match v with
                      | VInt z => Ok (VInt (2 * z))
                      | _ => Ok v
                      end;
     field := Some "id";
     apply_before_validation := true |}.

Definition stop_at_failure : ValidationHooks record :=
  {| before_validate := None;
     after_validate := None;
     on_success := None;
     on_error := None;
     should_continue := Some (fun r => Ok (is_None (error r))) |}.

Definition Fragile : pydantic_model :=
  {| pm_name := "Fragile";
     model_validate := Person_validate;
     model_validate_json :=
       fun json strict =>
         if String.eqb json bob_json
         then Raise (OtherException "RuntimeError" "validator failed")
         else Person_validate_json json strict;
     validate_python_list :=
       fun objs strict => mapM (fun v => Person_validate v None strict) objs |}.

Definition alice_instance : instance := mk_instance "Person" (Some alice) alice.
Definition charlie_instance : instance :=
  mk_instance "Person" (Some charlie) charlie.

Definition alice_json_result : JsonValidationResult :=
  mk_result None (Some alice_instance) alice_json.

(** A mapping with texts for the numbers and one key more than the class
    declares, and what the caster makes of it. *)
Definition loose : dict :=
  [("id", VStr "7"); ("name", VStr "Al"); ("age", VInt 30);
   ("nickname", VStr "Ally")].

Definition loose_cast : dict :=
  [("id", VInt 7); ("name", VStr "Al"); ("age", VFloat (float_of_Z 30));
   ("nickname", VStr "Ally")].

(** [class Reading: sensor: str; level: int | float], a plain class, and
    the same class with the field declared [Union[int, float]]. *)
Definition Reading : annotated_class :=
  {| ac_name := "Reading";
     ac_annotations := [("sensor", Plain TStr); ("level", UnionType [TInt; TFloat])];
     ac_model := None;
     ac_init_params := ["args"; "kwargs"];
     ac_call := fun _ => Raise (TypeError "Reading() takes no arguments") |}.

Definition ReadingTyping : annotated_class :=
  {| ac_name := "Reading";
     ac_annotations := [("sensor", Plain TStr); ("level", Union [TInt; TFloat])];
     ac_model := None;
     ac_init_params := ["args"; "kwargs"];
     ac_call := fun _ => Raise (TypeError "Reading() takes no arguments") |}.

(** The result for Alice when the model is the plain class. *)
Definition alice_cast_result : RecordValidationResult :=
  mk_result None (Some (mk_instance "Person" None alice)) (RecordDict alice).

(** ** Vocabulary of the properties *)

(** An annotation that has a [__name__], and an entry that
    [ValidationError] can format: an entry of the caster for such an
    annotation. *)
Definition named (a : annotation) : bool :=
  match a with
  | UnionType _ => false
  | Plain _ | Union _ => true
  end.

Definition named_entry (kv : string * error_info) : bool :=
  match snd kv with
  | CastError type _ _ _ => named type
  | RuleError _ _ _ => false
  end.

(** A member is passed over: the guard rejects the value, or the attempt
    raises an exception that the handler of the loop catches. *)
Definition passed_over `{Dateutil} (value : pyval) (_type : pytype) : Prop :=
  try_member value _type = Ok None
  \/ exists e, try_member value _type = Raise e /\ caught_in_union e = true.

(** The fields of a mapping whose coercion raises, in the order of the
    mapping. *)
Definition fails `{Dateutil} (annotations : list (string * annotation))
           (item : string * pyval) : bool :=
  match dict_get (fst item) annotations with
  | Some annotation =>
      match cast_field (snd item) annotation with
      | Ok _ => false
      | Raise _ => true
      end
  | None => false
  end.

Definition failing_fields `{Dateutil} (annotations : list (string * annotation))
           (d : dict) : list string :=
  dict_keys (filter (fails annotations) d).

(** The entries the caster's loop writes for them. *)
Definition failure_entries `{Dateutil} (annotations : list (string * annotation))
           (d : dict) : list (string * error_info) :=
  flat_map (fun item =>
              match dict_get (fst item) annotations with
              | Some annotation =>
                  match cast_field (snd item) annotation with
                  | Ok _ => []
                  | Raise e =>
                      [(fst item,
                        CastError annotation (snd item) (type_name (snd item))
                                  (exn_str e))]
                  end
              | None => []
              end)
           d.

(** Every exception that the coercion of a declared field of [d] raises is
    one that the handler of the caster's loop catches. *)
Definition failures_caught `{Dateutil} (annotations : list (string * annotation))
           (d : dict) : Prop :=
  forall key value annotation e,
    In (key, value) d ->
    dict_get key annotations = Some annotation ->
    cast_field value annotation = Raise e ->
    caught_in_caster e = true.

(** What a log shows: the results yielded, the items pulled, the indices
    reported to the progress callback, the records given to the
    before-validate callback. *)
Definition yields {V} (l : list (event V)) : list (ValidationResult V) :=
  flat_map (fun ev => match ev with Yield r => [r] | _ => [] end) l.

Definition pulls {V} (l : list (event V)) : list V :=
  flat_map (fun ev => match ev with Next item => [item] | _ => [] end) l.

Definition progress_indices {V} (l : list (event V)) : list nat :=
  flat_map (fun ev => match ev with Progress index _ _ => [index] | _ => [] end) l.

Definition before_calls {V} (l : list (event V)) : list V :=
  flat_map (fun ev => match ev with BeforeValidate r => [r] | _ => [] end) l.

Definition items_of {V} (records : source V) : list V :=
  match records with
  | CallerList l | CallerIterator l | ListIterator l => l
  end.

(** The hooks let the iteration go on after the result [r]. *)
Definition continues {V} (hooks : option (ValidationHooks V))
           (r : ValidationResult V) : Prop :=
  snd (call_hooks hooks r) = false.

Definition before_installed {V} (hooks : option (ValidationHooks V)) : bool :=
  match hooks with
  | Some h => negb (is_None (before_validate h))
  | None => false
  end.

(** The events up to the first result yielded: what has happened when the
    caller receives it. *)
Fixpoint until_first_yield {V} (l : list (event V)) : list (event V) :=
  match l with
  | [] => []
  | Yield r :: _ => [Yield r]
  | ev :: l' => ev :: until_first_yield l'
  end.

(** The invariant of a result: exactly one of [error] and [result] is set. *)
Definition exactly_one {V} (r : ValidationResult V) : Prop :=
  (error r = None /\ result r <> None) \/ (error r <> None /\ result r = None).

Definition succeeded {V} (r : ValidationResult V) : bool := is_None (error r).

(** A rule accepts a value: what [ValidationRule.validate] answers first. *)
Definition accepts (rule : ValidationRule) (v : pyval) : bool :=
  fst (rule_validate rule v).

(** The entry [RuleValidator.validate] writes for a rule that rejects [v]. *)
Definition rule_entry (rule : ValidationRule) (v : pyval) : error_info :=
  RuleError (rule_field rule) (snd (rule_validate rule v)) v.

(** A rule applies to a validated record and accepts it: a record-level rule
    accepts the dictionary, a field-level rule accepts the value of its
    field, or its field is absent. *)
Definition passes (rule : ValidationRule) (record_dict : dict) : Prop :=
  if String.eqb (rule_field rule) "*"
  then accepts rule (VDict record_dict) = true
  else forall v, dict_get (rule_field rule) record_dict = Some v ->
                 accepts rule v = true.
(** A log, a source, the callbacks and a run of one kind of input seen as
    those of the mixed sequence of [validate]. *)
Definition event_of {V W} (f : V -> W) (ev : event V) : event W :=
  match ev with
  | Next item => Next (f item)
  | BeforeValidate record => BeforeValidate (f record)
  | AfterValidate r => AfterValidate (result_of f r)
  | OnSuccess r => OnSuccess (result_of f r)
  | OnError r => OnError (result_of f r)
  | ShouldContinue r => ShouldContinue (result_of f r)
  | Progress index total r => Progress index total (result_of f r)
  | Yield r => Yield (result_of f r)
  end.

Definition run_of {V W} (f : V -> W) (r : run V) : run W :=
  mk_run (map (event_of f) (log r)) (raised r).

Definition source_of {V W} (f : V -> W) (records : source V) : source W :=
  match records with
  | CallerList l => CallerList (map f l)
  | CallerIterator remaining => CallerIterator (map f remaining)
  | ListIterator remaining => ListIterator (map f remaining)
  end.

(** The callbacks of the mixed sequence, as one kind of input meets them. *)
Definition hooks_on {V W} (f : V -> W) (h : ValidationHooks W)
  : ValidationHooks V :=
  {| before_validate := option_map (fun g record => g (f record)) (before_validate h);
     after_validate := option_map (fun g r => g (result_of f r)) (after_validate h);
     on_success := option_map (fun g r => g (result_of f r)) (on_success h);
     on_error := option_map (fun g r => g (result_of f r)) (on_error h);
     should_continue := option_map (fun g r => g (result_of f r)) (should_continue h) |}.

Definition progress_on {V W} (f : V -> W) (on_progress : ProgressCallback W)
  : ProgressCallback V :=
  fun index total r => on_progress index total (result_of f r).

(** Callbacks that do the same and never raise: an exception becomes a
    normal return, and the answer True for [should_continue]. *)
Definition never_raises {A} (default : A) {B} (g : B -> res A) : B -> res A :=
  fun x => match g x with
           | Ok a => Ok a
           | Raise _ => Ok default
           end.

Definition calm_hooks {V} (h : ValidationHooks V) : ValidationHooks V :=
  {| before_validate := option_map (never_raises tt) (before_validate h);
     after_validate := option_map (never_raises tt) (after_validate h);
     on_success := option_map (never_raises tt) (on_success h);
     on_error := option_map (never_raises tt) (on_error h);
     should_continue := option_map (never_raises true) (should_continue h) |}.

Definition calm_progress {V} (on_progress : ProgressCallback V)
  : ProgressCallback V :=
  fun index total r => match on_progress index total r with
                       | Ok u => Ok u
                       | Raise _ => Ok tt
                       end.
(** The rules, when there are rules, accept a validated model. *)
Definition rules_accept (rules : option (list ValidationRule))
           (validated_model : instance) : Prop :=
  match rules with
  | Some rules => rules_validate (new_RuleValidator rules) validated_model = []
  | None => True
  end.

(** The successful result of the bulk path for a prepared record and its
    validated model. *)
Definition bulk_success (project_fields : option (list string))
           (item : dict * instance) : RecordValidationResult :=
  mk_result None (Some (project project_fields (snd item))) (RecordDict (fst item)).

(** The sum of the counts of a counter, and the number of entries of an
    error that have a location. *)
Definition counted (counter : Counter) : Z :=
  fold_right (fun item sum => snd item + sum) 0 counter.

Definition located (details : list line_error) : Z :=
  Z.of_nat (List.length (filter (fun error_detail =>
                                   negb (Nat.eqb (List.length (le_loc error_detail)) 0))
                                details)).

Definition details_of {V} (results : list (ValidationResult V))
  : list line_error :=
  flat_map (fun r => match error r with
                     | Some e => pe_errors e
                     | None => []
                     end)
           results.

(** The totals reported to the progress callback. *)
Definition progress_totals {V} (l : list (event V)) : list (option nat) :=
  flat_map (fun ev => match ev with Progress _ total _ => [total] | _ => [] end) l.

(** * Properties *)

(** ** The union resolver *)

Section UnionResolver.
Context `{Dateutil}.

Lemma union_loop_passed_over (value : pyval) (_type : pytype)
      (rest attempted : list pytype) :
  passed_over value _type ->
  union_loop value (_type :: rest) attempted
  = union_loop value rest (List.app attempted [_type]).
Proof.
  intros [Hnone | [e [Hraise Hcaught]]]; cbn [union_loop].
  - now rewrite Hnone.
  - now rewrite Hraise, Hcaught.
Qed.

(** The members are walked in declared order: when the members before
    [_type] are passed over and [_type] returns [r], the resolver returns
    [r], whatever members follow. *)
Lemma union_loop_first_match (value r : pyval) (before after : list pytype)
      (_type : pytype) (attempted : list pytype) :
  Forall (passed_over value) before ->
  try_member value _type = Ok (Some r) ->
  union_loop value (List.app before (_type :: after)) attempted = Ok r.
Proof.
  intros Hbefore Hmember. revert attempted.
  induction Hbefore as [| t before Ht _ IH]; intros attempted.
  - cbn [List.app union_loop]. now rewrite Hmember.
  - cbn [List.app]. rewrite union_loop_passed_over by assumption. apply IH.
Qed.

(** Conversely, a value that the resolver returns is what the first member
    that is not passed over returns. *)
Lemma union_loop_returns (value r : pyval) (union_types attempted : list pytype) :
  union_loop value union_types attempted = Ok r ->
  exists before _type after,
    union_types = List.app before (_type :: after)
    /\ Forall (passed_over value) before
    /\ try_member value _type = Ok (Some r).
Proof.
  revert attempted.
  induction union_types as [| t rest IH]; intros attempted; cbn [union_loop].
  - discriminate.
  - destruct (try_member value t) as [[v |] | e] eqn:Ht.
    + intros [= <-]. exists [], t, rest. repeat split; [constructor | assumption].
    + intros Hrest. destruct (IH _ Hrest) as (before & u & after & -> & Hb & Hu).
      exists (t :: before), u, after. repeat split; [| assumption].
      constructor; [now left | assumption].
    + destruct (caught_in_union e) eqn:Hc; [| discriminate].
      intros Hrest. destruct (IH _ Hrest) as (before & u & after & -> & Hb & Hu).
      exists (t :: before), u, after. repeat split; [| assumption].
      constructor; [right; now exists e | assumption].
Qed.

(** An exception that the handler does not catch leaves the resolver at
    once: the members after it are not tried. *)
Lemma union_loop_escapes (value : pyval) (before after : list pytype)
      (_type : pytype) (attempted : list pytype) (e : exn) :
  Forall (passed_over value) before ->
  try_member value _type = Raise e ->
  caught_in_union e = false ->
  union_loop value (List.app before (_type :: after)) attempted = Raise e.
Proof.
  intros Hbefore Hmember Hcaught. revert attempted.
  induction Hbefore as [| t before Ht _ IH]; intros attempted.
  - cbn [List.app union_loop]. now rewrite Hmember, Hcaught.
  - cbn [List.app]. rewrite union_loop_passed_over by assumption. apply IH.
Qed.

Lemma isinstance_scalar_container (value : pyval) (_type : pytype) :
  is_scalar_kind _type = true -> is_container value = true ->
  isinstance value _type = Ok false.
Proof. destruct _type, value; cbn; congruence. Qed.
End UnionResolver.

Section UnionClaims.
Context `{Dateutil}.

(** C2. For a member among int, float, str and bool and a value that is a
    list, dict, tuple or set, the whole container is never cast: a list or
    tuple of exactly one element has that element coerced to the member by
    [cast_as] (its value is returned, a failure that the handler catches
    moves on to the next member), and every other container is a non-match
    for the member: the resolution moves on to the next member. *)
Theorem union_container_guard (value : pyval) (_type : pytype)
        (rest attempted : list pytype) :
  is_scalar_kind _type = true ->
  is_container value = true ->
  try_member value _type
  = match value with
    | VList [x] | VTuple [x] => do r <- cast_as x _type; Ok (Some r)
    | _ => Ok None
    end
  /\ union_loop value (_type :: rest) attempted
     = match value with
       | VList [x] | VTuple [x] =>
           match cast_as x _type with
           | Ok r => Ok r
           | Raise e =>
               if caught_in_union e
               then union_loop value rest (List.app attempted [_type])
               else Raise e
           end
       | _ => union_loop value rest (List.app attempted [_type])
       end.
Proof.
  intros Hscalar Hcontainer.
  assert (Hmember :
            try_member value _type
            = match value with
              | VList [x] | VTuple [x] => do r <- cast_as x _type; Ok (Some r)
              | _ => Ok None
              end).
  { unfold try_member.
    rewrite (isinstance_scalar_container value _type Hscalar Hcontainer).
    cbn [bind]. now rewrite Hscalar, Hcontainer. }
  split; [exact Hmember |].
  cbn [union_loop]. rewrite Hmember.
  destruct value as [| | | | | l | l | l | d | |]; try discriminate Hcontainer;
    try reflexivity.
  - destruct l as [| x [| y l]]; try reflexivity.
    unfold bind. now destruct (cast_as x _type).
  - destruct l as [| x [| y l]]; try reflexivity.
    unfold bind. now destruct (cast_as x _type).
Qed.

(** C10. Outside a union there is no container guard: for every list,
    tuple, dict or set [v], [cast_as] and [cast_as_annotation] with the
    plain annotation str return the text of the container, written out
    here for each kind (a tuple of one element with its comma, the empty
    set as set(), the keys of a dict quoted), which is [str(v)] and
    [repr(v)]; with bool they return whether [v] has an element, which is
    its truthiness; neither raises, and a container of one element is not
    unwrapped: its text has the brackets and its truth value is True
    whatever the element. *)
Theorem plain_cast_of_container (v : pyval) :
  is_container v = true ->
  let text :=
    match v with
    | VList l => "[" ++ join ", " (map repr l) ++ "]"
    | VTuple [x] => "(" ++ repr x ++ ",)"
    | VTuple l => "(" ++ join ", " (map repr l) ++ ")"
    | VSet [] => "set()"
    | VSet l => "{" ++ join ", " (map repr l) ++ "}"
    | VDict d =>
        "{" ++ join ", " (map (fun kv => repr_str (fst kv) ++ ": " ++ repr (snd kv)) d)
        ++ "}"
    | _ => ""
    end in
  let nonempty :=
    match v with
    | VList l | VTuple l | VSet l => negb (Nat.eqb (List.length l) 0)
    | VDict d => negb (Nat.eqb (List.length d) 0)
    | _ => false
    end in
  cast_as v TStr = Ok (VStr text)
  /\ cast_as v TBool = Ok (VBool nonempty)
  /\ cast_as_annotation v (Plain TStr) = Ok (VStr text)
  /\ cast_as_annotation v (Plain TBool) = Ok (VBool nonempty)
  /\ py_str v = text
  /\ repr v = text
  /\ truthy v = nonempty
  /\ (forall x, v = VList [x] ->
                cast_as v TStr = Ok (VStr ("[" ++ repr x ++ "]"))
                /\ cast_as v TBool = Ok (VBool true))
  /\ (forall x, v = VTuple [x] ->
                cast_as v TStr = Ok (VStr ("(" ++ repr x ++ ",)"))
                /\ cast_as v TBool = Ok (VBool true))
  /\ (forall x, v = VSet [x] ->
                cast_as v TStr = Ok (VStr ("{" ++ repr x ++ "}"))
                /\ cast_as v TBool = Ok (VBool true)).
Proof.
  intros Hcontainer.
  destruct v as [| | | | | l | l | l | d | |]; try discriminate Hcontainer; cbn zeta.
  all: repeat split; try discriminate;
    try match goal with
        | Heq : _ = _ [_] |- _ => injection Heq as ->; reflexivity
        end;
    try (now destruct l as [| x [| y l]]);
    try (now destruct d).
Qed.

(** C1, on the code.  With the value [float('inf')] and [Union[int, str]]
    the member str coerces (to the text inf), and it is the first member
    that does; yet the resolver does not return its outcome: the
    [OverflowError] of [int(inf)] is not among the exceptions the loop
    catches and leaves the resolver. *)
Theorem union_overflow_escapes :
  try_member (VFloat inf) TInt
  = Raise (OverflowError "cannot convert float infinity to integer")
  /\ try_member (VFloat inf) TStr = Ok (Some (VStr "inf"))
  /\ cast_as_union (VFloat inf) (Union [TInt; TStr])
     = Raise (OverflowError "cannot convert float infinity to integer").
Proof. repeat split. Qed.

(** The two examples of the union order: declared order decides. *)
Example union_int_first :
  cast_as_union (VList [VStr "5"]) (Union [TInt; TStr]) = Ok (VInt 5).
Proof. reflexivity. Qed.

Example union_str_first :
  cast_as_union (VList [VStr "5"]) (Union [TStr; TInt]) = Ok (VStr "5").
Proof. reflexivity. Qed.
End UnionClaims.

(** ** The structural caster *)

Lemma dict_mem_In {A} (k : string) (d : list (string * A)) :
  dict_mem k d = true <-> In k (dict_keys d).
Proof.
  unfold dict_mem. rewrite existsb_exists. split.
  - intros [x [Hin Heq]]. apply String.eqb_eq in Heq. now subst.
  - intros Hin. exists k. split; [assumption | apply String.eqb_refl].
Qed.

Lemma dict_mem_false {A} (k : string) (d : list (string * A)) :
  dict_mem k d = false <-> ~ In k (dict_keys d).
Proof.
  rewrite <- dict_mem_In. destruct (dict_mem k d); split; congruence.
Qed.

Lemma dict_get_In {A} (k : string) (d : list (string * A)) :
  In k (dict_keys d) -> exists v, dict_get k d = Some v.
Proof.
  induction d as [| [k' v'] d IH]; cbn; [contradiction |].
  intros [-> | Hin].
  - rewrite String.eqb_refl. now exists v'.
  - destruct (String.eqb k k'); [now exists v' | now apply IH].
Qed.

Lemma dict_set_fresh {A} (k : string) (v : A) (d : list (string * A)) :
  dict_mem k d = false -> dict_set k v d = List.app d [(k, v)].
Proof.
  induction d as [| [k' v'] d IH]; cbn; [reflexivity |].
  unfold dict_mem in *. cbn. destruct (String.eqb k k'); cbn; [discriminate |].
  intros Hd. now rewrite IH.
Qed.

Lemma dict_keys_app {A} (d d' : list (string * A)) :
  dict_keys (List.app d d') = List.app (dict_keys d) (dict_keys d').
Proof. apply map_app. Qed.

Lemma missing_keys_spec `{Dateutil} (annotations : list (string * annotation))
      (d : dict) (key : string) :
  In key (missing_keys annotations d)
  <-> In key (dict_keys annotations) /\ dict_mem key d = false.
Proof.
  unfold missing_keys. rewrite filter_In, nodup_In, negb_true_iff. reflexivity.
Qed.

Lemma missing_keys_NoDup `{Dateutil} (annotations : list (string * annotation))
      (d : dict) :
  NoDup (missing_keys annotations d).
Proof. apply NoDup_filter, NoDup_nodup. Qed.

Lemma missing_keys_of_keys `{Dateutil} (annotations : list (string * annotation))
      (d d' : dict) :
  dict_keys d' = dict_keys d ->
  missing_keys annotations d' = missing_keys annotations d.
Proof. intros Hkeys. unfold missing_keys, dict_mem. now rewrite Hkeys. Qed.

(** [ValidationError(errors)] is built exactly when every entry is an
    entry of the caster for an annotation that has a name. *)
Lemma new_ValidationError_named (errs : list (string * error_info)) :
  forallb named_entry errs = true ->
  new_ValidationError errs = Ok (mk_ValidationError errs).
Proof.
  intros Hnamed. unfold new_ValidationError.
  assert (Hnames : exists names,
             mapM (fun item => entry_type_name (snd item)) errs = Ok names).
  { induction errs as [| [key info] errs IH]; cbn [mapM]; [now eexists |].
    cbn [forallb] in Hnamed. apply andb_true_iff in Hnamed as [Hinfo Hrest].
    destruct (IH Hrest) as [names ->].
    unfold named_entry in Hinfo. cbn [snd] in *.
    destruct info as [type ? ? ? | ? ? ?]; [| discriminate].
    destruct type; try discriminate; cbn; now eexists. }
  destruct Hnames as [names ->]. reflexivity.
Qed.

Lemma new_ValidationError_built (errs : list (string * error_info))
      (e : ValidationError) :
  new_ValidationError errs = Ok e ->
  e = mk_ValidationError errs /\ forallb named_entry errs = true.
Proof.
  unfold new_ValidationError.
  destruct (mapM _ errs) as [names |] eqn:Hnames; cbn [bind]; [| discriminate].
  intros [= <-]. split; [reflexivity |].
  revert names Hnames.
  induction errs as [| [key info] errs IH]; intros names; cbn [mapM forallb];
    [reflexivity |].
  cbn [snd]. destruct (entry_type_name info) as [name |] eqn:Hname;
    cbn [bind]; [| discriminate].
  destruct (mapM _ errs) as [rest |] eqn:Hrest; cbn [bind]; [| discriminate].
  intros _. rewrite (IH rest eq_refl), andb_true_r.
  unfold named_entry. cbn [snd].
  destruct info as [type ? ? ? | ? ? ?]; [| discriminate].
  now destruct type.
Qed.

Lemma missing_entries_named `{Dateutil}
      (annotations : list (string * annotation)) (l : list string) :
  (forall key a, In key l -> dict_get key annotations = Some a ->
                 named a = true) ->
  forallb named_entry (map (missing_entry annotations) l) = true.
Proof.
  intros Hnamed. apply forallb_forall. intros entry Hentry.
  apply in_map_iff in Hentry as [key [<- Hkey]].
  unfold named_entry, missing_entry. cbn [snd].
  destruct (dict_get key annotations) as [a |] eqn:Ha; [| reflexivity].
  exact (Hnamed key a Hkey Ha).
Qed.

Section CasterClaims.
Context `{Dateutil}.

(** What the caster raises when a declared field is missing and the
    annotations of the missing fields have a name. *)
Lemma caster_missing (d : dict) (cls : annotated_class) :
  missing_keys (cls_annotations cls) d <> [] ->
  (forall key a, dict_get key (cls_annotations cls) = Some a ->
                 dict_mem key d = false -> named a = true) ->
  cast_to_annotated_class d cls
  = Raise (Invalid (mk_ValidationError
                      (map (missing_entry (cls_annotations cls))
                           (missing_keys (cls_annotations cls) d)))).
Proof.
  intros Hmissing Hnamed. unfold cast_to_annotated_class.
  destruct (missing_keys (cls_annotations cls) d) as [| key l] eqn:Hm;
    [congruence |].
  unfold raise_ValidationError.
  rewrite new_ValidationError_named; [reflexivity |].
  apply missing_entries_named. intros k a Hk Ha. apply (Hnamed k a Ha).
  rewrite <- Hm in Hk. now apply missing_keys_spec in Hk.
Qed.

(** The gate of the missing fields, where it holds.  For every mapping
    that lacks a declared field, when the annotations of the missing
    fields have a name, the caster fails with its [ValidationError] whose
    entries are exactly the missing fields, one entry each, every one
    saying Missing required field with no input value; no field is
    coerced: the error is the same for every mapping with the same keys,
    whatever its values. *)
Lemma missing_fields_gate (d : dict) (cls : annotated_class) :
  (exists key, In key (dict_keys (cls_annotations cls)) /\ dict_mem key d = false) ->
  (forall key a, dict_get key (cls_annotations cls) = Some a ->
                 dict_mem key d = false -> named a = true) ->
  exists errs,
    cast_to_annotated_class d cls = Raise (Invalid (mk_ValidationError errs))
    /\ NoDup (dict_keys errs)
    /\ (forall key, In key (dict_keys errs)
                    <-> In key (dict_keys (cls_annotations cls))
                        /\ dict_mem key d = false)
    /\ (forall key info,
           In (key, info) errs ->
           exists a, dict_get key (cls_annotations cls) = Some a
                     /\ info = CastError a VNone "NoneType" "Missing required field")
    /\ (forall d', dict_keys d' = dict_keys d ->
                   cast_to_annotated_class d' cls = cast_to_annotated_class d cls).
Proof.
  intros [key0 Hkey0] Hnamed.
  assert (Hmissing : missing_keys (cls_annotations cls) d <> []).
  { apply missing_keys_spec in Hkey0. intros Hnil. now rewrite Hnil in Hkey0. }
  assert (Hkeys : dict_keys (map (missing_entry (cls_annotations cls))
                                 (missing_keys (cls_annotations cls) d))
                  = missing_keys (cls_annotations cls) d).
  { unfold dict_keys. rewrite map_map. cbn. apply map_id. }
  eexists. split; [apply caster_missing; assumption |].
  rewrite Hkeys. split; [apply missing_keys_NoDup |].
  split; [intros key; apply missing_keys_spec |]. split.
  - intros key info Hin. apply in_map_iff in Hin as [k [[= <- <-] Hk]].
    apply missing_keys_spec in Hk as [Hk _].
    destruct (dict_get_In k _ Hk) as [a Ha]. exists a. now rewrite Ha.
  - intros d' Hd'.
    assert (Hnamed' : forall key a,
               dict_get key (cls_annotations cls) = Some a ->
               dict_mem key d' = false -> named a = true).
    { intros key a Ha Hmem. apply (Hnamed key a Ha).
      unfold dict_mem in *. now rewrite <- Hd'. }
    rewrite !caster_missing; try assumption.
    + now rewrite (missing_keys_of_keys _ d d' Hd').
    + now rewrite (missing_keys_of_keys _ d d' Hd').
Qed.
End CasterClaims.

Section CasterAggregation.
Context `{Dateutil}.

Lemma failure_entries_keys (annotations : list (string * annotation)) (d : dict) :
  dict_keys (failure_entries annotations d) = failing_fields annotations d.
Proof.
  unfold failing_fields.
  induction d as [| [key value] d IH]; [reflexivity |].
  unfold failure_entries, fails in *. cbn [flat_map filter fst snd].
  destruct (dict_get key annotations) as [a |]; [| exact IH].
  destruct (cast_field value a); [exact IH |].
  cbn [List.app]. unfold dict_keys in *. cbn [map fst]. now rewrite IH.
Qed.

Lemma failure_entries_named (annotations : list (string * annotation))
      (d : dict) :
  (forall key value annotation e,
      In (key, value) d -> dict_get key annotations = Some annotation ->
      cast_field value annotation = Raise e -> named annotation = true) ->
  forallb named_entry (failure_entries annotations d) = true.
Proof.
  unfold failure_entries.
  induction d as [| [key value] d IH]; intros Hnamed; cbn [flat_map fst snd];
    [reflexivity |].
  assert (Hrest : forallb named_entry
                    (flat_map
                       (fun item =>
                          match dict_get (fst item) annotations with
                          | Some annotation =>
                              match cast_field (snd item) annotation with
                              | Ok _ => []
                              | Raise e =>
                                  [(fst item,
                                    CastError annotation (snd item)
                                              (type_name (snd item)) (exn_str e))]
                              end
                          | None => []
                          end) d) = true).
  { apply IH. intros k v a e Hin. apply Hnamed. now right. }
  destruct (dict_get key annotations) as [a |] eqn:Ha; [| exact Hrest].
  destruct (cast_field value a) as [v | e] eqn:Hcast; [exact Hrest |].
  cbn [List.app forallb]. rewrite Hrest, andb_true_r.
  unfold named_entry. cbn [snd].
  exact (Hnamed key value a e (or_introl eq_refl) Ha Hcast).
Qed.

Lemma failure_entries_In (annotations : list (string * annotation)) (d : dict)
      (key : string) :
  In key (dict_keys (failure_entries annotations d)) -> In key (dict_keys d).
Proof.
  rewrite failure_entries_keys. unfold failing_fields, dict_keys.
  rewrite !in_map_iff. intros [item [Hkey Hin]].
  apply filter_In in Hin as [Hin _]. now exists item.
Qed.

(** The loop goes through every item: each failure that its handler
    catches adds one entry, and the loop goes on. *)
Lemma cast_fields_collect (annotations : list (string * annotation))
      (items new_data : dict) (errs : list (string * error_info)) :
  NoDup (dict_keys items) ->
  (forall key, In key (dict_keys items) -> dict_mem key errs = false) ->
  failures_caught annotations items ->
  exists new_data',
    cast_fields items annotations new_data errs
    = Ok (new_data', List.app errs (failure_entries annotations items)).
Proof.
  revert new_data errs.
  induction items as [| [key value] items IH]; intros new_data errs Hnodup Hfresh Hcaught.
  - exists new_data. cbn. now rewrite app_nil_r.
  - cbn in Hnodup. apply NoDup_cons_iff in Hnodup as [Hkey Hnodup].
    assert (Hcaught' : failures_caught annotations items).
    { intros k v a e Hin. apply Hcaught. now right. }
    cbn [cast_fields]. unfold failure_entries. cbn [flat_map fst snd].
    fold (failure_entries annotations items).
    destruct (dict_get key annotations) as [a |] eqn:Ha.
    + destruct (cast_field value a) as [v | e] eqn:Hcast.
      * apply IH; [assumption | | assumption].
        intros k Hk. apply Hfresh. now right.
      * rewrite (Hcaught key value a e (or_introl eq_refl) Ha Hcast).
        rewrite dict_set_fresh by (apply Hfresh; now left).
        destruct (IH new_data
                     (List.app errs
                        [(key, CastError a value (type_name value) (exn_str e))])
                     Hnodup) as [nd Hnd]; [| assumption |].
        -- intros k Hk. apply dict_mem_false. rewrite dict_keys_app.
           intros Hin. apply in_app_or in Hin as [Hin | [<- | []]].
           ++ apply dict_mem_false in Hin; [assumption |]. apply Hfresh. now right.
           ++ contradiction.
        -- exists nd. rewrite Hnd. now rewrite <- app_assoc.
    + apply IH; [assumption | | assumption].
      intros k Hk. apply Hfresh. now right.
Qed.

(** X25. When every declared field is present, the failures are of the
    kinds the loop catches and the annotations of the fields that fail
    have a name (none is written X | Y), the caster coerces every field
    and its error lists all the fields that failed, in the order of the
    mapping. *)
Lemma caster_collects_failures (d : dict) (cls : annotated_class) :
  NoDup (dict_keys d) ->
  missing_keys (cls_annotations cls) d = [] ->
  failures_caught (cls_annotations cls) d ->
  (forall key value annotation e,
      In (key, value) d ->
      dict_get key (cls_annotations cls) = Some annotation ->
      cast_field value annotation = Raise e -> named annotation = true) ->
  failing_fields (cls_annotations cls) d <> [] ->
  cast_to_annotated_class d cls
  = Raise (Invalid (mk_ValidationError (failure_entries (cls_annotations cls) d)))
  /\ dict_keys (failure_entries (cls_annotations cls) d)
     = failing_fields (cls_annotations cls) d.
Proof.
  intros Hnodup Hmissing Hcaught Hnamed Hfailing.
  split; [| apply failure_entries_keys].
  unfold cast_to_annotated_class. rewrite Hmissing.
  destruct (cast_fields_collect (cls_annotations cls) d d [] Hnodup) as [nd Hnd];
    [reflexivity | assumption |].
  rewrite Hnd. cbn [lift bind List.app].
  rewrite <- failure_entries_keys in Hfailing.
  destruct (failure_entries (cls_annotations cls) d) as [| entry l] eqn:Hentries;
    [now contradiction Hfailing |].
  unfold raise_ValidationError.
  rewrite <- Hentries.
  now rewrite new_ValidationError_named by now apply failure_entries_named.
Qed.

(** The example of the aggregation: id and age fail, both are reported. *)
Example caster_reports_id_and_age :
  exists errs,
    cast_to_annotated_class
      [("id", VStr "x"); ("name", VStr "Alice"); ("age", VStr "y")] PersonClass
    = Raise (Invalid (mk_ValidationError errs))
    /\ dict_keys errs = ["id"; "age"].
Proof. eexists. split; reflexivity. Qed.

(** C4, on the code.  With id set to [float('inf')] and age to the text y,
    every declared field is present and the coercions of id and of age
    both fail; the caster does not go on to age and raises no
    [ValidationError] naming the two fields: the [OverflowError] of
    [int(inf)] is not among the exceptions its loop catches and leaves the
    caster. *)
Theorem caster_overflow_escapes :
  missing_keys (cls_annotations PersonClass)
    [("id", VFloat inf); ("name", VStr "Alice"); ("age", VStr "y")] = []
  /\ failing_fields (cls_annotations PersonClass)
       [("id", VFloat inf); ("name", VStr "Alice"); ("age", VStr "y")]
     = ["id"; "age"]
  /\ cast_to_annotated_class
       [("id", VFloat inf); ("name", VStr "Alice"); ("age", VStr "y")] PersonClass
     = Raise (Uncaught (OverflowError "cannot convert float infinity to integer")).
Proof. repeat split. Qed.
End CasterAggregation.

(** ** Logs *)

Section Logs.
Context {V : Type}.

Lemma yields_app (l l' : list (event V)) :
  yields (List.app l l') = List.app (yields l) (yields l').
Proof. apply flat_map_app. Qed.

Lemma pulls_app (l l' : list (event V)) :
  pulls (List.app l l') = List.app (pulls l) (pulls l').
Proof. apply flat_map_app. Qed.

Lemma progress_indices_app (l l' : list (event V)) :
  progress_indices (List.app l l')
  = List.app (progress_indices l) (progress_indices l').
Proof. apply flat_map_app. Qed.

Lemma before_calls_app (l l' : list (event V)) :
  before_calls (List.app l l') = List.app (before_calls l) (before_calls l').
Proof. apply flat_map_app. Qed.

Lemma log_Yield (r : ValidationResult V) (l : list (event V)) :
  yields (Yield r :: l) = r :: yields l
  /\ pulls (Yield r :: l) = pulls l
  /\ progress_indices (Yield r :: l) = progress_indices l
  /\ before_calls (Yield r :: l) = before_calls l.
Proof. now cbn. Qed.

Lemma raised_after (events : list (event V)) (r : run V) :
  raised (after events r) = raised r.
Proof. reflexivity. Qed.

Lemma log_after (events : list (event V)) (r : run V) :
  log (after events r) = List.app events (log r).
Proof. reflexivity. Qed.

(** What the calls of the hooks and of the progress callback leave in a
    log. *)
Lemma call_before_validate_log (h : ValidationHooks V) (record : V) :
  call_before_validate h record
  = if is_None (before_validate h) then [] else [BeforeValidate record].
Proof.
  unfold call_before_validate.
  destruct (before_validate h) as [f |]; [now destruct (f record) | reflexivity].
Qed.

Lemma call_progress_log (on_progress : option (ProgressCallback V))
      (index : nat) (total : option nat) (r : ValidationResult V) :
  call_progress on_progress index total r
  = if is_None on_progress then [] else [Progress index total r].
Proof.
  unfold call_progress.
  destruct on_progress as [f |]; [now destruct (f index total r) | reflexivity].
Qed.

Lemma call_after_validate_log (h : ValidationHooks V) (r : ValidationResult V) :
  call_after_validate h r
  = if is_None (after_validate h) then [] else [AfterValidate r].
Proof.
  unfold call_after_validate.
  destruct (after_validate h) as [f |]; [now destruct (f r) | reflexivity].
Qed.

Lemma call_on_success_log (h : ValidationHooks V) (r : ValidationResult V) :
  call_on_success h r
  = if is_None (on_success h) || negb (is_None (error r))
    then [] else [OnSuccess r].
Proof.
  unfold call_on_success.
  destruct (on_success h) as [f |]; [| reflexivity].
  destruct (is_None (error r)); [now destruct (f r) | reflexivity].
Qed.

Lemma call_on_error_log (h : ValidationHooks V) (r : ValidationResult V) :
  call_on_error h r
  = if is_None (on_error h) || is_None (error r) then [] else [OnError r].
Proof.
  unfold call_on_error.
  destruct (on_error h) as [f |]; [| reflexivity].
  destruct (is_None (error r)); [reflexivity | now destruct (f r)].
Qed.

Lemma check_should_continue_log (h : ValidationHooks V)
      (r : ValidationResult V) :
  fst (check_should_continue h r)
  = if is_None (should_continue h) then [] else [ShouldContinue r].
Proof.
  unfold check_should_continue.
  destruct (should_continue h) as [f |]; [now destruct (f r) | reflexivity].
Qed.

Lemma call_hooks_log (h : ValidationHooks V) (r : ValidationResult V) :
  fst (call_hooks (Some h) r)
  = List.app (call_after_validate h r)
      (List.app (call_on_success h r)
         (List.app (call_on_error h r) (fst (check_should_continue h r)))).
Proof. unfold call_hooks. now destruct (check_should_continue h r). Qed.

Lemma call_hooks_quiet (hooks : option (ValidationHooks V))
      (r : ValidationResult V) :
  yields (fst (call_hooks hooks r)) = []
  /\ pulls (fst (call_hooks hooks r)) = []
  /\ progress_indices (fst (call_hooks hooks r)) = []
  /\ before_calls (fst (call_hooks hooks r)) = [].
Proof.
  destruct hooks as [h |]; [| now cbn].
  rewrite call_hooks_log, call_after_validate_log, call_on_success_log,
    call_on_error_log, check_should_continue_log.
  destruct (is_None (after_validate h)), (is_None (on_success h)),
    (is_None (on_error h)), (is_None (should_continue h)),
    (is_None (error r)); cbn; auto.
Qed.
End Logs.

(** ** The pipeline *)

Section Pipeline.
Context `{Dateutil} `{Pydantic}.

Variable model : model_arg.
Variables from_attributes strict : option bool.
Variables fields project_fields : option (list string).
Variable transforms : option transforms_arg.
Variable rules : option (list ValidationRule).

Local Abbreviation validate_one :=
  (validate_record model from_attributes strict fields project_fields
                   transforms rules).
Local Abbreviation loop :=
  (individual_loop model from_attributes strict fields project_fields
                   transforms rules).
Local Abbreviation pipeline :=
  (validate_records model from_attributes strict fields project_fields
                    transforms rules).

(** *** One record *)

(** A result of [validate_record] has exactly one of [error] and [result]
    set, and its [value] is the record it was given. *)
Lemma validate_record_result (record : record) (raise_errors : bool)
      (r : RecordValidationResult) :
  validate_one record raise_errors = Ok r ->
  exactly_one r /\ value r = record.
Proof.
  unfold validate_record, exactly_one.
  destruct (apply_transforms (record_to_dict record) transforms) as [d | e];
    cbn [bind]; [| discriminate].
  destruct (validate_body _ _ _ _ _ _) as [i | [ve | e]].
  - intros [= <-]. cbn. split; [left; split; congruence | reflexivity].
  - destruct (pydantic_errors_of (errors ve)) as [les | e]; cbn [bind];
      [| discriminate].
    destruct (from_exception_data _ les) as [pe | e]; cbn [bind];
      [| discriminate].
    destruct raise_errors; [discriminate |].
    intros [= <-]. cbn. split; [right; split; congruence | reflexivity].
  - destruct e; destruct raise_errors; try discriminate;
      try (destruct (from_exception_data _ _) as [pe | e']; cbn [bind];
           [| discriminate]);
      intros [= <-]; cbn; (split; [right; split; congruence | reflexivity]).
Qed.

(** With [raise_errors] a result is a success. *)
Lemma validate_record_raising (record : record) (r : RecordValidationResult) :
  validate_one record true = Ok r -> error r = None.
Proof.
  unfold validate_record.
  destruct (apply_transforms (record_to_dict record) transforms) as [d | e];
    cbn [bind]; [| discriminate].
  destruct (validate_body _ _ _ _ _ _) as [i | [ve | e]].
  - now intros [= <-].
  - destruct (pydantic_errors_of (errors ve)) as [les | e]; cbn [bind];
      [| discriminate].
    now destruct (from_exception_data _ les).
  - now destruct e.
Qed.

(** An exception of a transform leaves [validate_record], whatever
    [raise_errors] is: the transforms are applied before the [try]. *)
Lemma validate_record_transform_raises (record : record) (raise_errors : bool)
      (e : exn) :
  apply_transforms (record_to_dict record) transforms = Raise e ->
  validate_one record raise_errors = Raise e.
Proof. intros He. unfold validate_record. now rewrite He. Qed.

(** The failure of a pydantic model is raised as it is with
    [raise_errors]. *)
Lemma validate_record_raises_model_failure (m : pydantic_model)
      (record : record) (d : dict) (pe : pydantic_error) :
  model = ModelClass m ->
  apply_transforms (record_to_dict record) transforms = Ok d ->
  model_validate m
    (VDict (match fields with
            | Some fields => _filter_record_fields d fields
            | None => d
            end)) from_attributes strict
  = Raise (PydanticValidationError pe) ->
  validate_one record true = Raise (PydanticValidationError pe).
Proof.
  intros -> Hd Hm. unfold validate_record. rewrite Hd. cbn [bind]. cbv zeta.
  unfold validate_body. destruct fields; rewrite Hm; reflexivity.
Qed.

(** *** The individual loop *)

Variable on_progress : option (ProgressCallback record).
Variable hooks : option (ValidationHooks record).

(** Under RETURN and SKIP, when every record gets a result and the hooks
    let the iteration go on: the iteration ends without an exception; it
    yields every result (RETURN) or the successful ones (SKIP), in the
    order of the records; the progress callback is given the position of
    every record; the before-validate callback is given every record;
    nothing is pulled by the loop itself. *)
Lemma individual_loop_complete (error_option : ErrorOption)
      (records : list record) (results : list RecordValidationResult)
      (total : option nat) (index : nat) :
  is_RAISE error_option = false ->
  Forall2 (fun record r => validate_one record false = Ok r) records results ->
  Forall (continues hooks) results ->
  raised (loop error_option on_progress hooks records total index) = None
  /\ yields (log (loop error_option on_progress hooks records total index))
     = (if is_SKIP error_option then filter succeeded results else results)
  /\ progress_indices (log (loop error_option on_progress hooks records total index))
     = (if is_None on_progress then [] else seq index (List.length records))
  /\ before_calls (log (loop error_option on_progress hooks records total index))
     = (if before_installed hooks then records else [])
  /\ pulls (log (loop error_option on_progress hooks records total index)) = [].
Proof.
  intros Hopt Hresults. revert index.
  induction Hresults as [| item r records results Hr _ IH];
    intros index Hcont.
  - cbn. now destruct (is_SKIP error_option), (is_None on_progress),
      (before_installed hooks).
  - apply Forall_cons_iff in Hcont as [Hr_cont Hcont].
    specialize (IH (S index) Hcont) as (IHraised & IHyields & IHprog & IHbefore & IHpulls).
    cbn [individual_loop]. rewrite Hopt, Hr.
    unfold continues in Hr_cont.
    destruct (call_hooks_quiet hooks r) as (Hq1 & Hq2 & Hq3 & Hq4).
    destruct (call_hooks hooks r) as [called stop]. cbn [fst snd] in *. subst stop.
    assert (Hbefore :
              before_calls (match hooks with
                            | Some h => call_before_validate h item
                            | None => []
                            end)
              = (if before_installed hooks then [item] else [])
              /\ yields (match hooks with
                         | Some h => call_before_validate h item
                         | None => []
                         end) = []
              /\ progress_indices (match hooks with
                                   | Some h => call_before_validate h item
                                   | None => []
                                   end) = []
              /\ pulls (match hooks with
                        | Some h => call_before_validate h item
                        | None => []
                        end) = []).
    { destruct hooks as [h |]; [| now cbn].
      rewrite call_before_validate_log. cbn [before_installed].
      now destruct (is_None (before_validate h)). }
    destruct Hbefore as (Hb1 & Hb2 & Hb3 & Hb4).
    rewrite !raised_after, !log_after, !yields_app, !progress_indices_app,
      !before_calls_app, !pulls_app, Hb1, Hb2, Hb3, Hb4, Hq1, Hq2, Hq3, Hq4,
      call_progress_log.
    cbn [List.app].
    assert (Hprog : forall l : list (event record),
               yields (List.app (if is_None on_progress then []
                                 else [Progress index total r]) l) = yields l
               /\ pulls (List.app (if is_None on_progress then []
                                   else [Progress index total r]) l) = pulls l
               /\ before_calls (List.app (if is_None on_progress then []
                                          else [Progress index total r]) l)
                  = before_calls l
               /\ progress_indices (List.app (if is_None on_progress then []
                                              else [Progress index total r]) l)
                  = List.app (if is_None on_progress then [] else [index])
                             (progress_indices l)).
    { intros l. now destruct (is_None on_progress). }
    unfold succeeded in *. cbn [filter List.length seq].
    destruct (is_SKIP error_option), (is_None (error r)); cbn [negb andb];
      rewrite ?raised_after, ?log_after;
      repeat match goal with
             | |- context [List.app (if is_None on_progress then [] else _) ?l] =>
                 destruct (Hprog l) as (-> & -> & -> & ->)
             end;
      cbn [List.app];
      repeat match goal with
             | |- context [Yield ?x :: ?l] =>
                 destruct (log_Yield x l) as (-> & -> & -> & ->)
             end;
      rewrite ?IHyields, ?IHprog, ?IHbefore, ?IHpulls, ?IHraised;
      destruct (is_None on_progress), (before_installed hooks);
      cbn; auto.
Qed.

(** Under RAISE, when the records before [bad] get a result, the hooks let
    the iteration go on and [validate_record] raises [e] for [bad]: the
    iteration ends with [e] after yielding the results of the records
    before [bad]; the before-validate callback is given those records and
    [bad]; the records after [bad] leave nothing in the log. *)
Lemma individual_loop_raises (error_option : ErrorOption)
      (before after_bad : list record) (bad : record)
      (results : list RecordValidationResult) (e : exn)
      (total : option nat) (index : nat) :
  is_RAISE error_option = true ->
  Forall2 (fun record r => validate_one record true = Ok r) before results ->
  Forall (continues hooks) results ->
  validate_one bad true = Raise e ->
  raised (loop error_option on_progress hooks
               (List.app before (bad :: after_bad)) total index) = Some e
  /\ yields (log (loop error_option on_progress hooks
                       (List.app before (bad :: after_bad)) total index))
     = results
  /\ before_calls (log (loop error_option on_progress hooks
                             (List.app before (bad :: after_bad)) total index))
     = (if before_installed hooks then List.app before [bad] else [])
  /\ log (loop error_option on_progress hooks
               (List.app before (bad :: after_bad)) total index)
     = log (loop error_option on_progress hooks
                 (List.app before [bad]) total index).
Proof.
  intros Hopt Hresults. revert index.
  assert (Hskip : is_SKIP error_option = false) by now destruct error_option.
  induction Hresults as [| item r records results Hr _ IH];
    intros index Hcont Hbad.
  - cbn [List.app individual_loop]. rewrite Hopt, Hbad.
    rewrite !raised_after, !log_after. cbn [raising log raised].
    rewrite !app_nil_r. repeat split.
    + destruct hooks as [h |]; [| reflexivity].
      rewrite call_before_validate_log. now destruct (is_None (before_validate h)).
    + destruct hooks as [h |]; [| reflexivity].
      rewrite call_before_validate_log. cbn [before_installed].
      now destruct (is_None (before_validate h)).
  - apply Forall_cons_iff in Hcont as [Hr_cont Hcont].
    specialize (IH (S index) Hcont Hbad) as (IHraised & IHyields & IHbefore & IHlog).
    cbn [List.app individual_loop]. rewrite Hopt, Hr, Hskip, andb_false_r.
    unfold continues in Hr_cont.
    destruct (call_hooks_quiet hooks r) as (Hq1 & _ & _ & Hq4).
    destruct (call_hooks hooks r) as [called stop]. cbn [fst snd] in *. subst stop.
    rewrite !raised_after, !log_after.
    assert (Hb : forall l : list (event record),
               yields (List.app (match hooks with
                                 | Some h => call_before_validate h item
                                 | None => []
                                 end) l) = yields l
               /\ before_calls (List.app (match hooks with
                                          | Some h => call_before_validate h item
                                          | None => []
                                          end) l)
                  = List.app (if before_installed hooks then [item] else [])
                             (before_calls l)).
    { intros l. destruct hooks as [h |]; [| now cbn].
      rewrite call_before_validate_log. cbn [before_installed].
      now destruct (is_None (before_validate h)). }
    assert (Hp : forall l : list (event record),
               yields (List.app (call_progress on_progress index total r) l)
               = yields l
               /\ before_calls (List.app (call_progress on_progress index total r) l)
                  = before_calls l).
    { intros l. rewrite call_progress_log. now destruct (is_None on_progress). }
    repeat split.
    + assumption.
    + destruct (Hb (List.app called
                      (List.app (call_progress on_progress index total r)
                         (List.app [Yield r]
                            (log (loop error_option on_progress hooks
                                       (List.app records (bad :: after_bad))
                                       total (S index)))))))
        as [-> _].
      rewrite yields_app, Hq1. cbn [List.app].
      match goal with
      | |- context [List.app (call_progress _ _ _ _) ?l] =>
          destruct (Hp l) as [-> _]
      end.
      match goal with
      | |- context [Yield ?x :: ?l] => destruct (log_Yield x l) as (-> & _)
      end.
      now rewrite IHyields.
    + destruct (Hb (List.app called
                      (List.app (call_progress on_progress index total r)
                         (List.app [Yield r]
                            (log (loop error_option on_progress hooks
                                       (List.app records (bad :: after_bad))
                                       total (S index)))))))
        as [_ ->].
      rewrite before_calls_app, Hq4. cbn [List.app].
      match goal with
      | |- context [List.app (call_progress _ _ _ _) ?l] =>
          destruct (Hp l) as [_ ->]
      end.
      match goal with
      | |- context [Yield ?x :: ?l] =>
          destruct (log_Yield x l) as (_ & _ & _ & ->)
      end.
      rewrite IHbefore. now destruct (before_installed hooks).
    + now rewrite IHlog.
Qed.

(** Every result that the loop yields has exactly one of [error] and
    [result] set, and its [value] is one of the records. *)
Lemma individual_loop_results (error_option : ErrorOption)
      (records : list record) (total : option nat) (index : nat) :
  Forall (fun r => exactly_one r /\ In (value r) records)
         (yields (log (loop error_option on_progress hooks records total index))).
Proof.
  revert index. induction records as [| item records IH]; intros index.
  - constructor.
  - cbn [individual_loop].
    rewrite log_after, yields_app.
    assert (Hb : yields (match hooks with
                         | Some h => call_before_validate h item
                         | None => []
                         end) = []).
    { destruct hooks as [h |]; [| reflexivity].
      rewrite call_before_validate_log. now destruct (is_None (before_validate h)). }
    rewrite Hb. cbn [List.app].
    destruct (validate_one item (is_RAISE error_option)) as [r | e] eqn:Hr;
      [| constructor].
    apply validate_record_result in Hr as [Hone Hvalue].
    destruct (call_hooks_quiet hooks r) as (Hq1 & _).
    destruct (call_hooks hooks r) as [called stop]. cbn [fst] in Hq1.
    rewrite log_after, yields_app, Hq1. cbn [List.app].
    destruct stop; [constructor |].
    rewrite log_after, yields_app, call_progress_log.
    assert (Hrest : Forall (fun r0 => exactly_one r0 /\ In (value r0) (item :: records))
                           (yields (log (loop error_option on_progress hooks
                                              records total (S index))))).
    { eapply Forall_impl; [| apply IH]. intros r0 [H1 H2]. split; [assumption | now right]. }
    destruct (negb (is_None (error r)) && is_SKIP error_option);
      [| rewrite log_after, yields_app];
      destruct (is_None on_progress); cbn [List.app yields flat_map];
      try assumption;
      (constructor; [split; [assumption | left; now rewrite Hvalue] | assumption]).
Qed.

(** *** The generator *)

(** The individual validation pulls every item of the caller's iterator
    before anything else, and then runs the loop. *)
Lemma individual_log (error_option : ErrorOption) (records : source record) :
  log (individual model from_attributes strict fields project_fields
                  transforms rules error_option on_progress hooks records)
  = List.app (match records with
              | CallerIterator remaining => map Next remaining
              | _ => []
              end)
             (log (loop error_option on_progress hooks (items_of records)
                        (Some (List.length (items_of records))) 0))
  /\ raised (individual model from_attributes strict fields project_fields
                        transforms rules error_option on_progress hooks records)
     = raised (loop error_option on_progress hooks (items_of records)
                    (Some (List.length (items_of records))) 0).
Proof. now destruct records. Qed.

Lemma validate_records_individual (error_option : ErrorOption)
      (records : source record) (bulk : bool) :
  bulk && _can_use_bulk records model error_option = false ->
  pipeline error_option on_progress hooks records bulk
  = individual model from_attributes strict fields project_fields
               transforms rules error_option on_progress hooks records.
Proof. intros Hbulk. unfold validate_records. now rewrite Hbulk. Qed.

Lemma pulls_of_Next (l : list record) : pulls (map Next l) = l.
Proof. induction l as [| x l IH]; cbn; [reflexivity | now f_equal]. Qed.

Lemma quiet_pulls (l : list record) :
  yields (map Next l) = [] /\ progress_indices (map Next l) = []
  /\ before_calls (map Next l) = [].
Proof. induction l as [| x l IH]; cbn; auto. Qed.

Lemma results_values (records : list record)
      (results : list RecordValidationResult) (raise_errors : bool) :
  Forall2 (fun record r => validate_one record raise_errors = Ok r)
          records results ->
  map value results = records.
Proof.
  induction 1 as [| item r records results Hr _ IH]; [reflexivity |].
  cbn. apply validate_record_result in Hr as [_ ->]. now f_equal.
Qed.

(** X13. RETURN and SKIP where every record gets a result.  When
    [validate_record] returns a result for every record of the input (it
    does when the failures are those of a pydantic model itself) and the
    hooks let the iteration go on: under RETURN, on the individual path,
    [validate_records] yields exactly one result for each input item, in
    input order, failures included (in their error slot); under SKIP it
    yields the successful results only, in the same relative order; under
    both the progress callback is given the positions 0, 1, ..., one for
    every input item, skipped ones included. *)
Theorem return_and_skip (records : source record)
        (results : list RecordValidationResult) :
  Forall2 (fun record r => validate_one record false = Ok r)
          (items_of records) results ->
  Forall (continues hooks) results ->
  map value results = items_of records
  /\ (raised (pipeline RETURN on_progress hooks records false) = None
      /\ yields (log (pipeline RETURN on_progress hooks records false)) = results
      /\ progress_indices (log (pipeline RETURN on_progress hooks records false))
         = (if is_None on_progress then []
            else seq 0 (List.length (items_of records))))
  /\ (forall bulk,
         raised (pipeline SKIP on_progress hooks records bulk) = None
         /\ yields (log (pipeline SKIP on_progress hooks records bulk))
            = filter succeeded results
         /\ progress_indices (log (pipeline SKIP on_progress hooks records bulk))
            = (if is_None on_progress then []
               else seq 0 (List.length (items_of records)))).
Proof.
  intros Hresults Hcont.
  split; [eapply results_values; eassumption |].
  split; [| intros bulk];
    (rewrite validate_records_individual
      by (cbn; destruct model; cbn; auto using andb_false_r));
    match goal with
    | |- context [individual _ _ _ _ _ _ _ ?eo _ _ _] =>
        destruct (individual_log eo records) as [-> ->];
        destruct (individual_loop_complete
                    eo (items_of records) results
                    (Some (List.length (items_of records))) 0 eq_refl
                    Hresults Hcont)
          as (-> & Hy & Hp & _ & _)
    end;
    rewrite yields_app, progress_indices_app, Hy, Hp;
    (destruct records as [l | l | l]; cbn [List.app is_SKIP];
     [| destruct (quiet_pulls l) as (-> & -> & _) |]; auto).
Qed.

(** X30. RAISE stops at the first record whose validation raises.  Under
    RAISE, when the records before [bad] are valid, the hooks let the
    iteration go on and [validate_record] raises [e] for [bad], whatever
    [e] is: the iteration ends by raising [e], which is the failure of the
    pydantic model itself when the model is a pydantic class; exactly the
    results of the records before [bad] are yielded, all successful; the
    before-validate callback has been called for those records and for
    [bad], and for no later one: after the items are pulled, the log is
    that of the loop on the records up to [bad]. *)
Theorem raise_stops_at_first_failure (records : source record)
        (before after_bad : list record) (bad : record)
        (results : list RecordValidationResult) (e : exn) (bulk : bool) :
  items_of records = List.app before (bad :: after_bad) ->
  Forall2 (fun record r => validate_one record true = Ok r) before results ->
  Forall (continues hooks) results ->
  validate_one bad true = Raise e ->
  raised (pipeline RAISE on_progress hooks records bulk) = Some e
  /\ yields (log (pipeline RAISE on_progress hooks records bulk)) = results
  /\ map value results = before
  /\ Forall (fun r => error r = None) results
  /\ before_calls (log (pipeline RAISE on_progress hooks records bulk))
     = (if before_installed hooks then List.app before [bad] else [])
  /\ log (pipeline RAISE on_progress hooks records bulk)
     = List.app (match records with
                 | CallerIterator remaining => map Next remaining
                 | _ => []
                 end)
                (log (loop RAISE on_progress hooks (List.app before [bad])
                           (Some (List.length (items_of records))) 0))
  /\ (forall m d pe,
         model = ModelClass m ->
         apply_transforms (record_to_dict bad) transforms = Ok d ->
         model_validate m
           (VDict (match fields with
                   | Some fields => _filter_record_fields d fields
                   | None => d
                   end)) from_attributes strict
         = Raise (PydanticValidationError pe) ->
         e = PydanticValidationError pe).
Proof.
  intros Hitems Hresults Hcont Hbad.
  rewrite validate_records_individual
    by (cbn; destruct model; cbn; auto using andb_false_r).
  destruct (individual_log RAISE records) as [-> ->]. rewrite Hitems.
  destruct (individual_loop_raises
              RAISE before after_bad bad results e
              (Some (List.length (List.app before (bad :: after_bad)))) 0
              eq_refl Hresults Hcont Hbad)
    as (Hraised & Hyields & Hbefore & Hlog).
  rewrite yields_app, before_calls_app, Hraised, Hyields, Hbefore, Hlog.
  split; [reflexivity |]. split.
  { destruct records as [l | l | l]; cbn [List.app];
      [| destruct (quiet_pulls l) as (-> & _) |]; reflexivity. }
  split; [eapply results_values; eassumption |]. split.
  { clear - Hresults. induction Hresults as [| item r l l' Hr _ IH];
      constructor; [eapply validate_record_raising; eassumption | assumption]. }
  split.
  { destruct records as [l | l | l]; cbn [List.app];
      [| destruct (quiet_pulls l) as (_ & _ & ->) |]; reflexivity. }
  split; [reflexivity |].
  intros m d pe Hm Hd Hfail.
  rewrite (validate_record_raises_model_failure m bad d pe Hm Hd Hfail) in Hbad.
  now injection Hbad.
Qed.

(** *** The invariant of the results *)

Lemma individual_results (error_option : ErrorOption) (records : source record) :
  Forall (fun r => exactly_one r /\ In (value r) (items_of records))
         (yields (log (individual model from_attributes strict fields
                                  project_fields transforms rules error_option
                                  on_progress hooks records))).
Proof.
  destruct (individual_log error_option records) as [-> _].
  rewrite yields_app.
  replace (yields (match records with
                   | CallerIterator remaining => map Next remaining
                   | _ => []
                   end)) with (@nil RecordValidationResult)
    by (destruct records as [l | l | l]; cbn [yields flat_map]; try reflexivity;
        now destruct (quiet_pulls l) as (-> & _)).
  apply individual_loop_results.
Qed.

Lemma bulk_result_exactly_one (model_name : string) (records_list : list dict)
      (idx : nat) (validated_model : instance) (r : RecordValidationResult) :
  bulk_result project_fields rules model_name records_list idx validated_model
  = Ok r ->
  exactly_one r.
Proof.
  unfold bulk_result, exactly_one.
  destruct rules as [rs |].
  - destruct (rules_validate _ _) as [| entry l].
    + destruct (item_at records_list idx); cbn [bind]; [| discriminate].
      intros [= <-]. left. cbn. split; congruence.
    + destruct (new_ValidationError _); cbn [bind]; [| discriminate].
      destruct (pydantic_errors_of _); cbn [bind]; [| discriminate].
      destruct (from_exception_data _ _); cbn [bind]; [| discriminate].
      destruct (item_at records_list idx); cbn [bind]; [| discriminate].
      intros [= <-]. right. cbn. split; congruence.
  - destruct (item_at records_list idx); cbn [bind]; [| discriminate].
    intros [= <-]. left. cbn. split; congruence.
Qed.

Lemma bulk_loop_results (model_name : string) (records_list : list dict)
      (total_count : nat) (validated_models : list instance) (idx : nat) :
  Forall exactly_one
         (yields (log (bulk_loop project_fields rules on_progress hooks
                                 model_name records_list total_count
                                 validated_models idx))).
Proof.
  revert idx. induction validated_models as [| vm l IH]; intros idx.
  - constructor.
  - cbn [bulk_loop].
    destruct (bulk_result _ _ _ _ _ _) as [r | e] eqn:Hr; [| constructor].
    apply bulk_result_exactly_one in Hr.
    destruct (call_hooks_quiet hooks r) as (Hq1 & _).
    destruct (call_hooks hooks r) as [called stop]. cbn [fst] in Hq1.
    rewrite log_after, yields_app, Hq1. cbn [List.app].
    destruct stop; [constructor |].
    rewrite log_after, !yields_app, call_progress_log.
    destruct (is_None on_progress); cbn [List.app yields flat_map];
      (constructor; [assumption | apply IH]).
Qed.

(** X26. Every result that [validate_records] yields, on the bulk path
    too, has exactly one of [error] and [result] set. *)
Lemma validate_records_exactly_one (error_option : ErrorOption)
      (records : source record) (bulk : bool) :
  Forall exactly_one
         (yields (log (pipeline error_option on_progress hooks records bulk))).
Proof.
  assert (Hind : forall src,
             Forall exactly_one
                    (yields (log (individual model from_attributes strict fields
                                             project_fields transforms rules
                                             error_option on_progress hooks src)))).
  { intros src. eapply Forall_impl; [| apply individual_results]. now intros r [Hr _]. }
  assert (Hfall : forall e l src,
             Forall exactly_one
                    (yields (log (fall_back model from_attributes strict fields
                                            project_fields transforms rules
                                            error_option on_progress hooks
                                            e l src)))).
  { intros e l src. unfold fall_back. destruct e; apply Hind. }
  unfold validate_records.
  destruct (bulk && _can_use_bulk records model error_option); [| apply Hind].
  destruct (materialize records) as [[records_list pulled] src] eqn:Hmat.
  assert (Hpulled : yields pulled = []).
  { destruct records as [l | l | l]; cbn in Hmat; injection Hmat as <- <- <-;
      try reflexivity. now destruct (quiet_pulls l) as (-> & _). }
  rewrite log_after, yields_app, Hpulled. cbn [List.app].
  destruct records_list as [| item items]; [constructor |].
  destruct (negb (forallb is_dict (item :: items))); [apply Hind |].
  destruct (bulk_prepare _ _ _) as [prepared | e]; [| apply Hind].
  destruct model as [m | m | cls]; try apply Hind.
  destruct (validate_python_list m _ strict) as [validated | e]; [| apply Hfall].
  destruct (raised (bulk_loop _ _ _ _ _ _ _ _ _)) as [e |] eqn:Hraised.
  - rewrite log_after, yields_app. apply Forall_app. split;
      [apply bulk_loop_results | apply Hfall].
  - apply bulk_loop_results.
Qed.

(** *** Exceptions of the transforms *)

(** A record-level transform that returns something else than a mapping
    makes [apply_transforms] raise a [ValueError]. *)
Lemma record_level_contract (transform : Transform) (d : dict) (v : pyval) :
  func transform (VDict d) = Ok v ->
  (forall d', v <> VDict d') ->
  record_level transform d
  = Raise (ValueError ("Record-level transform must return dict, got "
                       ++ value_type_str v)).
Proof.
  intros Hv Hnot. unfold record_level. rewrite Hv. cbn [bind].
  destruct v; try reflexivity. now contradiction (Hnot d0).
Qed.

(** On the individual path the exception of [validate_record] ends the
    iteration, under every policy. *)
Lemma individual_loop_propagates (error_option : ErrorOption) (item : record)
      (rest : list record) (e : exn) (total : option nat) (index : nat) :
  validate_one item (is_RAISE error_option) = Raise e ->
  raised (loop error_option on_progress hooks (item :: rest) total index) = Some e
  /\ yields (log (loop error_option on_progress hooks (item :: rest) total index))
     = [].
Proof.
  intros He. cbn [individual_loop]. rewrite He, raised_after, log_after.
  split; [reflexivity |]. cbn [raising log]. rewrite app_nil_r.
  destruct hooks as [h |]; [| reflexivity].
  rewrite call_before_validate_log. now destruct (is_None (before_validate h)).
Qed.

(** On the bulk path an exception of the transforms is caught by the
    handler that falls back to the individual validation; when the records
    came from an iterator, the fallback finds it exhausted: nothing is
    yielded and nothing is raised. *)
Lemma bulk_swallows_transform_error (m : pydantic_model) (items : list record)
      (e : exn) :
  model = ModelClass m ->
  items <> [] ->
  forallb is_dict items = true ->
  bulk_prepare fields transforms (map (as_dict) items) = Raise e ->
  pipeline RETURN on_progress hooks (CallerIterator items) true
  = mk_run (map Next items) None.
Proof.
  intros -> Hitems Hdicts Hprepare. unfold validate_records.
  cbn [andb _can_use_bulk is_RETURN materialize].
  destruct items as [| item items]; [congruence |].
  rewrite Hdicts, Hprepare. cbn [negb]. unfold individual, after.
  cbn. now rewrite app_nil_r.
Qed.

(** *** Pulls *)

Lemma until_first_yield_pulls (items : list record) (l : list (event record)) :
  pulls l = [] ->
  pulls (until_first_yield (List.app (map Next items) l)) = items.
Proof.
  intros Hl. induction items as [| item items IH]; cbn.
  - induction l as [| ev l IH]; [reflexivity |].
    destruct ev; cbn in *; try (apply IH; assumption); try discriminate.
    reflexivity.
  - now f_equal.
Qed.

(** The loop itself pulls nothing: it goes over a list. *)
Lemma individual_loop_no_pulls (error_option : ErrorOption)
      (records : list record) (total : option nat) (index : nat) :
  pulls (log (loop error_option on_progress hooks records total index)) = [].
Proof.
  revert index. induction records as [| item records IH]; intros index;
    [reflexivity |].
  cbn [individual_loop]. rewrite log_after, pulls_app.
  replace (pulls (match hooks with
                  | Some h => call_before_validate h item
                  | None => []
                  end)) with (@nil record)
    by (destruct hooks as [h |]; [| reflexivity];
        rewrite call_before_validate_log;
        now destruct (is_None (before_validate h))).
  destruct (validate_one item (is_RAISE error_option)) as [r | e];
    [| reflexivity].
  destruct (call_hooks_quiet hooks r) as (_ & Hq2 & _).
  destruct (call_hooks hooks r) as [called stop]. cbn [fst] in Hq2.
  rewrite log_after, pulls_app, Hq2. cbn [List.app].
  destruct stop; [reflexivity |].
  rewrite log_after, pulls_app, call_progress_log.
  destruct (negb (is_None (error r)) && is_SKIP error_option);
    [| rewrite log_after, pulls_app];
    destruct (is_None on_progress);
    cbn [List.app pulls flat_map]; apply IH.
Qed.

(** [validate_records] has pulled every item of the caller's iterator
    when it yields its first result. *)
Lemma validate_records_pulls_all_first (error_option : ErrorOption)
      (items : list record) :
  pulls (until_first_yield
           (log (pipeline error_option on_progress hooks
                          (CallerIterator items) false)))
  = items.
Proof.
  rewrite validate_records_individual by reflexivity.
  destruct (individual_log error_option (CallerIterator items)) as [-> _].
  apply until_first_yield_pulls, individual_loop_no_pulls.
Qed.
End Pipeline.

(** ** JSON texts *)

Section Json.
Variable model : pydantic_model.
Variable strict : option bool.

(** A result of [validate_json] has exactly one of [error] and [result]
    set, and its [value] is the text it was given. *)
Lemma validate_json_result (json : Json) (raise_errors : bool)
      (r : JsonValidationResult) :
  validate_json model strict json raise_errors = Ok r ->
  exactly_one r /\ value r = json.
Proof.
  unfold validate_json, exactly_one.
  destruct (model_validate_json model json strict) as [i | e].
  - intros [= <-]. cbn. split; [left; split; congruence | reflexivity].
  - destruct e; try discriminate. destruct raise_errors; [discriminate |].
    intros [= <-]. cbn. split; [right; split; congruence | reflexivity].
Qed.

(** X27. [validate_jsons] pulls an item from the caller's iterator when it
    comes to it: the first item is the only one pulled when the first
    result is yielded. *)
Lemma validate_jsons_is_lazy (error_option : ErrorOption)
      (on_progress : option (ProgressCallback Json))
      (hooks : option (ValidationHooks Json))
      (json : Json) (rest : list Json) (r : JsonValidationResult) :
  validate_json model strict json (is_RAISE error_option) = Ok r ->
  continues hooks r ->
  negb (is_None (error r)) && is_SKIP error_option = false ->
  pulls (until_first_yield
           (log (validate_jsons model strict error_option on_progress hooks
                                (CallerIterator (json :: rest)))))
  = [json].
Proof.
  intros Hr Hcont Hskip. cbn [validate_jsons jsons_loop]. rewrite Hr, Hskip.
  unfold continues in Hcont.
  assert (Hcalled : forall l : list (event Json),
             pulls (until_first_yield
                      (List.app (fst (call_hooks hooks r)) (Yield r :: l))) = []).
  { intros l. destruct hooks as [h |]; [| reflexivity].
    rewrite call_hooks_log, call_after_validate_log, call_on_success_log,
      call_on_error_log, check_should_continue_log.
    destruct (is_None (after_validate h)), (is_None (on_success h)),
      (is_None (on_error h)), (is_None (should_continue h)),
      (is_None (error r)); reflexivity. }
  destruct (call_hooks hooks r) as [called stop]. cbn [fst snd] in *. subst stop.
  rewrite !log_after, call_progress_log.
  assert (Hb : (match hooks with
                | Some h => call_before_validate h json
                | None => []
                end) = [] \/ (match hooks with
                              | Some h => call_before_validate h json
                              | None => []
                              end) = [BeforeValidate json]).
  { destruct hooks as [h |]; [| now left].
    rewrite call_before_validate_log.
    destruct (is_None (before_validate h)); [now left | now right]. }
  assert (Hgoal : forall l : list (event Json),
             pulls (until_first_yield
                      (List.app called
                         (List.app (if is_None on_progress then []
                                    else [Progress 0 None r])
                            (List.app [Yield r] l)))) = []).
  { intros l. destruct (is_None on_progress); cbn [List.app]; [apply Hcalled |].
    clear - Hcalled. specialize (Hcalled l).
    induction called as [| ev called IH]; [reflexivity |].
    destruct ev; cbn in *; try (apply IH; assumption); try discriminate.
    reflexivity. }
  destruct Hb as [-> | ->]; cbn [List.app until_first_yield pulls flat_map];
    f_equal; apply Hgoal.
Qed.
End Json.

(** ** More on the coercion engine *)

Section CastExtras.
Context `{Dateutil}.

(** X1. A value that [cast_as] returns for one of int, float, str and bool
    is an instance of that type, and casting it again returns it
    unchanged. *)
Theorem cast_as_scalar_stable (value r : pyval) (annotation : pytype) :
  is_scalar_kind annotation = true ->
  cast_as value annotation = Ok r ->
  isinstance r annotation = Ok true /\ cast_as r annotation = Ok r.
Proof.
  intros Hkind Hcast.
  assert (Hinst : isinstance r annotation = Ok true).
  { unfold cast_as in Hcast.
    destruct (isinstance value annotation) as [[|] | e] eqn:Hi; cbn [bind] in Hcast.
    - now injection Hcast as <-.
    - destruct annotation; try discriminate; cbn in Hcast.
      + destruct (py_int value); [| discriminate]. now injection Hcast as <-.
      + destruct (py_float value); [| discriminate]. now injection Hcast as <-.
      + now injection Hcast as <-.
      + now injection Hcast as <-.
    - discriminate. }
  split; [assumption |]. unfold cast_as. now rewrite Hinst.
Qed.

(** The resolver raises the [TypeError] of its last line when, and only
    when, every member was passed over. *)
Lemma union_loop_exhausted (value : pyval) (union_types attempted : list pytype) :
  Forall (passed_over value) union_types ->
  union_loop value union_types attempted
  = Raise (TypeError ("Failed to cast value " ++ repr value
                      ++ " to any of the union types: "
                      ++ join ", " (map pytype_str
                                        (List.app attempted union_types)))).
Proof.
  intros Hall. revert attempted.
  induction Hall as [| t rest Ht _ IH]; intros attempted.
  - cbn [union_loop]. now rewrite app_nil_r.
  - rewrite union_loop_passed_over by assumption. rewrite IH.
    now rewrite <- app_assoc.
Qed.

Lemma union_loop_caught (value : pyval) (union_types attempted : list pytype)
      (e : exn) :
  union_loop value union_types attempted = Raise e ->
  caught_in_union e = true ->
  Forall (passed_over value) union_types.
Proof.
  revert attempted.
  induction union_types as [| t rest IH]; intros attempted; cbn [union_loop].
  - constructor.
  - destruct (try_member value t) as [[v |] | e'] eqn:Ht.
    + discriminate.
    + intros Hrest Hc. constructor; [now left | now apply (IH _ Hrest)].
    + destruct (caught_in_union e') eqn:Hc'.
      * intros Hrest Hc. constructor; [right; now exists e' | now apply (IH _ Hrest)].
      * intros [= ->] Hc. congruence.
Qed.

(** X2. [cast_as_union] fails with an exception of the kinds its handler
    catches exactly when every member of the union was passed over, and the
    exception is then the [TypeError] that names the value and every
    member, in declared order. *)
Theorem cast_as_union_exhausted (value : pyval) (members : list pytype) :
  Forall (passed_over value) members
  <-> (exists e, cast_as_union value (Union members) = Raise e
                 /\ caught_in_union e = true)
      /\ cast_as_union value (Union members)
         = Raise (TypeError ("Failed to cast value " ++ repr value
                             ++ " to any of the union types: "
                             ++ join ", " (map pytype_str members))).
Proof.
  unfold cast_as_union. cbn [_get_union_args bind]. split.
  - intros Hall. rewrite (union_loop_exhausted _ _ [] Hall). cbn [List.app].
    split; [| reflexivity]. eexists. split; reflexivity.
  - intros [(e & He & Hc) _]. exact (union_loop_caught _ _ _ _ He Hc).
Qed.

(** X3. The first member that is not passed over decides: [cast_as_union]
    returns [r] exactly when the union splits into members that were
    passed over, a member that returned [r], and members that were not
    tried. *)
Theorem cast_as_union_first_match (value r : pyval) (members : list pytype) :
  cast_as_union value (Union members) = Ok r
  <-> exists before _type after,
        members = List.app before (_type :: after)
        /\ Forall (passed_over value) before
        /\ try_member value _type = Ok (Some r).
Proof.
  unfold cast_as_union. cbn [_get_union_args bind]. split.
  - apply union_loop_returns.
  - intros (before & t & after & -> & Hb & Ht).
    now apply union_loop_first_match.
Qed.

(** X4. A union whose first member is [str] never reaches its other
    members for a value that is no container: the value comes back as it
    is when it is a string, as its text otherwise; so Optional[str],
    written with [str] first, turns None into the text None. *)
Theorem str_first_absorbs (value : pyval) (rest : list pytype) :
  is_container value = false ->
  cast_as_union value (Union (TStr :: rest))
  = Ok (match value with VStr _ => value | _ => VStr (py_str value) end).
Proof.
  intros Hc. unfold cast_as_union. cbn [_get_union_args bind union_loop].
  destruct value; try discriminate; reflexivity.
Qed.
End CastExtras.

(** ** More on the structural caster *)

Lemma dict_keys_set {A} (k : string) (v : A) (d : list (string * A)) :
  In k (dict_keys d) -> dict_keys (dict_set k v d) = dict_keys d.
Proof.
  induction d as [| [k' v'] d IH]; cbn; [contradiction |].
  destruct (String.eqb k k') eqn:Hk.
  - apply String.eqb_eq in Hk as ->. reflexivity.
  - intros [-> | Hin]; [now rewrite String.eqb_refl in Hk |].
    cbn. f_equal. now apply IH.
Qed.

Lemma dict_get_set_same {A} (k : string) (v : A) (d : list (string * A)) :
  dict_get k (dict_set k v d) = Some v.
Proof.
  induction d as [| [k' v'] d IH]; cbn.
  - now rewrite String.eqb_refl.
  - destruct (String.eqb k k') eqn:Hk; cbn.
    + now rewrite String.eqb_refl.
    + now rewrite Hk.
Qed.

Lemma dict_get_set_other {A} (k k' : string) (v : A) (d : list (string * A)) :
  k' <> k -> dict_get k' (dict_set k v d) = dict_get k' d.
Proof.
  intros Hne. induction d as [| [k0 v0] d IH]; cbn.
  - apply String.eqb_neq in Hne. now rewrite Hne.
  - destruct (String.eqb k k0) eqn:Hk; cbn.
    + apply String.eqb_eq in Hk as <-.
      apply String.eqb_neq in Hne. now rewrite Hne.
    + now rewrite IH.
Qed.

Lemma dict_get_NoDup {A} (k : string) (v : A) (d : list (string * A)) :
  NoDup (dict_keys d) -> In (k, v) d -> dict_get k d = Some v.
Proof.
  induction d as [| [k' v'] d IH]; cbn; [contradiction |].
  intros Hnodup. apply NoDup_cons_iff in Hnodup as [Hk' Hnodup].
  intros [[= -> ->] | Hin].
  - now rewrite String.eqb_refl.
  - destruct (String.eqb k k') eqn:Hk; [| now apply IH].
    apply String.eqb_eq in Hk as ->. contradiction Hk'.
    unfold dict_keys. apply in_map_iff. now exists (k', v).
Qed.

Lemma dict_set_not_nil {A} (k : string) (v : A) (d : list (string * A)) :
  dict_set k v d <> [].
Proof. destruct d as [| [k' v'] d]; cbn; [| destruct (String.eqb k k')]; discriminate. Qed.

Section CasterSuccess.
Context `{Dateutil}.



End CasterSuccess.

(** ** The transforms *)

Section TransformExtras.

Lemma apply_transform_list_app (record : dict) (first second : list Transform) :
  apply_transform_list (List.app first second) record
  = do result <- apply_transform_list first record;
    apply_transform_list second result.
Proof.
  revert record.
  induction first as [| transform first IH]; intros record; [reflexivity |].
  cbn [List.app apply_transform_list].
  destruct (field transform) as [name |];
    [destruct (field_level transform name record)
    | destruct (record_level transform record)];
    cbn [bind]; solve [apply IH | reflexivity].
Qed.

(** X6. The transforms of a list are applied one after the other, from
    left to right: a list in two parts is the first part followed by the
    second on its result, and the exception of the first part is the
    exception of the whole. *)
Theorem apply_transforms_app (record : dict) (first second : list Transform) :
  apply_transforms record (Some (TransformList (List.app first second)))
  = do result <- apply_transforms record (Some (TransformList first));
    apply_transforms result (Some (TransformList second)).
Proof. apply apply_transform_list_app. Qed.

Lemma field_level_keys (transform : Transform) (name : string)
      (record result : dict) :
  field_level transform name record = Ok result ->
  dict_keys result = dict_keys record
  /\ forall key, key <> name -> dict_get key result = dict_get key record.
Proof.
  unfold field_level. destruct (dict_get name record) as [v |] eqn:Hget.
  - destruct (func transform v) as [v' | e]; cbn [bind]; [| discriminate].
    intros [= <-]. split.
    + apply dict_keys_set. apply dict_mem_In. unfold dict_mem.
      clear - Hget. induction record as [| [k w] record IH]; [discriminate |].
      cbn in *. destruct (String.eqb name k); [reflexivity | now apply IH].
    + intros key Hne. now apply dict_get_set_other.
  - intros [= <-]. now split.
Qed.

(** X7. Field-level transforms keep the shape of the record: when every
    transform of the list names a field, the result has the keys of the
    record, in the same order, and a field that no transform names keeps
    its value. *)
Theorem field_transforms_keep_shape (record result : dict)
        (transforms : list Transform) :
  Forall (fun transform => field transform <> None) transforms ->
  apply_transforms record (Some (TransformList transforms)) = Ok result ->
  dict_keys result = dict_keys record
  /\ forall key,
       Forall (fun transform => field transform <> Some key) transforms ->
       dict_get key result = dict_get key record.
Proof.
  cbn [apply_transforms]. intros Hall. revert record.
  induction Hall as [| transform transforms Hfield _ IH]; intros record;
    cbn [apply_transform_list].
  - intros [= <-]. now split.
  - destruct (field transform) as [name |] eqn:Hname; [| congruence].
    destruct (field_level transform name record) as [r | e] eqn:Hr; cbn [bind];
      [| discriminate].
    intros Hrest. destruct (IH _ Hrest) as [Hkeys Hget].
    apply field_level_keys in Hr as [Hkeys' Hget']. split; [congruence |].
    intros key Hkey. inversion Hkey as [| ? ? Hhead Htail]; subst.
    rewrite Hget by assumption. apply Hget'. congruence.
Qed.

(** X8. In the mapping form it is the key that names the field: the
    [field] of a transform only tells a field-level transform from a
    record-level one.  The mapping does what the list of its transforms
    does, each field-level one aimed at its key. *)
Theorem transform_dict_as_list (record : dict)
        (transforms : list (string * Transform)) :
  apply_transforms record (Some (TransformDict transforms))
  = apply_transforms record
      (Some (TransformList
               (map (fun item =>
                       match field (snd item) with
                       | Some _ =>
                           mk_Transform (func (snd item)) (Some (fst item))
                                        (apply_before_validation (snd item))
                       | None => snd item
                       end)
                    transforms))).
Proof.
  cbn [apply_transforms]. revert record.
  induction transforms as [| [field_name transform] transforms IH]; intros record;
    [reflexivity |].
  cbn [apply_transform_dict apply_transform_list map fst snd].
  destruct (field transform) as [name |] eqn:Hname; cbn [field].
  - unfold field_level. cbn [func].
    destruct (dict_get field_name record) as [v |]; cbn [bind]; [| apply IH].
    destruct (func transform v); cbn [bind]; [apply IH | reflexivity].
  - rewrite Hname.
    destruct (record_level transform record); cbn [bind]; [apply IH | reflexivity].
Qed.

(** X9. A record-level transform that returns anything but a dict ends
    the transformation with a [ValueError] that names the type returned;
    the transforms after it are not applied. *)
Theorem record_transform_must_return_dict (record result : dict)
        (before rest : list Transform) (transform : Transform) (v : pyval) :
  apply_transforms record (Some (TransformList before)) = Ok result ->
  field transform = None ->
  func transform (VDict result) = Ok v ->
  (forall d, v <> VDict d) ->
  apply_transforms record
    (Some (TransformList (List.app before (transform :: rest))))
  = Raise (ValueError ("Record-level transform must return dict, got "
                       ++ value_type_str v)).
Proof.
  cbn [apply_transforms]. intros Hbefore Hfield Hv Hnot.
  rewrite apply_transform_list_app, Hbefore. cbn [bind apply_transform_list].
  rewrite Hfield. now rewrite (record_level_contract transform result v Hv Hnot).
Qed.
End TransformExtras.

(** ** The rules *)

Lemma dict_get_mem {A} (k : string) (d : list (string * A)) :
  dict_get k d = None <-> dict_mem k d = false.
Proof.
  unfold dict_mem. induction d as [| [k' v] d IH]; cbn; [tauto |].
  destruct (String.eqb k k'); cbn; [split; discriminate | exact IH].
Qed.

Lemma dict_get_Some_In {A} (k : string) (v : A) (d : list (string * A)) :
  dict_get k d = Some v -> In (k, v) d.
Proof.
  induction d as [| [k' v'] d IH]; cbn; [discriminate |].
  destruct (String.eqb k k') eqn:Hk.
  - apply String.eqb_eq in Hk as ->. intros [= ->]. now left.
  - intros Hget. right. now apply IH.
Qed.

Lemma dict_set_NoDup {A} (k : string) (v : A) (d : list (string * A)) :
  NoDup (dict_keys d) -> NoDup (dict_keys (dict_set k v d)).
Proof.
  intros Hnodup. destruct (dict_mem k d) eqn:Hmem.
  - rewrite dict_keys_set by now apply dict_mem_In. assumption.
  - rewrite dict_set_fresh, dict_keys_app by assumption.
    apply dict_mem_false in Hmem. cbn.
    apply NoDup_app; [assumption | repeat constructor; intros [] |].
    intros x Hx [<- | []]. contradiction.
Qed.

(** *** [sorted(rules, key=priority)] *)

Lemma insert_rule_In (r x : ValidationRule) (l : list ValidationRule) :
  In x (insert_rule r l) <-> x = r \/ In x l.
Proof.
  induction l as [| y l IH]; cbn.
  - intuition congruence.
  - destruct (priority r <=? priority y); cbn; [intuition congruence |].
    rewrite IH. intuition congruence.
Qed.

Lemma sorted_rules_In (x : ValidationRule) (rules : list ValidationRule) :
  In x (sorted_rules rules) <-> In x rules.
Proof.
  induction rules as [| r rules IH]; cbn; [tauto |].
  rewrite insert_rule_In, IH. intuition congruence.
Qed.

Lemma insert_rule_sorted (r : ValidationRule) (l : list ValidationRule) :
  StronglySorted (fun a b => priority a <= priority b) l ->
  StronglySorted (fun a b => priority a <= priority b) (insert_rule r l).
Proof.
  induction 1 as [| y l Hl IH Hy]; cbn.
  - repeat constructor.
  - destruct (priority r <=? priority y) eqn:Hle.
    + apply Z.leb_le in Hle. constructor; [now constructor |].
      constructor; [assumption |].
      eapply Forall_impl; [| exact Hy]. cbn. intros; lia.
    + apply Z.leb_gt in Hle. constructor; [assumption |].
      apply Forall_forall. intros x Hx. apply insert_rule_In in Hx as [-> | Hx].
      * lia.
      * rewrite Forall_forall in Hy. now apply Hy.
Qed.

Lemma sorted_rules_sorted (rules : list ValidationRule) :
  StronglySorted (fun a b => priority a <= priority b) (sorted_rules rules).
Proof.
  induction rules as [| r rules IH]; cbn; [constructor |].
  now apply insert_rule_sorted.
Qed.

Lemma filter_sorted {A} (R : A -> A -> Prop) (p : A -> bool) (l : list A) :
  StronglySorted R l -> StronglySorted R (filter p l).
Proof.
  induction 1 as [| x l Hl IH Hx]; cbn; [constructor |].
  destruct (p x); [| assumption]. constructor; [assumption |].
  apply Forall_forall. intros y Hy. apply filter_In in Hy as [Hy _].
  rewrite Forall_forall in Hx. now apply Hx.
Qed.

(** The first of a sorted list to satisfy [p] is least among those that
    do; the last is greatest. *)
Lemma find_least (p : ValidationRule -> bool) (l : list ValidationRule) :
  StronglySorted (fun a b => priority a <= priority b) l ->
  match find p l with
  | Some r => In r l /\ p r = true
              /\ forall r', In r' l -> p r' = true -> priority r <= priority r'
  | None => forall r, In r l -> p r = false
  end.
Proof.
  induction 1 as [| x l Hl IH Hx]; cbn; [tauto |].
  destruct (p x) eqn:Hpx.
  - split; [now left |]. split; [assumption |].
    intros r' [<- | Hr'] _; [lia |]. rewrite Forall_forall in Hx. now apply Hx.
  - destruct (find p l) as [r |].
    + destruct IH as (Hin & Hp & Hleast). split; [now right |].
      split; [assumption |]. intros r' [<- | Hr'] Hpr'; [congruence |].
      now apply Hleast.
    + intros r [<- | Hr]; [assumption | now apply IH].
Qed.

Lemma last_greatest (before after : list ValidationRule) (r r' : ValidationRule) :
  StronglySorted (fun a b => priority a <= priority b)
                 (List.app before (r :: after)) ->
  In r' before -> priority r' <= priority r.
Proof.
  induction before as [| x before IH]; cbn; [contradiction |].
  intros Hsorted. apply StronglySorted_inv in Hsorted as [Hrest Hx].
  intros [<- | Hin]; [| now apply IH].
  rewrite Forall_forall in Hx. apply Hx. apply in_or_app. right. now left.
Qed.

(** *** [RuleValidator.__init__] *)

(** The rules of a field, in the order of [self.rules]; the rules of the
    whole record are not among them. *)
Lemma field_rules_fold (field : string) (rules : list ValidationRule)
      (d : list (string * list ValidationRule)) :
  dict_get field
    (fold_left (fun d rule => if String.eqb (rule_field rule) "*" then d
                              else add_field_rule rule d) rules d)
  = match dict_get field d,
          filter (fun rule => String.eqb (rule_field rule) field
                              && negb (String.eqb (rule_field rule) "*")) rules
    with
    | None, [] => None
    | None, l => Some l
    | Some l0, l => Some (List.app l0 l)
    end.
Proof.
  revert d.
  induction rules as [| r rules IH]; intros d; cbn [fold_left filter].
  - destruct (dict_get field d); [now rewrite app_nil_r | reflexivity].
  - rewrite IH. destruct (String.eqb (rule_field r) "*") eqn:Hstar; cbn [negb].
    + now rewrite andb_false_r.
    + rewrite andb_true_r. unfold add_field_rule.
      destruct (String.eqb (rule_field r) field) eqn:Hf.
      * apply String.eqb_eq in Hf. rewrite Hf.
        destruct (dict_get field d) as [l0 |]; rewrite dict_get_set_same.
        -- now rewrite <- app_assoc.
        -- reflexivity.
      * apply String.eqb_neq in Hf.
        destruct (dict_get (rule_field r) d);
          rewrite dict_get_set_other by congruence; reflexivity.
Qed.

Lemma field_rules_get (field : string) (rules : list ValidationRule) :
  dict_get field (field_rules (new_RuleValidator rules))
  = match filter (fun rule => String.eqb (rule_field rule) field
                              && negb (String.eqb (rule_field rule) "*"))
                 (sorted_rules rules)
    with
    | [] => None
    | l => Some l
    end.
Proof. cbn [new_RuleValidator field_rules]. now rewrite field_rules_fold. Qed.

Lemma field_rules_find {B} (field : string) (rules : list ValidationRule)
      (g : list ValidationRule -> option B) :
  g [] = None ->
  match dict_get field (field_rules (new_RuleValidator rules)) with
  | Some rs => g rs
  | None => None
  end
  = g (filter (fun rule => String.eqb (rule_field rule) field
                           && negb (String.eqb (rule_field rule) "*"))
              (sorted_rules rules)).
Proof.
  intros Hnil. rewrite field_rules_get. now destruct (filter _ (sorted_rules rules)).
Qed.

Lemma field_rules_NoDup (rules : list ValidationRule) :
  NoDup (dict_keys (field_rules (new_RuleValidator rules))).
Proof.
  cbn [new_RuleValidator field_rules].
  assert (Hgen : forall l (d : list (string * list ValidationRule)),
             NoDup (dict_keys d) ->
             NoDup (dict_keys
                      (fold_left (fun d rule =>
                                    if String.eqb (rule_field rule) "*" then d
                                    else add_field_rule rule d) l d))).
  { induction l as [| r l IH]; intros d Hd; cbn [fold_left]; [assumption |].
    apply IH. destruct (String.eqb (rule_field r) "*"); [assumption |].
    unfold add_field_rule.
    destruct (dict_get (rule_field r) d); now apply dict_set_NoDup. }
  apply Hgen. constructor.
Qed.

(** Every group holds rules of the caller for its field, and every
    field-level rule of the caller is in the group of its field. *)
Lemma field_rules_sound (field : string) (rs : list ValidationRule)
      (rule : ValidationRule) (rules : list ValidationRule) :
  In (field, rs) (field_rules (new_RuleValidator rules)) ->
  In rule rs ->
  In rule rules /\ rule_field rule = field /\ field <> "*".
Proof.
  intros Hin Hrule.
  apply dict_get_NoDup in Hin; [| apply field_rules_NoDup].
  rewrite field_rules_get in Hin.
  assert (Hrs : rs = filter (fun rule => String.eqb (rule_field rule) field
                                         && negb (String.eqb (rule_field rule) "*"))
                            (sorted_rules rules))
    by (destruct (filter _ _); congruence).
  rewrite Hrs in Hrule. apply filter_In in Hrule as [Hsorted Hf].
  apply andb_true_iff in Hf as [Hf Hstar].
  apply String.eqb_eq in Hf. apply negb_true_iff, String.eqb_neq in Hstar.
  split; [now apply sorted_rules_In |]. split; congruence.
Qed.

Lemma field_rules_complete (rule : ValidationRule) (rules : list ValidationRule) :
  In rule rules -> rule_field rule <> "*" ->
  exists rs, In (rule_field rule, rs) (field_rules (new_RuleValidator rules))
             /\ In rule rs.
Proof.
  intros Hin Hstar.
  assert (Hrule : In rule
                     (filter (fun r => String.eqb (rule_field r) (rule_field rule)
                                       && negb (String.eqb (rule_field r) "*"))
                             (sorted_rules rules))).
  { apply filter_In. split; [now apply sorted_rules_In |].
    rewrite String.eqb_refl. apply String.eqb_neq in Hstar. now rewrite Hstar. }
  pose proof (field_rules_get (rule_field rule) rules) as Hget.
  destruct (filter _ (sorted_rules rules)) as [| r l] eqn:Hl; [contradiction |].
  exists (r :: l). split; [now apply dict_get_Some_In | assumption].
Qed.

Lemma record_rules_In (rule : ValidationRule) (rules : list ValidationRule) :
  In rule (record_rules (new_RuleValidator rules))
  <-> In rule rules /\ rule_field rule = "*".
Proof.
  cbn [new_RuleValidator record_rules].
  now rewrite filter_In, sorted_rules_In, String.eqb_eq.
Qed.

(** *** [RuleValidator.validate] *)

Lemma check_record_rules_app (first second : list ValidationRule)
      (record_dict : dict) (errs : list (string * error_info)) :
  check_record_rules (List.app first second) record_dict errs
  = check_record_rules second record_dict
      (check_record_rules first record_dict errs).
Proof. apply fold_left_app. Qed.

Lemma check_record_rules_cons (rule : ValidationRule) (rest : list ValidationRule)
      (record_dict : dict) (errs : list (string * error_info)) :
  check_record_rules (rule :: rest) record_dict errs
  = check_record_rules rest record_dict
      (if accepts rule (VDict record_dict) then errs
       else dict_set "__record__" (rule_entry rule (VDict record_dict)) errs).
Proof.
  unfold check_record_rules, accepts, rule_entry. cbn [fold_left].
  now destruct (rule_validate rule (VDict record_dict)) as [[|] msg].
Qed.

Lemma check_field_rules_cons (field_name : string) (rule : ValidationRule)
      (rest : list ValidationRule) (v : pyval) (errs : list (string * error_info)) :
  check_field_rules field_name (rule :: rest) v errs
  = check_field_rules field_name rest v
      (if accepts rule v || dict_mem field_name errs then errs
       else dict_set field_name (rule_entry rule v) errs).
Proof.
  unfold check_field_rules, accepts, rule_entry. cbn [fold_left].
  now destruct (rule_validate rule v) as [[|] msg].
Qed.

Lemma check_record_rules_pass (rs : list ValidationRule) (record_dict : dict)
      (errs : list (string * error_info)) :
  Forall (fun rule => accepts rule (VDict record_dict) = true) rs ->
  check_record_rules rs record_dict errs = errs.
Proof.
  induction 1 as [| rule rs Hrule _ IH]; [reflexivity |].
  now rewrite check_record_rules_cons, Hrule.
Qed.

Lemma check_field_rules_pass (field_name : string) (rs : list ValidationRule)
      (v : pyval) (errs : list (string * error_info)) :
  Forall (fun rule => accepts rule v = true) rs ->
  check_field_rules field_name rs v errs = errs.
Proof.
  induction 1 as [| rule rs Hrule _ IH]; [reflexivity |].
  now rewrite check_field_rules_cons, Hrule.
Qed.

Lemma check_record_rules_nil (rs : list ValidationRule) (record_dict : dict)
      (errs : list (string * error_info)) :
  check_record_rules rs record_dict errs = [] ->
  errs = [] /\ Forall (fun rule => accepts rule (VDict record_dict) = true) rs.
Proof.
  revert errs. induction rs as [| rule rs IH]; intros errs.
  - cbn. intros ->. now split.
  - rewrite check_record_rules_cons. intros Hnil. apply IH in Hnil as [Hnil Hrs].
    destruct (accepts rule (VDict record_dict)) eqn:Hrule.
    + split; [assumption | now constructor].
    + now contradiction (dict_set_not_nil _ _ _ Hnil).
Qed.

Lemma check_field_rules_nil (field_name : string) (rs : list ValidationRule)
      (v : pyval) (errs : list (string * error_info)) :
  check_field_rules field_name rs v errs = [] ->
  errs = [] /\ Forall (fun rule => accepts rule v = true) rs.
Proof.
  revert errs. induction rs as [| rule rs IH]; intros errs.
  - cbn. intros ->. now split.
  - rewrite check_field_rules_cons. intros Hnil. apply IH in Hnil as [Hnil Hrs].
    destruct (accepts rule v) eqn:Hrule; cbn [orb] in Hnil.
    + split; [assumption | now constructor].
    + destruct (dict_mem field_name errs) eqn:Hmem.
      * subst errs. discriminate.
      * now contradiction (dict_set_not_nil _ _ _ Hnil).
Qed.

(** Once the field has an entry, its other rules change nothing. *)
Lemma check_field_rules_full (field_name : string) (rs : list ValidationRule)
      (v : pyval) (errs : list (string * error_info)) :
  dict_mem field_name errs = true ->
  check_field_rules field_name rs v errs = errs.
Proof.
  intros Hmem. induction rs as [| rule rs IH]; [reflexivity |].
  now rewrite check_field_rules_cons, Hmem, orb_true_r.
Qed.

Lemma check_field_rules_other (field_name key : string)
      (rs : list ValidationRule) (v : pyval) (errs : list (string * error_info)) :
  key <> field_name ->
  dict_get key (check_field_rules field_name rs v errs) = dict_get key errs.
Proof.
  intros Hne. revert errs. induction rs as [| rule rs IH]; intros errs;
    [reflexivity |].
  rewrite check_field_rules_cons, IH.
  destruct (accepts rule v || dict_mem field_name errs); [reflexivity |].
  now apply dict_get_set_other.
Qed.

(** The entry of a field is that of the first of its rules to reject the
    value. *)
Lemma check_field_rules_first (field_name : string) (rs : list ValidationRule)
      (v : pyval) (errs : list (string * error_info)) :
  dict_get field_name errs = None ->
  dict_get field_name (check_field_rules field_name rs v errs)
  = option_map (fun rule => rule_entry rule v)
               (find (fun rule => negb (accepts rule v)) rs).
Proof.
  revert errs. induction rs as [| rule rs IH]; intros errs Hnone;
    [assumption |].
  rewrite check_field_rules_cons. cbn [find].
  destruct (accepts rule v) eqn:Hrule; cbn [orb negb]; [now apply IH |].
  apply dict_get_mem in Hnone. rewrite Hnone.
  rewrite check_field_rules_full.
  - apply dict_get_set_same.
  - apply not_false_iff_true. intros Hmem. apply dict_get_mem in Hmem.
    now rewrite dict_get_set_same in Hmem.
Qed.

Section FieldLoop.
Variable record_dict : dict.

Local Abbreviation field_step :=
  (fun (errors : list (string * error_info))
       (item : string * list ValidationRule) =>
     match dict_get (fst item) record_dict with
     | Some v => check_field_rules (fst item) (snd item) v errors
     | None => errors
     end).

Lemma field_loop_pass (items : list (string * list ValidationRule))
      (errs : list (string * error_info)) :
  (forall field rs v, In (field, rs) items ->
                      dict_get field record_dict = Some v ->
                      Forall (fun rule => accepts rule v = true) rs) ->
  fold_left field_step items errs = errs.
Proof.
  revert errs. induction items as [| [field rs] items IH]; intros errs Hpass;
    [reflexivity |].
  cbn [fold_left fst snd].
  destruct (dict_get field record_dict) as [v |] eqn:Hv.
  - rewrite check_field_rules_pass by (apply (Hpass field rs v); [now left | assumption]).
    apply IH. intros f l w Hin. apply Hpass. now right.
  - apply IH. intros f l w Hin. apply Hpass. now right.
Qed.

Lemma field_loop_nil (items : list (string * list ValidationRule))
      (errs : list (string * error_info)) :
  fold_left field_step items errs = [] ->
  errs = []
  /\ forall field rs v, In (field, rs) items ->
                        dict_get field record_dict = Some v ->
                        Forall (fun rule => accepts rule v = true) rs.
Proof.
  revert errs. induction items as [| [field rs] items IH]; intros errs.
  - cbn. intros ->. split; [reflexivity | intros ? ? ? []].
  - cbn [fold_left fst snd]. intros Hnil. apply IH in Hnil as [Hnil Hitems].
    destruct (dict_get field record_dict) as [v |] eqn:Hv.
    + apply check_field_rules_nil in Hnil as [Hnil Hrs].
      split; [assumption |].
      intros f l w [Heq | Hin] Hw; [| now apply (Hitems f l w)].
      injection Heq as <- <-. rewrite Hv in Hw. now injection Hw as <-.
    + split; [assumption |].
      intros f l w [Heq | Hin] Hw; [| now apply (Hitems f l w)].
      injection Heq as <- <-. rewrite Hv in Hw. discriminate.
Qed.

(** The loop over the fields leaves alone the entry of a key that is no
    field of the record. *)
Lemma field_loop_other (key : string)
      (items : list (string * list ValidationRule))
      (errs : list (string * error_info)) :
  (In key (dict_keys items) -> dict_get key record_dict = None) ->
  dict_get key (fold_left field_step items errs) = dict_get key errs.
Proof.
  revert errs. induction items as [| [field rs] items IH]; intros errs Hkey;
    [reflexivity |].
  cbn [fold_left fst snd]. rewrite IH by (intros Hin; apply Hkey; now right).
  destruct (dict_get field record_dict) as [v |] eqn:Hv; [| reflexivity].
  apply check_field_rules_other. intros ->.
  rewrite Hkey in Hv by now left. discriminate.
Qed.

Lemma field_loop_first (field : string) (v : pyval)
      (items : list (string * list ValidationRule))
      (errs : list (string * error_info)) :
  NoDup (dict_keys items) ->
  dict_get field record_dict = Some v ->
  dict_get field errs = None ->
  dict_get field (fold_left field_step items errs)
  = match dict_get field items with
    | Some rs => option_map (fun rule => rule_entry rule v)
                            (find (fun rule => negb (accepts rule v)) rs)
    | None => None
    end.
Proof.
  intros Hnodup Hv. revert errs Hnodup.
  induction items as [| [f rs] items IH]; intros errs Hnodup Hnone;
    [assumption |].
  cbn in Hnodup. apply NoDup_cons_iff in Hnodup as [Hf Hnodup].
  cbn [fold_left fst snd dict_get].
  destruct (String.eqb field f) eqn:Heq.
  - apply String.eqb_eq in Heq as <-. rewrite Hv.
    rewrite field_loop_other by (intros Hin; contradiction).
    now apply check_field_rules_first.
  - apply String.eqb_neq in Heq. apply IH; [assumption |].
    destruct (dict_get f record_dict); [| assumption].
    now rewrite check_field_rules_other.
Qed.
End FieldLoop.

Section RuleExtras.
Variable rules : list ValidationRule.
Variable record : instance.

(** X10. [RuleValidator.validate] returns no error exactly when every
    rule passes: every record-level rule accepts the dictionary of the
    record, and every field-level rule accepts the value of its field or
    its field is absent from the record.  A validator that raises
    rejects. *)
Theorem rules_validate_empty :
  rules_validate (new_RuleValidator rules) record = []
  <-> forall rule, In rule rules -> passes rule (instance_dict record).
Proof.
  unfold rules_validate. cbv zeta. split.
  - intros Hnil. apply field_loop_nil in Hnil as [Hnil Hfields].
    apply check_record_rules_nil in Hnil as [_ Hrecord].
    rewrite Forall_forall in Hrecord.
    intros rule Hin. unfold passes.
    destruct (String.eqb (rule_field rule) "*") eqn:Hstar.
    + apply Hrecord, record_rules_In. now apply String.eqb_eq in Hstar.
    + apply String.eqb_neq in Hstar. intros v Hv.
      destruct (field_rules_complete rule rules Hin Hstar) as (rs & Hrs & Hrule).
      specialize (Hfields _ _ _ Hrs Hv). rewrite Forall_forall in Hfields.
      now apply Hfields.
  - intros Hpass. rewrite check_record_rules_pass.
    + apply field_loop_pass. intros field rs v Hin Hv. apply Forall_forall.
      intros rule Hrule.
      destruct (field_rules_sound _ _ _ _ Hin Hrule) as (Hr & <- & Hstar).
      specialize (Hpass rule Hr). unfold passes in Hpass.
      apply String.eqb_neq in Hstar. rewrite Hstar in Hpass. now apply Hpass.
    + apply Forall_forall. intros rule Hrule.
      apply record_rules_In in Hrule as [Hr Hstar].
      specialize (Hpass rule Hr). unfold passes in Hpass.
      now rewrite Hstar in Hpass.
Qed.

(** The record-level rules write nothing but the entry of the key
    __record__, and what they leave there is the entry of the last of them
    to reject. *)
Lemma check_record_rules_last (rs : list ValidationRule) (record_dict : dict) :
  (forall key, key <> "__record__" ->
               dict_get key (check_record_rules rs record_dict []) = None)
  /\ match dict_get "__record__" (check_record_rules rs record_dict []) with
     | Some entry =>
         exists before rule after,
           rs = List.app before (rule :: after)
           /\ accepts rule (VDict record_dict) = false
           /\ Forall (fun r => accepts r (VDict record_dict) = true) after
           /\ entry = rule_entry rule (VDict record_dict)
     | None => Forall (fun r => accepts r (VDict record_dict) = true) rs
     end.
Proof.
  induction rs as [| rule rs IH] using rev_ind.
  - split; [reflexivity | constructor].
  - destruct IH as [Hother Hlast].
    rewrite check_record_rules_app, check_record_rules_cons.
    cbn [check_record_rules fold_left].
    fold (check_record_rules rs record_dict []).
    destruct (accepts rule (VDict record_dict)) eqn:Hrule.
    + split; [assumption |].
      destruct (dict_get "__record__" (check_record_rules rs record_dict [])).
      * destruct Hlast as (before & r & after & -> & Hr & Hafter & ->).
        exists before, r, (List.app after [rule]).
        rewrite <- app_assoc. repeat split; try assumption.
        apply Forall_app. split; [assumption | now repeat constructor].
      * apply Forall_app. split; [assumption | now repeat constructor].
    + split.
      * intros key Hkey. rewrite dict_get_set_other by assumption.
        now apply Hother.
      * rewrite dict_get_set_same. exists rs, rule, [].
        repeat split; [assumption | constructor].
Qed.

(** X11. For a field of the validated record, the entry of the errors is
    that of a rule of this field that rejects its value, and of the lowest
    priority among those that do; there is no entry when every rule of the
    field accepts the value.  So one failure is reported for a field,
    whatever number of its rules reject. *)
Theorem field_rule_reported (field : string) (v : pyval) :
  field <> "*" -> field <> "__record__" ->
  dict_get field (instance_dict record) = Some v ->
  match dict_get field (rules_validate (new_RuleValidator rules) record) with
  | Some entry =>
      exists rule,
        In rule rules /\ rule_field rule = field /\ accepts rule v = false
        /\ entry = rule_entry rule v
        /\ forall other, In other rules -> rule_field other = field ->
                         accepts other v = false ->
                         priority rule <= priority other
  | None =>
      forall rule, In rule rules -> rule_field rule = field ->
                   accepts rule v = true
  end.
Proof.
  intros Hstar Hrecord Hv. unfold rules_validate. cbv zeta.
  rewrite (field_loop_first (instance_dict record) field v)
    by (try apply field_rules_NoDup; try assumption;
        now apply check_record_rules_last).
  pose proof (field_rules_find field rules
                (fun rs => option_map (fun rule => rule_entry rule v)
                                      (find (fun rule => negb (accepts rule v)) rs))
                eq_refl) as Hfind.
  cbv beta in Hfind. rewrite Hfind. clear Hfind.
  set (on_field := fun rule => String.eqb (rule_field rule) field
                               && negb (String.eqb (rule_field rule) "*")).
  assert (Hon : forall rule, on_field rule = true <-> rule_field rule = field).
  { intros rule. unfold on_field. rewrite andb_true_iff, String.eqb_eq.
    split; [tauto |]. intros Hf. split; [assumption |].
    apply negb_true_iff, String.eqb_neq. congruence. }
  pose proof (find_least (fun rule => negb (accepts rule v))
                         (filter on_field (sorted_rules rules))
                         (filter_sorted _ _ _ (sorted_rules_sorted rules)))
    as Hleast.
  destruct (find _ (filter on_field (sorted_rules rules))) as [rule |];
    cbn [option_map].
  - destruct Hleast as (Hin & Hrej & Hmin).
    apply filter_In in Hin as [Hin Hf]. apply negb_true_iff in Hrej.
    exists rule. split; [now apply sorted_rules_In |].
    split; [now apply Hon |]. split; [assumption |]. split; [reflexivity |].
    intros other Hother Hfield Hreject. apply Hmin.
    + apply filter_In. split; [now apply sorted_rules_In | now apply Hon].
    + now rewrite Hreject.
  - intros rule Hin Hfield.
    specialize (Hleast rule). rewrite negb_false_iff in Hleast. apply Hleast.
    apply filter_In. split; [now apply sorted_rules_In | now apply Hon].
Qed.

(** X12. For a record that has no field called __record__, the entry
    under that key is that of a record-level rule that rejects the
    dictionary, and of the highest priority among those that do: each
    rejection overwrites the one before.  There is no entry when every
    record-level rule accepts. *)
Theorem record_rule_reported :
  dict_get "__record__" (instance_dict record) = None ->
  match dict_get "__record__" (rules_validate (new_RuleValidator rules) record)
  with
  | Some entry =>
      exists rule,
        In rule rules /\ rule_field rule = "*"
        /\ accepts rule (VDict (instance_dict record)) = false
        /\ entry = rule_entry rule (VDict (instance_dict record))
        /\ forall other, In other rules -> rule_field other = "*" ->
                         accepts other (VDict (instance_dict record)) = false ->
                         priority other <= priority rule
  | None =>
      forall rule, In rule rules -> rule_field rule = "*" ->
                   accepts rule (VDict (instance_dict record)) = true
  end.
Proof.
  intros Hnone. unfold rules_validate. cbv zeta.
  rewrite field_loop_other by (intros _; assumption).
  destruct (check_record_rules_last (record_rules (new_RuleValidator rules))
                                    (instance_dict record)) as [_ Hlast].
  destruct (dict_get "__record__" (check_record_rules _ _ [])) as [entry |].
  - destruct Hlast as (before & rule & after & Hsplit & Hrej & Hafter & ->).
    assert (Hrule : In rule (record_rules (new_RuleValidator rules)))
      by (rewrite Hsplit; apply in_or_app; right; now left).
    apply record_rules_In in Hrule as [Hin Hfield].
    exists rule. repeat split; try assumption.
    intros other Hother Hofield Horej.
    assert (Ho : In other (record_rules (new_RuleValidator rules)))
      by now apply record_rules_In.
    rewrite Hsplit in Ho. apply in_app_or in Ho as [Ho | [<- | Ho]].
    + apply (last_greatest before after rule other); [| assumption].
      rewrite <- Hsplit. cbn [new_RuleValidator record_rules].
      apply filter_sorted, sorted_rules_sorted.
    + lia.
    + rewrite Forall_forall in Hafter. specialize (Hafter _ Ho). congruence.
  - intros rule Hin Hfield. rewrite Forall_forall in Hlast. apply Hlast.
    now apply record_rules_In.
Qed.
End RuleExtras.

(** ** More on the validation of one record *)

Lemma dict_set_Forall {A} (P : string * A -> Prop) (k : string) (v : A)
      (d : list (string * A)) :
  P (k, v) -> Forall P d -> Forall P (dict_set k v d).
Proof.
  intros Hnew. induction 1 as [| [k' v'] d Hhead Hd IH]; cbn.
  - now repeat constructor.
  - destruct (String.eqb k k'); constructor; assumption.
Qed.

(** Every entry of [RuleValidator.validate] is a rule entry. *)
Lemma rules_validate_entries (rv : RuleValidator) (record : instance) :
  Forall (fun entry => is_rule_error entry = true) (rules_validate rv record).
Proof.
  unfold rules_validate. cbv zeta.
  assert (Hfield : forall field rs v errs,
             Forall (fun entry => is_rule_error entry = true) errs ->
             Forall (fun entry => is_rule_error entry = true)
                    (check_field_rules field rs v errs)).
  { intros field rs v. induction rs as [| rule rs IH]; intros errs Herrs;
      [assumption |].
    rewrite check_field_rules_cons. apply IH.
    destruct (accepts rule v || dict_mem field errs); [assumption |].
    now apply dict_set_Forall. }
  assert (Hrecord : forall rs d errs,
             Forall (fun entry => is_rule_error entry = true) errs ->
             Forall (fun entry => is_rule_error entry = true)
                    (check_record_rules rs d errs)).
  { intros rs d. induction rs as [| rule rs IH]; intros errs Herrs;
      [assumption |].
    rewrite check_record_rules_cons. apply IH.
    destruct (accepts rule (VDict d)); [assumption |].
    now apply dict_set_Forall. }
  generalize (Hrecord (record_rules rv) (instance_dict record) [] (Forall_nil _)).
  generalize (check_record_rules (record_rules rv) (instance_dict record) []).
  induction (field_rules rv) as [| [field rs] items IH]; intros errs Herrs;
    [assumption |].
  cbn [fold_left fst snd]. apply IH.
  destruct (dict_get field (instance_dict record)); [now apply Hfield | assumption].
Qed.

Lemma new_ValidationError_of_rules (errs : list (string * error_info)) :
  errs <> [] ->
  Forall (fun entry => is_rule_error entry = true) errs ->
  new_ValidationError errs
  = Raise (AttributeError "'str' object has no attribute '__name__'").
Proof.
  intros Hne Hall. unfold new_ValidationError.
  destruct Hall as [| [key info] errs Hentry _]; [congruence |].
  unfold is_rule_error in Hentry. cbn [snd] in Hentry.
  destruct info; [discriminate |]. reflexivity.
Qed.

Section RecordExtras.
Context `{Dateutil} `{Pydantic}.

Variable model : model_arg.
Variables from_attributes strict : option bool.
Variables fields project_fields : option (list string).
Variable transforms : option transforms_arg.

(** X14. A rule that rejects never reaches the caller as such, and no
    result is returned for it.  Building the [ValidationError] of the rule
    entries fails on the text that they hold for a type:
    [validate_record] raises that [AttributeError] with [raise_errors];
    without, it asks pydantic for a value_error that has no context, and
    raises the exception with which pydantic refuses it. *)
Theorem rejecting_rule_is_attribute_error (rules : list ValidationRule)
        (record : record) (d : dict) (validated_record : instance)
        (raise_errors : bool) (refusal : exn) :
  apply_transforms (record_to_dict record) transforms = Ok d ->
  match model with
  | ModelInstance m | ModelClass m =>
      lift (model_validate m
              (VDict (match fields with
                      | Some fields => _filter_record_fields d fields
                      | None => d
                      end)) from_attributes strict)
  | AnnotatedClass cls =>
      cast_to_annotated_class
        (match fields with
         | Some fields => _filter_record_fields d fields
         | None => d
         end) cls
  end = Ok validated_record ->
  rules_validate (new_RuleValidator rules) validated_record <> [] ->
  from_exception_data (model_title model)
    [mk_line_error "value_error" []
                   "'str' object has no attribute '__name__'"
                   (record_value record)]
  = Raise refusal ->
  validate_record model from_attributes strict fields project_fields
                  transforms (Some rules) record raise_errors
  = Raise (if raise_errors
           then AttributeError "'str' object has no attribute '__name__'"
           else refusal).
Proof.
  intros Hd Hmodel Hrules Hrefusal.
  unfold validate_record. rewrite Hd. cbn [bind]. cbv zeta.
  unfold validate_body.
  destruct fields as [fs |]; rewrite Hmodel; cbn [bind]; unfold check_rules.
  all: pose proof (rules_validate_entries (new_RuleValidator rules) validated_record)
    as Hentries.
  all: destruct (rules_validate (new_RuleValidator rules) validated_record)
    as [| entry errs] eqn:Herrs; [congruence |].
  all: unfold raise_ValidationError.
  all: rewrite (new_ValidationError_of_rules (entry :: errs))
    by (congruence || assumption).
  all: cbn [bind exn_str]; destruct raise_errors; [reflexivity |].
  all: cbn [exn_str] in *; now rewrite Hrefusal.
Qed.
End RecordExtras.

(** ** More on the pipeline *)

Section LoopExtras.
Context `{Dateutil} `{Pydantic}.

Variable model : model_arg.
Variables from_attributes strict : option bool.
Variables fields project_fields : option (list string).
Variable transforms : option transforms_arg.
Variable rules : option (list ValidationRule).
Variable error_option : ErrorOption.
Variable on_progress : option (ProgressCallback record).
Variable hooks : option (ValidationHooks record).

Local Abbreviation validate_one :=
  (validate_record model from_attributes strict fields project_fields
                   transforms rules).
Local Abbreviation loop :=
  (individual_loop model from_attributes strict fields project_fields
                   transforms rules error_option on_progress hooks).
Local Abbreviation pipeline :=
  (validate_records model from_attributes strict fields project_fields
                    transforms rules error_option on_progress hooks).

Lemma before_validate_quiet {V} (hs : option (ValidationHooks V)) (item : V) :
  yields (match hs with
          | Some h => call_before_validate h item
          | None => []
          end) = []
  /\ before_calls (match hs with
                   | Some h => call_before_validate h item
                   | None => []
                   end)
     = (if before_installed hs then [item] else []).
Proof.
  destruct hs as [h |]; [| now split].
  rewrite call_before_validate_log. cbn [before_installed].
  now destruct (is_None (before_validate h)).
Qed.

Lemma call_progress_quiet {V} (f : option (ProgressCallback V)) (index : nat)
      (total : option nat) (r : ValidationResult V) :
  yields (call_progress f index total r) = []
  /\ before_calls (call_progress f index total r) = [].
Proof. rewrite call_progress_log. now destruct (is_None f). Qed.

(** One turn of the loop for a record that gets a result and after which
    the hooks let the iteration go on. *)
Lemma individual_loop_goes_on (item : record) (rest : list record)
      (r : RecordValidationResult) (total : option nat) (index : nat) :
  validate_one item (is_RAISE error_option) = Ok r ->
  continues hooks r ->
  raised (loop (item :: rest) total index) = raised (loop rest total (S index))
  /\ yields (log (loop (item :: rest) total index))
     = List.app (if negb (is_None (error r)) && is_SKIP error_option
                 then [] else [r])
                (yields (log (loop rest total (S index))))
  /\ before_calls (log (loop (item :: rest) total index))
     = List.app (if before_installed hooks then [item] else [])
                (before_calls (log (loop rest total (S index)))).
Proof.
  intros Hr Hcont. cbn [individual_loop]. rewrite Hr. unfold continues in Hcont.
  destruct (call_hooks_quiet hooks r) as (Hq1 & _ & _ & Hq4).
  destruct (call_hooks hooks r) as [called stop]. cbn [fst snd] in *. subst stop.
  destruct (before_validate_quiet hooks item) as [Hb1 Hb2].
  destruct (call_progress_quiet on_progress index total r) as [Hp1 Hp2].
  rewrite !raised_after, !log_after, !yields_app, !before_calls_app,
    Hb1, Hb2, Hq1, Hq4, Hp1, Hp2.
  destruct (negb (is_None (error r)) && is_SKIP error_option);
    rewrite ?raised_after, ?log_after; cbn [List.app]; auto.
Qed.

(** One turn of the loop for a record after which [should_continue]
    answers False. *)
Lemma individual_loop_stop (item : record) (rest : list record)
      (r : RecordValidationResult) (total : option nat) (index : nat) :
  validate_one item (is_RAISE error_option) = Ok r ->
  snd (call_hooks hooks r) = true ->
  raised (loop (item :: rest) total index) = None
  /\ yields (log (loop (item :: rest) total index)) = []
  /\ before_calls (log (loop (item :: rest) total index))
     = (if before_installed hooks then [item] else []).
Proof.
  intros Hr Hstop. cbn [individual_loop]. rewrite Hr.
  destruct (call_hooks_quiet hooks r) as (Hq1 & _ & _ & Hq4).
  destruct (call_hooks hooks r) as [called stop]. cbn [fst snd] in *. subst stop.
  destruct (before_validate_quiet hooks item) as [Hb1 Hb2].
  rewrite !raised_after, !log_after, !yields_app, !before_calls_app,
    Hb1, Hb2, Hq1, Hq4.
  cbn. now rewrite app_nil_r.
Qed.

Lemma individual_loop_stops (before rest : list record) (stop : record)
      (results : list RecordValidationResult) (r : RecordValidationResult)
      (total : option nat) (index : nat) :
  Forall2 (fun record r => validate_one record (is_RAISE error_option) = Ok r)
          before results ->
  Forall (continues hooks) results ->
  validate_one stop (is_RAISE error_option) = Ok r ->
  snd (call_hooks hooks r) = true ->
  raised (loop (List.app before (stop :: rest)) total index) = None
  /\ yields (log (loop (List.app before (stop :: rest)) total index))
     = (if is_SKIP error_option then filter succeeded results else results)
  /\ before_calls (log (loop (List.app before (stop :: rest)) total index))
     = (if before_installed hooks then List.app before [stop] else []).
Proof.
  intros Hresults. revert index.
  induction Hresults as [| item r' before results Hr' _ IH];
    intros index Hcont Hr Hstop.
  - cbn [List.app].
    destruct (individual_loop_stop stop rest r total index Hr Hstop)
      as (-> & -> & ->).
    now destruct (is_SKIP error_option).
  - apply Forall_cons_iff in Hcont as [Hcont' Hcont].
    destruct (IH (S index) Hcont Hr Hstop) as (IHr & IHy & IHb).
    cbn [List.app].
    destruct (individual_loop_goes_on item (List.app before (stop :: rest))
                                      r' total index Hr' Hcont')
      as (-> & -> & ->).
    rewrite IHr, IHy, IHb. split; [reflexivity |]. split.
    + unfold succeeded. cbn [filter].
      destruct (is_SKIP error_option), (is_None (error r')); reflexivity.
    + now destruct (before_installed hooks).
Qed.

(** X15. When [should_continue] answers False for a result, the
    iteration ends there without an exception: that result is not
    yielded, and no record after it is given to the before-validate
    callback.  What was yielded before it stays as under the policy. *)
Theorem should_continue_stops (records : source record)
        (before rest : list record) (stop : record)
        (results : list RecordValidationResult) (r : RecordValidationResult)
        (h : ValidationHooks record)
        (answer : RecordValidationResult -> res bool) :
  items_of records = List.app before (stop :: rest) ->
  Forall2 (fun record r => validate_one record (is_RAISE error_option) = Ok r)
          before results ->
  Forall (continues hooks) results ->
  validate_one stop (is_RAISE error_option) = Ok r ->
  hooks = Some h -> should_continue h = Some answer -> answer r = Ok false ->
  raised (pipeline records false) = None
  /\ yields (log (pipeline records false))
     = (if is_SKIP error_option then filter succeeded results else results)
  /\ before_calls (log (pipeline records false))
     = (if before_installed hooks then List.app before [stop] else []).
Proof.
  intros Hitems Hresults Hcont Hr Hh Hanswer Hfalse.
  assert (Hstop : snd (call_hooks hooks r) = true).
  { rewrite Hh. unfold call_hooks, check_should_continue.
    now rewrite Hanswer, Hfalse. }
  rewrite validate_records_individual by reflexivity.
  destruct (individual_log model from_attributes strict fields project_fields
                           transforms rules on_progress hooks error_option
                           records) as [-> ->].
  rewrite yields_app, before_calls_app, Hitems.
  destruct (individual_loop_stops before rest stop results r
              (Some (List.length (List.app before (stop :: rest)))) 0
              Hresults Hcont Hr Hstop) as (-> & -> & ->).
  assert (Hquiet : yields (match records with
                           | CallerIterator remaining => map Next remaining
                           | _ => []
                           end) = []
                   /\ before_calls (match records with
                                    | CallerIterator remaining => map Next remaining
                                    | _ => []
                                    end) = []).
  { destruct records as [l | l | l]; try (now split).
    destruct (quiet_pulls l) as (-> & _ & ->). now split. }
  destruct Hquiet as [-> ->]. now cbn [List.app].
Qed.
End LoopExtras.

(** *** Callbacks that raise *)

Section Calm.
Context {V : Type}.

Lemma calm_before_validate (h : ValidationHooks V) (record : V) :
  call_before_validate (calm_hooks h) record = call_before_validate h record.
Proof.
  unfold call_before_validate, calm_hooks, never_raises. cbn.
  destruct (before_validate h) as [f |]; [| reflexivity]. cbn.
  now destruct (f record).
Qed.

Lemma calm_call_hooks (hooks : option (ValidationHooks V))
      (r : ValidationResult V) :
  call_hooks (option_map calm_hooks hooks) r = call_hooks hooks r.
Proof.
  destruct hooks as [h |]; [| reflexivity]. cbn [option_map call_hooks].
  assert (Hafter : call_after_validate (calm_hooks h) r = call_after_validate h r).
  { unfold call_after_validate, calm_hooks, never_raises. cbn.
    destruct (after_validate h) as [f |]; [| reflexivity]. cbn.
    now destruct (f r). }
  assert (Hsuccess : call_on_success (calm_hooks h) r = call_on_success h r).
  { unfold call_on_success, calm_hooks, never_raises. cbn.
    destruct (on_success h) as [f |]; [| reflexivity]. cbn.
    destruct (is_None (error r)); [| reflexivity]. now destruct (f r). }
  assert (Herror : call_on_error (calm_hooks h) r = call_on_error h r).
  { unfold call_on_error, calm_hooks, never_raises. cbn.
    destruct (on_error h) as [f |]; [| reflexivity]. cbn.
    destruct (is_None (error r)); [reflexivity |]. now destruct (f r). }
  assert (Hcontinue : check_should_continue (calm_hooks h) r
                      = check_should_continue h r).
  { unfold check_should_continue, calm_hooks, never_raises. cbn.
    destruct (should_continue h) as [f |]; [| reflexivity]. cbn.
    now destruct (f r). }
  now rewrite Hafter, Hsuccess, Herror, Hcontinue.
Qed.

Lemma calm_call_progress (on_progress : option (ProgressCallback V))
      (index : nat) (total : option nat) (r : ValidationResult V) :
  call_progress (option_map calm_progress on_progress) index total r
  = call_progress on_progress index total r.
Proof.
  destruct on_progress as [f |]; [| reflexivity].
  unfold call_progress, calm_progress. cbn. now destruct (f index total r).
Qed.
End Calm.

Section CalmPipeline.
Context `{Dateutil} `{Pydantic}.

Variable model : model_arg.
Variables from_attributes strict : option bool.
Variables fields project_fields : option (list string).
Variable transforms : option transforms_arg.
Variable rules : option (list ValidationRule).
Variable error_option : ErrorOption.
Variable on_progress : option (ProgressCallback record).
Variable hooks : option (ValidationHooks record).

Lemma calm_individual_loop (records : list record) (total : option nat)
      (index : nat) :
  individual_loop model from_attributes strict fields project_fields transforms
                  rules error_option (option_map calm_progress on_progress)
                  (option_map calm_hooks hooks) records total index
  = individual_loop model from_attributes strict fields project_fields transforms
                    rules error_option on_progress hooks records total index.
Proof.
  revert index. induction records as [| item records IH]; intros index;
    [reflexivity |].
  cbn [individual_loop].
  replace (match option_map calm_hooks hooks with
           | Some h => call_before_validate h item
           | None => []
           end)
    with (match hooks with
          | Some h => call_before_validate h item
          | None => []
          end)
    by (destruct hooks as [h |]; [cbn; now rewrite calm_before_validate
                                 | reflexivity]).
  destruct (validate_record _ _ _ _ _ _ _ item _) as [r | e]; [| reflexivity].
  now rewrite calm_call_hooks, calm_call_progress, IH.
Qed.

Lemma calm_individual (records : source record) :
  individual model from_attributes strict fields project_fields transforms
             rules error_option (option_map calm_progress on_progress)
             (option_map calm_hooks hooks) records
  = individual model from_attributes strict fields project_fields transforms
               rules error_option on_progress hooks records.
Proof.
  unfold individual. destruct (materialize records) as [[l pulled] src].
  now rewrite calm_individual_loop.
Qed.

Lemma calm_bulk_loop (model_name : string) (records_list : list dict)
      (total_count : nat) (validated_models : list instance) (idx : nat) :
  bulk_loop project_fields rules (option_map calm_progress on_progress)
            (option_map calm_hooks hooks) model_name records_list total_count
            validated_models idx
  = bulk_loop project_fields rules on_progress hooks model_name records_list
              total_count validated_models idx.
Proof.
  revert idx. induction validated_models as [| vm l IH]; intros idx;
    [reflexivity |].
  cbn [bulk_loop]. destruct (bulk_result _ _ _ _ _ _) as [r | e]; [| reflexivity].
  now rewrite calm_call_hooks, calm_call_progress, IH.
Qed.

End CalmPipeline.

Section CalmTheorem.
Context `{Dateutil} `{Pydantic}.

Variable model : model_arg.
Variables from_attributes strict : option bool.
Variables fields project_fields : option (list string).
Variable transforms : option transforms_arg.
Variable rules : option (list ValidationRule).
Variable error_option : ErrorOption.
Variable on_progress : option (ProgressCallback record).
Variable hooks : option (ValidationHooks record).

(** X16. An exception of a callback never interrupts the validation:
    [validate_records] does the same, along the bulk path and the
    individual one, as with callbacks that return where these raise, the
    answer of a [should_continue] that raises being True. *)
Theorem callbacks_cannot_interrupt (records : source record) (bulk : bool) :
  validate_records model from_attributes strict fields project_fields transforms
                   rules error_option on_progress hooks records bulk
  = validate_records model from_attributes strict fields project_fields
                     transforms rules error_option
                     (option_map calm_progress on_progress)
                     (option_map calm_hooks hooks) records bulk.
Proof.
  symmetry. unfold validate_records.
  destruct (bulk && _can_use_bulk records model error_option);
    [| apply calm_individual].
  destruct (materialize records) as [[l pulled] src]. f_equal.
  destruct l as [| item l]; [reflexivity |].
  destruct (negb (forallb is_dict (item :: l))); [apply calm_individual |].
  destruct (bulk_prepare fields transforms _) as [prepared | e];
    [| apply calm_individual].
  destruct model as [m | m | cls]; try apply calm_individual.
  assert (Hfall : forall e,
             fall_back (ModelClass m) from_attributes strict fields project_fields
                       transforms rules error_option
                       (option_map calm_progress on_progress)
                       (option_map calm_hooks hooks) e prepared src
             = fall_back (ModelClass m) from_attributes strict fields
                         project_fields transforms rules error_option on_progress
                         hooks e prepared src).
  { intros e. unfold fall_back. destruct e; apply calm_individual. }
  destruct (validate_python_list m _ strict) as [models | e]; [| apply Hfall].
  rewrite calm_bulk_loop.
  destruct (raised (bulk_loop _ _ _ _ _ _ _ _ _)); [now rewrite Hfall | reflexivity].
Qed.
End CalmTheorem.

(** ** [validate]: records and JSON texts together *)

Section Views.
Context {V W : Type}.
Variable f : V -> W.

Lemma run_of_after (events : list (event V)) (r : run V) :
  run_of f (after events r) = after (map (event_of f) events) (run_of f r).
Proof. unfold run_of, after. cbn. now rewrite map_app. Qed.

Lemma before_validate_on (hooks : option (ValidationHooks W)) (record : V) :
  match hooks with
  | Some h => call_before_validate h (f record)
  | None => []
  end
  = map (event_of f)
        (match option_map (hooks_on f) hooks with
         | Some h => call_before_validate h record
         | None => []
         end).
Proof.
  destruct hooks as [h |]; [| reflexivity].
  unfold call_before_validate, hooks_on. cbn.
  destruct (before_validate h) as [g |]; [| reflexivity]. cbn.
  now destruct (g (f record)).
Qed.

Lemma call_hooks_on (hooks : option (ValidationHooks W))
      (r : ValidationResult V) :
  call_hooks hooks (result_of f r)
  = (map (event_of f) (fst (call_hooks (option_map (hooks_on f) hooks) r)),
     snd (call_hooks (option_map (hooks_on f) hooks) r)).
Proof.
  destruct hooks as [h |]; [| reflexivity]. cbn [option_map call_hooks].
  assert (Hafter : call_after_validate h (result_of f r)
                   = map (event_of f) (call_after_validate (hooks_on f h) r)).
  { unfold call_after_validate, hooks_on. cbn.
    destruct (after_validate h) as [g |]; [| reflexivity]. cbn.
    now destruct (g (result_of f r)). }
  assert (Hsuccess : call_on_success h (result_of f r)
                     = map (event_of f) (call_on_success (hooks_on f h) r)).
  { unfold call_on_success, hooks_on. cbn.
    destruct (on_success h) as [g |]; [| reflexivity]. cbn.
    destruct (is_None (error r)); [| reflexivity].
    now destruct (g (result_of f r)). }
  assert (Herror : call_on_error h (result_of f r)
                   = map (event_of f) (call_on_error (hooks_on f h) r)).
  { unfold call_on_error, hooks_on. cbn.
    destruct (on_error h) as [g |]; [| reflexivity]. cbn.
    destruct (is_None (error r)); [reflexivity |].
    now destruct (g (result_of f r)). }
  assert (Hcontinue : check_should_continue h (result_of f r)
                      = (map (event_of f)
                             (fst (check_should_continue (hooks_on f h) r)),
                         snd (check_should_continue (hooks_on f h) r))).
  { unfold check_should_continue, hooks_on. cbn.
    destruct (should_continue h) as [g |]; [| reflexivity]. cbn.
    now destruct (g (result_of f r)). }
  rewrite Hafter, Hsuccess, Herror, Hcontinue.
  destruct (check_should_continue (hooks_on f h) r) as [asked answer].
  cbn [fst snd]. now rewrite !map_app.
Qed.

Lemma call_progress_on (on_progress : option (ProgressCallback W))
      (index : nat) (total : option nat) (r : ValidationResult V) :
  call_progress on_progress index total (result_of f r)
  = map (event_of f)
        (call_progress (option_map (progress_on f) on_progress) index total r).
Proof.
  destruct on_progress as [g |]; [| reflexivity].
  unfold call_progress, progress_on. cbn.
  now destruct (g index total (result_of f r)).
Qed.
End Views.

Section ValidateExtras.
Context `{Dateutil} `{Pydantic}.

Variables from_attributes strict : option bool.
Variables fields project_fields : option (list string).
Variable transforms : option transforms_arg.
Variable rules : option (list ValidationRule).
Variable error_option : ErrorOption.
Variable on_progress : option (ProgressCallback any_record).
Variable hooks : option (ValidationHooks any_record).

Lemma validate_loop_records (model : model_arg) (records : list record)
      (total : option nat) (index : nat) :
  validate_loop model from_attributes strict fields project_fields transforms
                rules error_option on_progress hooks false
                (map OfRecord records) total index
  = run_of OfRecord
      (individual_loop model from_attributes strict fields project_fields
                       transforms rules error_option
                       (option_map (progress_on OfRecord) on_progress)
                       (option_map (hooks_on OfRecord) hooks)
                       records total index).
Proof.
  revert index. induction records as [| item records IH]; intros index;
    [reflexivity |].
  cbn [map validate_loop individual_loop validate_item List.app].
  rewrite run_of_after, before_validate_on. f_equal.
  destruct (validate_record _ _ _ _ _ _ _ item _) as [r | e]; cbn [bind];
    [| reflexivity].
  rewrite call_hooks_on.
  destruct (call_hooks (option_map (hooks_on OfRecord) hooks) r) as [called stop].
  cbn [fst snd]. rewrite run_of_after. f_equal.
  destruct stop; [reflexivity |].
  rewrite run_of_after, call_progress_on. f_equal.
  cbn [result_of error].
  destruct (negb (is_None (error r)) && is_SKIP error_option); [apply IH |].
  rewrite run_of_after. cbn [map event_of]. f_equal. apply IH.
Qed.

Lemma validate_loop_jsons (m : pydantic_model) (pulls : bool)
      (records : list Json) (total : option nat) (index : nat) :
  validate_loop (ModelClass m) from_attributes strict fields project_fields
                transforms rules error_option on_progress hooks pulls
                (map OfJson records) total index
  = run_of OfJson
      (jsons_loop m strict error_option
                  (option_map (progress_on OfJson) on_progress)
                  (option_map (hooks_on OfJson) hooks)
                  pulls records total index).
Proof.
  revert index. induction records as [| item records IH]; intros index;
    [reflexivity |].
  cbn [map validate_loop jsons_loop validate_item].
  rewrite run_of_after, map_app, before_validate_on. f_equal.
  { now destruct pulls. }
  destruct (validate_json m strict item _) as [r | e]; cbn [bind];
    [| reflexivity].
  rewrite call_hooks_on.
  destruct (call_hooks (option_map (hooks_on OfJson) hooks) r) as [called stop].
  cbn [fst snd]. rewrite run_of_after. f_equal.
  destruct stop; [reflexivity |].
  rewrite run_of_after, call_progress_on. f_equal.
  cbn [result_of error].
  destruct (negb (is_None (error r)) && is_SKIP error_option); [apply IH |].
  rewrite run_of_after. cbn [map event_of]. f_equal. apply IH.
Qed.

(** X17. On a list of records that are no JSON texts, [validate] does
    what [validate_records] does without bulk validation, callback for
    callback and result for result, whatever its [bulk] argument says:
    it never validates in bulk. *)
Theorem validate_on_records (model : model_arg) (records : list record)
        (bulk : bool) :
  validate model from_attributes strict fields project_fields transforms rules
           error_option on_progress hooks (CallerList (map OfRecord records)) bulk
  = run_of OfRecord
      (validate_records model from_attributes strict fields project_fields
                        transforms rules error_option
                        (option_map (progress_on OfRecord) on_progress)
                        (option_map (hooks_on OfRecord) hooks)
                        (CallerList records) false).
Proof.
  cbn [validate]. rewrite validate_records_individual by reflexivity.
  unfold individual. cbn [materialize]. unfold after at 1. cbn [List.app].
  rewrite length_map, validate_loop_records.
  unfold run_of. reflexivity.
Qed.

(** X18. On JSON texts, a list or an iterator, [validate] with a pydantic
    model class does what [validate_jsons] does, callback for callback
    and result for result: the field selection, the transforms and the
    rules do not apply to them. *)
Theorem validate_on_jsons (m : pydantic_model) (records : source Json)
        (bulk : bool) :
  validate (ModelClass m) from_attributes strict fields project_fields
           transforms rules error_option on_progress hooks
           (source_of OfJson records) bulk
  = run_of OfJson
      (validate_jsons m strict error_option
                      (option_map (progress_on OfJson) on_progress)
                      (option_map (hooks_on OfJson) hooks) records).
Proof.
  destruct records as [l | l | l]; cbn [source_of validate validate_jsons];
    rewrite ?length_map; apply validate_loop_jsons.
Qed.

(** X19. [validate] takes an item from the caller's iterator when it
    comes to it: when the first result is yielded, the first item is the
    only one it has pulled. *)
Theorem validate_is_lazy (model : model_arg) (item : any_record)
        (rest : list any_record) (r : ValidationResult any_record)
        (bulk : bool) :
  validate_item model from_attributes strict fields project_fields transforms
                rules item (is_RAISE error_option) = Ok r ->
  continues hooks r ->
  negb (is_None (error r)) && is_SKIP error_option = false ->
  pulls (until_first_yield
           (log (validate model from_attributes strict fields project_fields
                          transforms rules error_option on_progress hooks
                          (CallerIterator (item :: rest)) bulk)))
  = [item].
Proof.
  intros Hr Hcont Hskip. cbn [validate validate_loop]. rewrite Hr, Hskip.
  unfold continues in Hcont.
  assert (Hcalled : forall l : list (event any_record),
             pulls (until_first_yield
                      (List.app (fst (call_hooks hooks r)) (Yield r :: l))) = []).
  { intros l. destruct hooks as [h |]; [| reflexivity].
    rewrite call_hooks_log, call_after_validate_log, call_on_success_log,
      call_on_error_log, check_should_continue_log.
    destruct (is_None (after_validate h)), (is_None (on_success h)),
      (is_None (on_error h)), (is_None (should_continue h)),
      (is_None (error r)); reflexivity. }
  destruct (call_hooks hooks r) as [called stop]. cbn [fst snd] in *. subst stop.
  rewrite !log_after, call_progress_log.
  assert (Hb : (match hooks with
                | Some h => call_before_validate h item
                | None => []
                end) = [] \/ (match hooks with
                              | Some h => call_before_validate h item
                              | None => []
                              end) = [BeforeValidate item]).
  { destruct hooks as [h |]; [| now left].
    rewrite call_before_validate_log.
    destruct (is_None (before_validate h)); [now left | now right]. }
  assert (Hgoal : forall l : list (event any_record),
             pulls (until_first_yield
                      (List.app called
                         (List.app (if is_None on_progress then []
                                    else [Progress 0 None r])
                            (List.app [Yield r] l)))) = []).
  { intros l. destruct (is_None on_progress); cbn [List.app]; [apply Hcalled |].
    clear - Hcalled. specialize (Hcalled l).
    induction called as [| ev called IH]; [reflexivity |].
    destruct ev; cbn in *; try (apply IH; assumption); try discriminate.
    reflexivity. }
  destruct Hb as [-> | ->]; cbn [List.app until_first_yield pulls flat_map];
    f_equal; apply Hgoal.
Qed.
End ValidateExtras.

(** ** The bulk path *)

Section BulkExtras.
Context `{Dateutil} `{Pydantic}.

Variables from_attributes strict : option bool.
Variables fields project_fields : option (list string).
Variable transforms : option transforms_arg.
Variable rules : option (list ValidationRule).
Variable on_progress : option (ProgressCallback record).
Variable hooks : option (ValidationHooks record).

Lemma item_at_app (before : list dict) (d : dict) (rest : list dict) :
  item_at (List.app before (d :: rest)) (List.length before) = Ok (RecordDict d).
Proof.
  unfold item_at. rewrite nth_error_app2 by apply Nat.le_refl.
  now rewrite Nat.sub_diag.
Qed.

Lemma bulk_result_accepted (model_name : string) (before : list dict) (d : dict)
      (rest : list dict) (validated_model : instance) :
  rules_accept rules validated_model ->
  bulk_result project_fields rules model_name (List.app before (d :: rest))
              (List.length before) validated_model
  = Ok (bulk_success project_fields (d, validated_model)).
Proof.
  unfold rules_accept, bulk_result, bulk_success. destruct rules as [rs |].
  - intros ->. now rewrite item_at_app.
  - intros _. now rewrite item_at_app.
Qed.

Lemma bulk_result_rejected (model_name : string) (records_list : list dict)
      (idx : nat) (validated_model : instance) :
  ~ rules_accept rules validated_model ->
  bulk_result project_fields rules model_name records_list idx validated_model
  = Raise (AttributeError "'str' object has no attribute '__name__'").
Proof.
  unfold rules_accept, bulk_result. destruct rules as [rs |]; [| tauto].
  intros Hrej.
  pose proof (rules_validate_entries (new_RuleValidator rs) validated_model)
    as Hentries.
  destruct (rules_validate (new_RuleValidator rs) validated_model)
    as [| entry errs]; [tauto |].
  now rewrite (new_ValidationError_of_rules (entry :: errs)) by (congruence || assumption).
Qed.

(** The loop of the bulk path over the models whose rules accept: one
    successful result for each, carrying the record at its position. *)
Lemma bulk_loop_accepted (model_name : string) (total_count : nat)
      (before prepared rest : list dict)
      (validated_models others : list instance) :
  List.length validated_models = List.length prepared ->
  Forall (rules_accept rules) validated_models ->
  Forall (continues hooks)
         (map (bulk_success project_fields) (combine prepared validated_models)) ->
  raised (bulk_loop project_fields rules on_progress hooks model_name
                    (List.app before (List.app prepared rest)) total_count
                    (List.app validated_models others) (List.length before))
  = raised (bulk_loop project_fields rules on_progress hooks model_name
                      (List.app before (List.app prepared rest)) total_count
                      others (List.length before + List.length prepared))
  /\ yields (log (bulk_loop project_fields rules on_progress hooks model_name
                            (List.app before (List.app prepared rest)) total_count
                            (List.app validated_models others)
                            (List.length before)))
     = List.app
         (map (bulk_success project_fields) (combine prepared validated_models))
         (yields (log (bulk_loop project_fields rules on_progress hooks model_name
                                 (List.app before (List.app prepared rest))
                                 total_count others
                                 (List.length before + List.length prepared)))).
Proof.
  revert before validated_models.
  induction prepared as [| d prepared IH]; intros before models Hlen Haccept Hcont.
  - destruct models; [| discriminate]. cbn [List.app List.length combine map].
    now rewrite Nat.add_0_r.
  - destruct models as [| vm models]; [discriminate |].
    injection Hlen as Hlen.
    apply Forall_cons_iff in Haccept as [Hvm Haccept].
    cbn [combine map] in Hcont. apply Forall_cons_iff in Hcont as [Hr Hcont].
    cbn [List.app bulk_loop combine map List.length].
    rewrite bulk_result_accepted by assumption.
    unfold continues in Hr.
    destruct (call_hooks_quiet hooks (bulk_success project_fields (d, vm)))
      as (Hq & _).
    destruct (call_hooks hooks (bulk_success project_fields (d, vm)))
      as [called stop]. cbn [fst snd] in *. subst stop.
    rewrite !raised_after, !log_after, !yields_app, Hq, call_progress_log.
    replace (yields (if is_None on_progress then []
                     else [Progress (List.length before) (Some total_count)
                                    (bulk_success project_fields (d, vm))]))
      with (@nil RecordValidationResult) by now destruct (is_None on_progress).
    cbn [List.app yields flat_map].
    specialize (IH (List.app before [d]) models Hlen Haccept Hcont).
    rewrite <- !app_assoc in IH. cbn [List.app] in IH.
    rewrite length_app in IH. cbn [List.length] in IH.
    rewrite Nat.add_1_r in IH. destruct IH as [IHr IHy].
    rewrite IHr, IHy, Nat.add_succ_comm. now split.
Qed.

Lemma materialize_quiet (records : source record) :
  fst (fst (materialize records)) = items_of records
  /\ yields (snd (fst (materialize records))) = [].
Proof.
  destruct records as [l | l | l]; cbn; try (now split).
  split; [reflexivity |]. induction l; cbn; auto.
Qed.

(** X20. The bulk path when it succeeds.  For records that are all
    dicts, whose preparation (transforms, then the field selection)
    succeeds, that pydantic validates as one list into as many models,
    and whose models the rules accept: [validate_records] with bulk and
    RETURN ends without an exception and yields one successful result
    for each record, in order, with the model (projected) as its result
    and the prepared record as its value. *)
Theorem bulk_path_results (m : pydantic_model) (records : source record)
        (prepared : list dict) (validated_models : list instance) :
  items_of records <> [] ->
  forallb is_dict (items_of records) = true ->
  bulk_prepare fields transforms (map as_dict (items_of records)) = Ok prepared ->
  validate_python_list m (map VDict prepared) strict = Ok validated_models ->
  List.length validated_models = List.length prepared ->
  Forall (rules_accept rules) validated_models ->
  Forall (continues hooks)
         (map (bulk_success project_fields) (combine prepared validated_models)) ->
  raised (validate_records (ModelClass m) from_attributes strict fields
                           project_fields transforms rules RETURN on_progress
                           hooks records true) = None
  /\ yields (log (validate_records (ModelClass m) from_attributes strict fields
                                   project_fields transforms rules RETURN
                                   on_progress hooks records true))
     = map (bulk_success project_fields) (combine prepared validated_models).
Proof.
  intros Hitems Hdicts Hprepared Hmodels Hlen Haccept Hcont.
  unfold validate_records. cbn [andb _can_use_bulk is_RETURN].
  destruct (materialize_quiet records) as [Hl Hpulled].
  destruct (materialize records) as [[l pulled] src]. cbn [fst snd] in *. subst l.
  rewrite raised_after, log_after, yields_app, Hpulled. cbn [List.app].
  destruct (items_of records) as [| item items] eqn:Hrecords; [congruence |].
  rewrite Hdicts, Hprepared, Hmodels. cbn [negb].
  destruct (bulk_loop_accepted (pm_name m) (List.length prepared) [] prepared []
                               validated_models [] Hlen Haccept Hcont)
    as [Hraised Hyields].
  cbn [List.app List.length bulk_loop finished raised log yields flat_map] in *.
  rewrite !app_nil_r in *. rewrite Hraised. now split.
Qed.

(** X21. The bulk path when a rule rejects.  When the rules accept the
    first models and reject the next one, building the error of the
    rejection fails, the bulk validation is abandoned and the individual
    validation starts over on the whole list: the results already yielded
    are followed by all that [validate_records] yields without bulk, so
    the first records are reported twice. *)
Theorem bulk_rejection_starts_over (m : pydantic_model) (items : list record)
        (first more : list dict) (accepted after_rejected : list instance)
        (rejected : instance) :
  items <> [] ->
  forallb is_dict items = true ->
  bulk_prepare fields transforms (map as_dict items) = Ok (List.app first more) ->
  validate_python_list m (map VDict (List.app first more)) strict
  = Ok (List.app accepted (rejected :: after_rejected)) ->
  List.length accepted = List.length first ->
  Forall (rules_accept rules) accepted ->
  ~ rules_accept rules rejected ->
  Forall (continues hooks)
         (map (bulk_success project_fields) (combine first accepted)) ->
  raised (validate_records (ModelClass m) from_attributes strict fields
                           project_fields transforms rules RETURN on_progress
                           hooks (CallerList items) true)
  = raised (validate_records (ModelClass m) from_attributes strict fields
                             project_fields transforms rules RETURN on_progress
                             hooks (CallerList items) false)
  /\ yields (log (validate_records (ModelClass m) from_attributes strict fields
                                   project_fields transforms rules RETURN
                                   on_progress hooks (CallerList items) true))
     = List.app
         (map (bulk_success project_fields) (combine first accepted))
         (yields (log (validate_records (ModelClass m) from_attributes strict
                                        fields project_fields transforms rules
                                        RETURN on_progress hooks
                                        (CallerList items) false))).
Proof.
  intros Hitems Hdicts Hprepared Hmodels Hlen Haccept Hreject Hcont.
  unfold validate_records at 1 3. cbn [andb _can_use_bulk is_RETURN materialize].
  rewrite raised_after, log_after. cbn [List.app].
  destruct items as [| item items]; [congruence |].
  rewrite Hdicts, Hprepared, Hmodels. cbn [negb].
  destruct (bulk_loop_accepted (pm_name m)
                               (List.length (List.app first more)) [] first more
                               accepted (rejected :: after_rejected)
                               Hlen Haccept Hcont)
    as [Hraised Hyields].
  cbn [List.app List.length bulk_loop] in Hraised, Hyields.
  rewrite bulk_result_rejected in Hraised, Hyields by assumption.
  cbn [raising raised log yields flat_map] in Hraised, Hyields.
  rewrite app_nil_r in Hyields.
  rewrite Hraised, raised_after, log_after, yields_app, Hyields.
  cbn [fall_back]. now rewrite validate_records_individual by reflexivity.
Qed.
End BulkExtras.

Section BulkFailure.
Context `{Dateutil} `{Pydantic}.

Variables from_attributes strict : option bool.
Variables fields project_fields : option (list string).
Variable transforms : option transforms_arg.
Variable rules : option (list ValidationRule).
Variable on_progress : option (ProgressCallback record).
Variable hooks : option (ValidationHooks record).

(** X23. The bulk path when pydantic rejects the list.  The individual
    validation that follows runs on the prepared records, not on the
    records of the caller: what [validate_records] yields with bulk is
    what it yields without for the list of the records after the
    transforms and the field selection, which [validate_record] then
    applies once more. *)
Theorem bulk_failure_validates_prepared (m : pydantic_model)
        (records : source record) (prepared : list dict) (e : pydantic_error) :
  items_of records <> [] ->
  forallb is_dict (items_of records) = true ->
  bulk_prepare fields transforms (map as_dict (items_of records)) = Ok prepared ->
  validate_python_list m (map VDict prepared) strict
  = Raise (PydanticValidationError e) ->
  raised (validate_records (ModelClass m) from_attributes strict fields
                           project_fields transforms rules RETURN on_progress
                           hooks records true)
  = raised (validate_records (ModelClass m) from_attributes strict fields
                             project_fields transforms rules RETURN on_progress
                             hooks (CallerList (map RecordDict prepared)) false)
  /\ yields (log (validate_records (ModelClass m) from_attributes strict fields
                                   project_fields transforms rules RETURN
                                   on_progress hooks records true))
     = yields (log (validate_records (ModelClass m) from_attributes strict fields
                                     project_fields transforms rules RETURN
                                     on_progress hooks
                                     (CallerList (map RecordDict prepared)) false)).
Proof.
  intros Hitems Hdicts Hprepared Hmodels.
  unfold validate_records at 1 3. cbn [andb _can_use_bulk is_RETURN].
  destruct (materialize_quiet records) as [Hl Hpulled].
  destruct (materialize records) as [[l pulled] src]. cbn [fst snd] in *. subst l.
  rewrite raised_after, log_after, yields_app, Hpulled. cbn [List.app].
  destruct (items_of records) as [| item items] eqn:Hrecords; [congruence |].
  rewrite Hdicts, Hprepared, Hmodels. cbn [negb fall_back].
  rewrite validate_records_individual by reflexivity.
  unfold individual. cbn [materialize]. now rewrite !raised_after, !log_after.
Qed.
End BulkFailure.

(** ** More on JSON texts *)

Section JsonExtras.
Variable model : pydantic_model.
Variable strict : option bool.
Variable error_option : ErrorOption.
Variable on_progress : option (ProgressCallback Json).
Variable hooks : option (ValidationHooks Json).

Lemma jsons_loop_goes_on (pulls : bool) (json : Json) (rest : list Json)
      (r : JsonValidationResult) (total : option nat) (index : nat) :
  validate_json model strict json (is_RAISE error_option) = Ok r ->
  continues hooks r ->
  raised (jsons_loop model strict error_option on_progress hooks pulls
                     (json :: rest) total index)
  = raised (jsons_loop model strict error_option on_progress hooks pulls
                       rest total (S index))
  /\ yields (log (jsons_loop model strict error_option on_progress hooks pulls
                             (json :: rest) total index))
     = List.app (if negb (is_None (error r)) && is_SKIP error_option
                 then [] else [r])
                (yields (log (jsons_loop model strict error_option on_progress
                                         hooks pulls rest total (S index)))).
Proof.
  intros Hr Hcont. cbn [jsons_loop]. rewrite Hr. unfold continues in Hcont.
  destruct (call_hooks_quiet hooks r) as (Hq1 & _).
  destruct (call_hooks hooks r) as [called stop]. cbn [fst snd] in *. subst stop.
  destruct (before_validate_quiet hooks json) as [Hb1 _].
  destruct (call_progress_quiet on_progress index total r) as [Hp1 _].
  rewrite !raised_after, !log_after, !yields_app, Hb1, Hq1, Hp1.
  replace (yields (if pulls then [Next json] else [])) with (@nil JsonValidationResult)
    by now destruct pulls.
  destruct (negb (is_None (error r)) && is_SKIP error_option);
    rewrite ?raised_after, ?log_after; cbn [List.app]; auto.
Qed.

Lemma jsons_loop_propagates (pulls : bool) (before rest : list Json) (bad : Json)
      (results : list JsonValidationResult) (e : exn)
      (total : option nat) (index : nat) :
  Forall2 (fun json r => validate_json model strict json (is_RAISE error_option)
                         = Ok r) before results ->
  Forall (continues hooks) results ->
  validate_json model strict bad (is_RAISE error_option) = Raise e ->
  raised (jsons_loop model strict error_option on_progress hooks pulls
                     (List.app before (bad :: rest)) total index) = Some e
  /\ yields (log (jsons_loop model strict error_option on_progress hooks pulls
                             (List.app before (bad :: rest)) total index))
     = (if is_SKIP error_option then filter succeeded results else results).
Proof.
  intros Hresults. revert index.
  induction Hresults as [| json r before results Hr _ IH];
    intros index Hcont Hbad.
  - cbn [List.app jsons_loop]. rewrite Hbad.
    destruct (before_validate_quiet hooks bad) as [Hb1 _].
    rewrite raised_after, log_after, yields_app, yields_app, Hb1.
    cbn [raising raised log]. split; [reflexivity |].
    destruct pulls, (is_SKIP error_option); reflexivity.
  - apply Forall_cons_iff in Hcont as [Hcont' Hcont].
    destruct (IH (S index) Hcont Hbad) as (IHr & IHy).
    cbn [List.app].
    destruct (jsons_loop_goes_on pulls json (List.app before (bad :: rest)) r
                                 total index Hr Hcont') as (-> & ->).
    rewrite IHr, IHy. split; [reflexivity |].
    unfold succeeded. cbn [filter].
    destruct (is_SKIP error_option), (is_None (error r)); reflexivity.
Qed.

(** X24. For JSON texts the policies RETURN and SKIP cover the
    validation errors of pydantic only: any other exception of
    [model_validate_json] ends [validate_jsons] under every policy, after
    the results of the texts before it. *)
Theorem validate_jsons_propagates (records : source Json)
        (before rest : list Json) (bad : Json)
        (results : list JsonValidationResult) (e : exn) :
  items_of records = List.app before (bad :: rest) ->
  Forall2 (fun json r => validate_json model strict json (is_RAISE error_option)
                         = Ok r) before results ->
  Forall (continues hooks) results ->
  model_validate_json model bad strict = Raise e ->
  (forall validation_error, e <> PydanticValidationError validation_error) ->
  raised (validate_jsons model strict error_option on_progress hooks records)
  = Some e
  /\ yields (log (validate_jsons model strict error_option on_progress hooks
                                 records))
     = (if is_SKIP error_option then filter succeeded results else results).
Proof.
  intros Hitems Hresults Hcont Hbad Hother.
  assert (Hraise : validate_json model strict bad (is_RAISE error_option)
                   = Raise e).
  { unfold validate_json. rewrite Hbad.
    destruct e; try reflexivity. now contradiction (Hother e). }
  destruct records as [l | l | l]; cbn [items_of] in Hitems; subst l;
    cbn [validate_jsons]; now apply jsons_loop_propagates.
Qed.
End JsonExtras.

(** ** The statistics *)

Lemma counted_set (key : string) (n : Z) (counter : Counter) :
  counted (dict_set key n counter)
  = counted counter + n - match dict_get key counter with
                          | Some old => old
                          | None => 0
                          end.
Proof.
  unfold counted.
  induction counter as [| [k v] counter IH]; cbn; [lia |].
  destruct (String.eqb key k); cbn; [lia |]. rewrite IH. lia.
Qed.

Lemma counted_incr (key : string) (counter : Counter) :
  counted (counter_incr key counter) = counted counter + 1.
Proof.
  unfold counter_incr.
  destruct (dict_get key counter) as [n |] eqn:Hget;
    rewrite counted_set, Hget; lia.
Qed.

Lemma count_field_errors_sum (details : list line_error) (counter : Counter)
      (n : Z) :
  counted (fst (count_field_errors details (counter, n)))
  = counted counter + located details
  /\ snd (count_field_errors details (counter, n)) = n + located details.
Proof.
  unfold count_field_errors, located. revert counter n.
  induction details as [| d details IH]; intros counter n; cbn [fold_left filter].
  - cbn [fst snd List.length Z.of_nat]. lia.
  - destruct (le_loc d) as [| x loc] eqn:Hloc; cbn [List.length Nat.eqb negb].
    + apply IH.
    + destruct (IH (counter_incr (join "." (x :: loc)) counter) (n + 1))
        as [-> ->].
      rewrite counted_incr. cbn [List.length]. lia.
Qed.

Section Stats.
Context {V : Type}.

Lemma count_errors_sums (results : list (ValidationResult V)) :
  let '(error_type_counter, field_error_counter, total_errors) :=
    count_errors results in
  counted error_type_counter
  = Z.of_nat (List.length (filter (fun r => negb (is_None (error r))) results))
  /\ counted field_error_counter = located (details_of results)
  /\ total_errors = counted error_type_counter + counted field_error_counter
  /\ forall key, In key (dict_keys error_type_counter) -> key = "ValidationError".
Proof.
  unfold count_errors.
  induction results as [| r results IH] using rev_ind.
  - cbn. repeat split; try lia; intros ? [].
  - rewrite fold_left_app. cbn [fold_left].
    destruct (fold_left _ results _) as [[etc fec] te].
    destruct IH as (IH1 & IH2 & IH3 & IH4).
    unfold details_of, located in *.
    rewrite filter_app, length_app, flat_map_app, filter_app, length_app.
    cbn [filter flat_map]. destruct (error r) as [e |]; cbn [is_None negb].
    + destruct (count_field_errors_sum (pe_errors e) fec (te + 1)) as [Hf Hn].
      destruct (count_field_errors (pe_errors e) (fec, te + 1)) as [fec' te'].
      cbn [fst snd] in *. rewrite counted_incr, Hf. unfold located in *.
      rewrite app_nil_r. cbn [List.length]. repeat split; try lia.
      intros key Hkey. unfold counter_incr in Hkey.
      destruct (dict_get "ValidationError" etc) as [n |] eqn:Hget.
      * rewrite dict_keys_set in Hkey; [now apply IH4 |].
        apply dict_mem_In. apply not_false_iff_true. intros Hmem.
        apply dict_get_mem in Hmem. congruence.
      * apply dict_get_mem in Hget. rewrite dict_set_fresh in Hkey by assumption.
        rewrite dict_keys_app in Hkey. apply in_app_or in Hkey as [Hkey | [<- | []]];
          [now apply IH4 | reflexivity].
    + cbn [List.length]. rewrite !Nat.add_0_r. repeat split; assumption.
Qed.

(** X22. The counts of [ValidationStats.from_results] agree: the valid
    and the invalid results make up the total; the error classes are
    counted under the one name ValidationError, once for every invalid
    result; the field counts add up to the number of error entries that
    have a location; and [total_errors] is the sum of the two, so that a
    result with one entry for one field counts as two errors. *)
Theorem from_results_counts (results : list (ValidationResult V)) :
  let stats := from_results results in
  total stats = Z.of_nat (List.length results)
  /\ valid_count stats
     = Z.of_nat (List.length (filter succeeded results))
  /\ valid_count stats + invalid_count stats = total stats
  /\ counted (error_counts stats) = invalid_count stats
  /\ (forall key, In key (dict_keys (error_counts stats)) ->
                  key = "ValidationError")
  /\ counted (field_error_counts stats) = located (details_of results)
  /\ total_errors stats
     = invalid_count stats + located (details_of results).
Proof.
  unfold from_results. cbv zeta.
  pose proof (count_errors_sums results) as Hsums.
  destruct (count_errors results) as [[etc fec] te].
  destruct Hsums as (H1 & H2 & H3 & H4).
  cbn [total valid_count invalid_count error_counts field_error_counts
       total_errors].
  assert (Hsplit : (List.length results
                    = List.length (filter (fun r => is_None (error r)) results)
                      + List.length (filter (fun r => negb (is_None (error r)))
                                            results))%nat).
  { clear. induction results as [| r results IH]; [reflexivity |].
    cbn [filter List.length]. destruct (is_None (error r)); cbn [negb List.length]; lia. }
  repeat split; try assumption; try reflexivity; lia.
Qed.
End Stats.

(** ** The projection and the totals *)

Section Projection.
Context `{Dateutil} `{Pydantic}.

Variables from_attributes strict : option bool.
Variable fields : option (list string).
Variable transforms : option transforms_arg.
Variable rules : option (list ValidationRule).

Lemma cast_to_annotated_class_plain (d : dict) (cls : annotated_class)
      (i : instance) :
  ac_model cls = None ->
  (forall new_data made, ac_call cls new_data = Ok made -> inst_dump made = None) ->
  cast_to_annotated_class d cls = Ok i ->
  inst_dump i = None.
Proof.
  intros Hmodel Hcall. unfold cast_to_annotated_class.
  destruct (missing_keys (cls_annotations cls) d) as [| k l].
  2: { unfold raise_ValidationError. now destruct (new_ValidationError _). }
  destruct (cast_fields d (cls_annotations cls) d []) as [[nd errs] | e];
    cbn [lift bind]; [| discriminate].
  destruct errs as [| entry errs].
  2: { unfold raise_ValidationError. now destruct (new_ValidationError _). }
  rewrite Hmodel.
  destruct (existsb _ (ac_init_params cls)); [| now intros [= <-]].
  destruct (ac_call cls nd) as [made | e] eqn:Hmade.
  - intros [= <-]. exact (Hcall _ _ Hmade).
  - destruct (is_TypeError e); [now intros [= <-] | discriminate].
Qed.

(** X28. For a class that is no pydantic model and whose instances have no
    [model_dump], [project_fields] changes nothing: [validate_record]
    returns, or raises, what it does without it, the whole instance
    included. *)
Theorem project_fields_ignored (cls : annotated_class) (record : record)
        (project_fields : list string) (raise_errors : bool) :
  ac_model cls = None ->
  (forall new_data made, ac_call cls new_data = Ok made -> inst_dump made = None) ->
  validate_record (AnnotatedClass cls) from_attributes strict fields
                  (Some project_fields) transforms rules record raise_errors
  = validate_record (AnnotatedClass cls) from_attributes strict fields None
                    transforms rules record raise_errors.
Proof.
  intros Hmodel Hcall. unfold validate_record.
  destruct (apply_transforms (record_to_dict record) transforms) as [d | e];
    cbn [bind]; [| reflexivity].
  cbv zeta.
  assert (Hbody : forall record_dict,
             validate_body (AnnotatedClass cls) from_attributes strict
                           (Some project_fields) rules record_dict
             = validate_body (AnnotatedClass cls) from_attributes strict None
                             rules record_dict).
  { intros record_dict. unfold validate_body.
    destruct (cast_to_annotated_class record_dict cls) as [i | e] eqn:Hcast;
      cbn [bind]; [| reflexivity].
    destruct (check_rules rules i); cbn [bind]; [| reflexivity].
    unfold is_BaseModel.
    now rewrite (cast_to_annotated_class_plain _ _ _ Hmodel Hcall Hcast). }
  now rewrite Hbody.
Qed.
End Projection.

Section Totals.
Context {V : Type}.

Lemma progress_totals_app (l l' : list (event V)) :
  progress_totals (List.app l l')
  = List.app (progress_totals l) (progress_totals l').
Proof. apply flat_map_app. Qed.

Lemma call_hooks_totals (hooks : option (ValidationHooks V))
      (r : ValidationResult V) :
  progress_totals (fst (call_hooks hooks r)) = [].
Proof.
  destruct hooks as [h |]; [| reflexivity].
  rewrite call_hooks_log, call_after_validate_log, call_on_success_log,
    call_on_error_log, check_should_continue_log.
  destruct (is_None (after_validate h)), (is_None (on_success h)),
    (is_None (on_error h)), (is_None (should_continue h)),
    (is_None (error r)); reflexivity.
Qed.

Lemma before_validate_totals (hooks : option (ValidationHooks V)) (item : V) :
  progress_totals (match hooks with
                   | Some h => call_before_validate h item
                   | None => []
                   end) = [].
Proof.
  destruct hooks as [h |]; [| reflexivity].
  rewrite call_before_validate_log. now destruct (is_None (before_validate h)).
Qed.

Lemma call_progress_totals (on_progress : option (ProgressCallback V))
      (index : nat) (total : option nat) (r : ValidationResult V) :
  Forall (fun reported => reported = total)
         (progress_totals (call_progress on_progress index total r)).
Proof.
  rewrite call_progress_log. destruct (is_None on_progress); repeat constructor.
Qed.

Lemma pulls_totals (l : list V) : progress_totals (map Next l) = [].
Proof. induction l; cbn; auto. Qed.
End Totals.

Section RecordTotals.
Context `{Dateutil} `{Pydantic}.

Variable model : model_arg.
Variables from_attributes strict : option bool.
Variables fields project_fields : option (list string).
Variable transforms : option transforms_arg.
Variable rules : option (list ValidationRule).
Variable error_option : ErrorOption.
Variable on_progress : option (ProgressCallback record).
Variable hooks : option (ValidationHooks record).

Lemma individual_loop_totals (records : list record) (total : option nat)
      (index : nat) :
  Forall (fun reported => reported = total)
         (progress_totals
            (log (individual_loop model from_attributes strict fields
                                  project_fields transforms rules error_option
                                  on_progress hooks records total index))).
Proof.
  revert index. induction records as [| item records IH]; intros index;
    [constructor |].
  cbn [individual_loop].
  rewrite log_after, progress_totals_app, before_validate_totals. cbn [List.app].
  destruct (validate_record _ _ _ _ _ _ _ item _) as [r | e]; [| constructor].
  pose proof (call_hooks_totals hooks r) as Hq.
  destruct (call_hooks hooks r) as [called stop]. cbn [fst] in Hq.
  rewrite log_after, progress_totals_app, Hq. cbn [List.app].
  destruct stop; [constructor |].
  rewrite log_after, progress_totals_app. apply Forall_app.
  split; [apply call_progress_totals |].
  destruct (negb (is_None (error r)) && is_SKIP error_option); [apply IH |].
  rewrite log_after. cbn [List.app progress_totals flat_map]. apply IH.
Qed.

Lemma individual_totals (records : source record) (n : nat) :
  items_of records = [] \/ List.length (items_of records) = n ->
  Forall (fun reported => reported = Some n)
         (progress_totals
            (log (individual model from_attributes strict fields project_fields
                             transforms rules error_option on_progress hooks
                             records))).
Proof.
  intros Hn.
  destruct (individual_log model from_attributes strict fields project_fields
                           transforms rules on_progress hooks error_option
                           records) as [-> _].
  rewrite progress_totals_app.
  replace (progress_totals (match records with
                            | CallerIterator remaining => map Next remaining
                            | _ => []
                            end)) with (@nil (option nat))
    by (destruct records; try reflexivity; now rewrite pulls_totals).
  cbn [List.app]. destruct Hn as [-> | <-]; [constructor |].
  apply individual_loop_totals.
Qed.

Lemma bulk_loop_totals (model_name : string) (records_list : list dict)
      (total_count : nat) (validated_models : list instance) (idx : nat) :
  Forall (fun reported => reported = Some total_count)
         (progress_totals
            (log (bulk_loop project_fields rules on_progress hooks model_name
                            records_list total_count validated_models idx))).
Proof.
  revert idx. induction validated_models as [| vm l IH]; intros idx;
    [constructor |].
  cbn [bulk_loop]. destruct (bulk_result _ _ _ _ _ _) as [r | e]; [| constructor].
  pose proof (call_hooks_totals hooks r) as Hq.
  destruct (call_hooks hooks r) as [called stop]. cbn [fst] in Hq.
  rewrite log_after, progress_totals_app, Hq. cbn [List.app].
  destruct stop; [constructor |].
  rewrite log_after, !progress_totals_app. apply Forall_app. split.
  - apply Forall_app. split; [apply call_progress_totals | constructor].
  - apply IH.
Qed.
End RecordTotals.

Lemma mapM_length {E A B} (f : A -> outcome E B) (l : list A) (l' : list B) :
  mapM f l = Ok l' -> List.length l' = List.length l.
Proof.
  revert l'. induction l as [| x l IH]; intros l'; cbn [mapM].
  - now intros [= <-].
  - destruct (f x); cbn [bind]; [| discriminate].
    destruct (mapM f l) as [ys |]; cbn [bind]; [| discriminate].
    intros [= <-]. cbn. f_equal. now apply IH.
Qed.

Section TotalsTheorem.
Context `{Dateutil} `{Pydantic}.

Variable model : model_arg.
Variables from_attributes strict : option bool.
Variables fields project_fields : option (list string).
Variable transforms : option transforms_arg.
Variable rules : option (list ValidationRule).
Variable error_option : ErrorOption.
Variable on_progress : option (ProgressCallback record).
Variable hooks : option (ValidationHooks record).

Lemma bulk_prepare_length (records_list prepared : list dict) :
  bulk_prepare fields transforms records_list = Ok prepared ->
  List.length prepared = List.length records_list.
Proof.
  unfold bulk_prepare.
  destruct transforms as [t |].
  - destruct (mapM _ records_list) as [l |] eqn:Hl; cbn [bind]; [| discriminate].
    apply mapM_length in Hl. intros [= <-].
    destruct fields; now rewrite ?length_map.
  - cbn [bind]. intros [= <-]. destruct fields; now rewrite ?length_map.
Qed.

(** X29. The progress callback of [validate_records] is always told the
    number of the records: on the individual path, where the records are
    made a list first, on the bulk path and after a bulk validation that
    was abandoned, every call carries the length of the input as its
    total, for a list and for an iterator alike. *)
Theorem progress_reports_the_total (records : source record) (bulk : bool) :
  Forall (fun reported => reported = Some (List.length (items_of records)))
         (progress_totals
            (log (validate_records model from_attributes strict fields
                                   project_fields transforms rules error_option
                                   on_progress hooks records bulk))).
Proof.
  unfold validate_records.
  destruct (bulk && _can_use_bulk records model error_option);
    [| apply individual_totals; now right].
  assert (Hsrc : forall src,
             src = snd (materialize records) ->
             Forall (fun reported =>
                       reported = Some (List.length (items_of records)))
                    (progress_totals
                       (log (individual model from_attributes strict fields
                                        project_fields transforms rules
                                        error_option on_progress hooks src)))).
  { intros src ->. apply individual_totals.
    destruct records as [l | l | l]; cbn; auto. }
  assert (Hitems : fst (fst (materialize records)) = items_of records)
    by now destruct records.
  assert (Hpulled : progress_totals (snd (fst (materialize records))) = [])
    by (destruct records; try reflexivity; apply pulls_totals).
  destruct (materialize records) as [[l pulled] src]. cbn [fst snd] in *.
  subst l. rewrite log_after, progress_totals_app, Hpulled. cbn [List.app].
  specialize (Hsrc src eq_refl).
  destruct (items_of records) as [| item items] eqn:Hrecords; [constructor |].
  destruct (negb (forallb is_dict (item :: items))).
  { apply individual_totals. now right. }
  destruct (bulk_prepare fields transforms _) as [prepared | e] eqn:Hprepared;
    [| exact Hsrc].
  apply bulk_prepare_length in Hprepared. rewrite length_map in Hprepared.
  assert (Hfall : forall e,
             Forall (fun reported =>
                       reported = Some (List.length (item :: items)))
                    (progress_totals
                       (log (fall_back model from_attributes strict fields
                                       project_fields transforms rules
                                       error_option on_progress hooks e prepared
                                       src)))).
  { intros e. unfold fall_back.
    destruct e; try exact Hsrc.
    apply individual_totals. right. cbn [items_of]. now rewrite length_map. }
  destruct model as [m | m | cls]; try exact Hsrc.
  destruct (validate_python_list m _ strict) as [models | e]; [| apply Hfall].
  pose proof (bulk_loop_totals project_fields rules on_progress hooks (pm_name m)
                               prepared (List.length prepared) models 0%nat)
    as Hbulk.
  rewrite <- Hprepared in Hfall |- *.
  destruct (raised (bulk_loop _ _ _ _ _ _ _ _ _)); [| exact Hbulk].
  rewrite log_after, progress_totals_app. apply Forall_app.
  split; [exact Hbulk | apply Hfall].
Qed.
End TotalsTheorem.

(** ** The properties on the models of the test-suite *)

#[local] Existing Instance iso_dateutil.
#[local] Existing Instance pydantic_2.

(** C5, on the code.  A record-level transform returns [None]:
    [apply_transforms] raises the [ValueError] of the broken contract, and
    on the individual path it leaves [validate_records].  With [bulk=True]
    and the records in an iterator it does not reach the caller: the handler
    of the bulk path catches it and the fallback finds the iterator
    exhausted, so that the iteration ends with no result and no
    exception. *)
Theorem bulk_path_swallows_transform_error :
  apply_transforms alice (Some (TransformList [to_none]))
  = Raise (ValueError
             "Record-level transform must return dict, got <class 'NoneType'>")
  /\ raised (validate_records (ModelClass Person) None None None None
                              (Some (TransformList [to_none])) None RETURN None None
                              (CallerIterator [RecordDict alice]) false)
     = Some (ValueError
               "Record-level transform must return dict, got <class 'NoneType'>")
  /\ validate_records (ModelClass Person) None None None None
                      (Some (TransformList [to_none])) None RETURN None None
                      (CallerIterator [RecordDict alice]) true
     = mk_run [Next (RecordDict alice)] None.
Proof. repeat split. Qed.

(** C6, on the code.  With two valid records in an iterator, both have been
    pulled when [validate_records] yields its first result, where
    [validate_jsons] has pulled the first one only. *)
Theorem records_materialized_before_first_result :
  pulls (until_first_yield
           (log (validate_records (ModelClass Person) None None None None None None
                                  RETURN None None
                                  (CallerIterator [RecordDict alice; RecordDict charlie])
                                  false)))
  = [RecordDict alice; RecordDict charlie]
  /\ yields (until_first_yield
               (log (validate_records (ModelClass Person) None None None None None
                                      None RETURN None None
                                      (CallerIterator [RecordDict alice;
                                                       RecordDict charlie])
                                      false)))
     = [alice_result]
  /\ pulls (until_first_yield
              (log (validate_jsons Person None RETURN None None
                                   (CallerIterator [alice_json; charlie_json]))))
     = [alice_json].
Proof. repeat split. Qed.

(** C9, on the code.  With [fields] given, the result of the bulk path for
    Alice with one more key holds the filtered record as its [value], not
    the record the caller supplied, which the individual path keeps. *)
Theorem bulk_path_value_is_not_the_input :
  map value
      (yields (log (validate_records (ModelClass Person) None None
                                     (Some ["id"; "name"; "age"]) None None None
                                     RETURN None None
                                     (CallerList [RecordDict alice_nick]) true)))
  = [RecordDict alice]
  /\ RecordDict alice <> RecordDict alice_nick
  /\ map value
         (yields (log (validate_records (ModelClass Person) None None
                                        (Some ["id"; "name"; "age"]) None None None
                                        RETURN None None
                                        (CallerList [RecordDict alice_nick]) false)))
     = [RecordDict alice_nick].
Proof. repeat split. discriminate. Qed.

(** C3, on the code.  The class declares [level: int | float] and the
    mapping lacks that field: the caster builds the entry of the missing
    field, but the constructor of its [ValidationError] reads the
    [__name__] of every annotation, a union written with a bar has none,
    and the [AttributeError] leaves [cast_to_annotated_class] in place of
    the error of the missing field.  With the field declared
    [Union[int, float]] the [ValidationError] is raised, one entry for the
    missing field. *)
Theorem missing_bar_union_field_escapes :
  missing_keys (cls_annotations Reading) [("sensor", VStr "a")] = ["level"]
  /\ cast_to_annotated_class [("sensor", VStr "a")] Reading
     = Raise (Uncaught (AttributeError
                          "'types.UnionType' object has no attribute '__name__'"))
  /\ cast_to_annotated_class [("sensor", VStr "a")] ReadingTyping
     = Raise (Invalid
                (mk_ValidationError
                   [("level", CastError (Union [TInt; TFloat]) VNone "NoneType"
                                        "Missing required field")])).
Proof. repeat split. Qed.

(** C7, on the code.  The model is the plain class Person and the second
    of three records has a text for its id, which the caster refuses with
    its [ValidationError].  Under RETURN and under SKIP, with or without
    bulk, [validate_records] yields the result of the first record and
    raises: [validate_record] reports the failure to pydantic as an error
    of type type_error, which pydantic does not know, and the [KeyError]
    of pydantic's constructor ends the iteration; no result is yielded for
    the second record nor for the third.  With the pydantic model, a rule
    that rejects the second record and bulk, RETURN yields the result of
    the first record twice before it raises. *)
Theorem return_and_skip_raise_for_a_plain_class :
  cast_to_annotated_class bob PersonClass
  = Raise (Invalid
             (mk_ValidationError
                [("id", CastError (Plain TInt) (VStr "invalid") "str"
                          "invalid literal for int() with base 10: 'invalid'")]))
  /\ (forall bulk,
         validate_records (AnnotatedClass PersonClass) None None None None None
                          None RETURN None None
                          (CallerList [RecordDict alice; RecordDict bob;
                                       RecordDict charlie]) bulk
         = mk_run [Yield alice_cast_result]
                  (Some (KeyError "Invalid error type: 'type_error'")))
  /\ (forall bulk,
         validate_records (AnnotatedClass PersonClass) None None None None None
                          None SKIP None None
                          (CallerList [RecordDict alice; RecordDict bob;
                                       RecordDict charlie]) bulk
         = mk_run [Yield alice_cast_result]
                  (Some (KeyError "Invalid error type: 'type_error'")))
  /\ validate_records (ModelClass Person) None None None None None
                      (Some [id_below 2 0]) RETURN None None
                      (CallerList [RecordDict alice; RecordDict charlie;
                                   RecordDict alice]) true
     = mk_run [Yield alice_result; Yield alice_result]
              (Some (TypeError "ValueError: 'error' required in context")).
Proof. repeat split; destruct bulk; reflexivity. Qed.

(** C8, on the code.  Under RAISE with the plain class Person and the
    same three records, the iteration stops at the second record, after
    one result and two calls of the before-validate callback, but the
    exception that reaches the caller is not the failure of the
    validation (the [ValidationError] of the caster, on id): it is the
    [KeyError] pydantic raises for the error type type_error that
    [validate_record] gives it.  With the pydantic model and a rule that
    rejects the second record, it is the [AttributeError] of the
    constructor of [ValidationError], which reads the [__name__] of the
    text that stands for the type of a rule's entry. *)
Theorem raise_propagates_another_error :
  cast_to_annotated_class bob PersonClass
  = Raise (Invalid
             (mk_ValidationError
                [("id", CastError (Plain TInt) (VStr "invalid") "str"
                          "invalid literal for int() with base 10: 'invalid'")]))
  /\ validate_records (AnnotatedClass PersonClass) None None None None None None
                      RAISE None (Some watching)
                      (CallerList [RecordDict alice; RecordDict bob;
                                   RecordDict charlie]) false
     = mk_run [BeforeValidate (RecordDict alice); Yield alice_cast_result;
               BeforeValidate (RecordDict bob)]
              (Some (KeyError "Invalid error type: 'type_error'"))
  /\ rules_validate (new_RuleValidator [id_below 2 0]) charlie_instance
     = [("id", RuleError "id" "id must be below 2" (VInt 3))]
  /\ validate_records (ModelClass Person) None None None None None
                      (Some [id_below 2 0]) RAISE None (Some watching)
                      (CallerList [RecordDict alice; RecordDict charlie;
                                   RecordDict alice]) false
     = mk_run [BeforeValidate (RecordDict alice); Yield alice_result;
               BeforeValidate (RecordDict charlie)]
              (Some (AttributeError "'str' object has no attribute '__name__'")).
Proof. repeat split. Qed.

(** *** Instances of the theorems *)

Lemma union_container_guard_witness :
  (is_scalar_kind TInt = true /\ is_container (VList [VStr "5"]) = true)
  /\ try_member (VList [VStr "5"]) TInt = Ok (Some (VInt 5))
  /\ union_loop (VList [VStr "5"]) [TInt; TStr] [] = Ok (VInt 5).
Proof.
  split; [split; reflexivity |].
  exact (union_container_guard (VList [VStr "5"]) TInt [TStr] [] eq_refl eq_refl).
Defined.

Lemma plain_cast_of_container_witness :
  (is_container (VList []) = true
   /\ is_container (VList [VInt 1; VInt 2]) = true
   /\ is_container (VList [VBool false]) = true
   /\ is_container (VTuple []) = true
   /\ is_container (VTuple [VStr "a"]) = true
   /\ is_container (VTuple [VInt 1; VNone]) = true
   /\ is_container (VSet []) = true
   /\ is_container (VSet [VInt 0]) = true
   /\ is_container (VDict []) = true
   /\ is_container (VDict [("a", VList [VInt 1]); ("b", VTuple [VInt 2])]) = true)
  /\ (cast_as (VList []) TStr = Ok (VStr "[]")
      /\ cast_as (VList []) TBool = Ok (VBool false))
  /\ (cast_as (VList [VInt 1; VInt 2]) TStr = Ok (VStr "[1, 2]")
      /\ cast_as (VList [VInt 1; VInt 2]) TBool = Ok (VBool true)
      /\ cast_as_annotation (VList [VInt 1; VInt 2]) (Plain TStr)
         = Ok (VStr "[1, 2]")
      /\ cast_as_annotation (VList [VInt 1; VInt 2]) (Plain TBool)
         = Ok (VBool true))
  /\ (cast_as (VList [VBool false]) TStr = Ok (VStr "[False]")
      /\ cast_as (VList [VBool false]) TBool = Ok (VBool true))
  /\ (cast_as (VTuple []) TStr = Ok (VStr "()")
      /\ cast_as (VTuple []) TBool = Ok (VBool false))
  /\ (cast_as (VTuple [VStr "a"]) TStr = Ok (VStr "('a',)")
      /\ cast_as (VTuple [VStr "a"]) TBool = Ok (VBool true))
  /\ (cast_as (VTuple [VInt 1; VNone]) TStr = Ok (VStr "(1, None)")
      /\ cast_as (VTuple [VInt 1; VNone]) TBool = Ok (VBool true))
  /\ (cast_as (VSet []) TStr = Ok (VStr "set()")
      /\ cast_as (VSet []) TBool = Ok (VBool false))
  /\ (cast_as (VSet [VInt 0]) TStr = Ok (VStr "{0}")
      /\ cast_as (VSet [VInt 0]) TBool = Ok (VBool true))
  /\ (cast_as (VDict []) TStr = Ok (VStr "{}")
      /\ cast_as (VDict []) TBool = Ok (VBool false))
  /\ (cast_as (VDict [("a", VList [VInt 1]); ("b", VTuple [VInt 2])]) TStr
      = Ok (VStr "{'a': [1], 'b': (2,)}")
      /\ cast_as (VDict [("a", VList [VInt 1]); ("b", VTuple [VInt 2])]) TBool
         = Ok (VBool true)).
Proof.
  split; [repeat split |].
  pose proof (plain_cast_of_container (VList []) eq_refl)
    as (Hstr0 & Hbool0 & _).
  pose proof (plain_cast_of_container (VList [VInt 1; VInt 2]) eq_refl)
    as (Hstr1 & Hbool1 & Hstr1' & Hbool1' & _).
  pose proof (plain_cast_of_container (VList [VBool false]) eq_refl)
    as (Hstr2 & Hbool2 & _).
  pose proof (plain_cast_of_container (VTuple []) eq_refl)
    as (Hstr3 & Hbool3 & _).
  pose proof (plain_cast_of_container (VTuple [VStr "a"]) eq_refl)
    as (Hstr4 & Hbool4 & _).
  pose proof (plain_cast_of_container (VTuple [VInt 1; VNone]) eq_refl)
    as (Hstr5 & Hbool5 & _).
  pose proof (plain_cast_of_container (VSet []) eq_refl)
    as (Hstr6 & Hbool6 & _).
  pose proof (plain_cast_of_container (VSet [VInt 0]) eq_refl)
    as (Hstr7 & Hbool7 & _).
  pose proof (plain_cast_of_container (VDict []) eq_refl)
    as (Hstr8 & Hbool8 & _).
  pose proof (plain_cast_of_container
                (VDict [("a", VList [VInt 1]); ("b", VTuple [VInt 2])]) eq_refl)
    as (Hstr9 & Hbool9 & _).
  repeat split; assumption.
Defined.

Lemma missing_fields_gate_witness :
  (exists key, In key (dict_keys (cls_annotations PersonClass))
               /\ dict_mem key [("name", VStr "Alice")] = false)
  /\ exists errs,
      cast_to_annotated_class [("name", VStr "Alice")] PersonClass
      = Raise (Invalid (mk_ValidationError errs))
      /\ NoDup (dict_keys errs)
      /\ (forall key, In key (dict_keys errs)
                      <-> In key (dict_keys (cls_annotations PersonClass))
                          /\ dict_mem key [("name", VStr "Alice")] = false).
Proof.
  assert (Hmissing : exists key, In key (dict_keys (cls_annotations PersonClass))
                                 /\ dict_mem key [("name", VStr "Alice")] = false).
  { exists "id". split; [now left | reflexivity]. }
  split; [exact Hmissing |].
  assert (Hnamed : forall key a,
             dict_get key (cls_annotations PersonClass) = Some a ->
             dict_mem key [("name", VStr "Alice")] = false -> named a = true).
  { intros key a Ha _. cbn in Ha.
    repeat match type of Ha with
           | (if ?b then _ else _) = _ =>
               destruct b; [injection Ha as <-; reflexivity |]
           end.
    discriminate Ha. }
  destruct (missing_fields_gate [("name", VStr "Alice")] PersonClass
                                Hmissing Hnamed)
    as (errs & Hraise & Hnodup & Hkeys & _).
  exists errs. split; [exact Hraise | split; [exact Hnodup | exact Hkeys]].
Defined.

Lemma return_and_skip_witness :
  (Forall2 (fun record r =>
              validate_record (ModelClass Person) None None None None None None
                              record false = Ok r)
           [RecordDict alice; RecordDict bob; RecordDict charlie]
           [alice_result; bob_result; charlie_result]
   /\ Forall (continues None) [alice_result; bob_result; charlie_result])
  /\ yields (log (validate_records (ModelClass Person) None None None None None None
                                   RETURN None None
                                   (CallerIterator [RecordDict alice; RecordDict bob;
                                                    RecordDict charlie]) false))
     = [alice_result; bob_result; charlie_result]
  /\ yields (log (validate_records (ModelClass Person) None None None None None None
                                   SKIP None None
                                   (CallerIterator [RecordDict alice; RecordDict bob;
                                                    RecordDict charlie]) false))
     = [alice_result; charlie_result].
Proof.
  assert (Hresults :
            Forall2 (fun record r =>
                       validate_record (ModelClass Person) None None None None None
                                       None record false = Ok r)
                    [RecordDict alice; RecordDict bob; RecordDict charlie]
                    [alice_result; bob_result; charlie_result])
    by (repeat constructor).
  assert (Hcont : Forall (continues (@None (ValidationHooks record)))
                         [alice_result; bob_result; charlie_result])
    by (repeat constructor).
  split; [split; assumption |].
  destruct (return_and_skip (ModelClass Person) None None None None None None
                            None None
                            (CallerIterator [RecordDict alice; RecordDict bob;
                                             RecordDict charlie])
                            [alice_result; bob_result; charlie_result]
                            Hresults Hcont)
    as (_ & (_ & Hreturn & _) & Hskip).
  split; [exact Hreturn |].
  destruct (Hskip false) as (_ & Hyields & _). exact Hyields.
Defined.

Lemma raise_stops_at_first_failure_witness :
  (Forall2 (fun record r =>
              validate_record (ModelClass Person) None None None None None None
                              record true = Ok r)
           [RecordDict alice] [alice_result]
   /\ Forall (continues (Some watching)) [alice_result]
   /\ validate_record (ModelClass Person) None None None None None None
                      (RecordDict bob) true
      = Raise (PydanticValidationError bob_error))
  /\ raised (validate_records (ModelClass Person) None None None None None None
                              RAISE None (Some watching)
                              (CallerIterator [RecordDict alice; RecordDict bob;
                                               RecordDict charlie]) false)
     = Some (PydanticValidationError bob_error)
  /\ yields (log (validate_records (ModelClass Person) None None None None None None
                                   RAISE None (Some watching)
                                   (CallerIterator [RecordDict alice; RecordDict bob;
                                                    RecordDict charlie]) false))
     = [alice_result]
  /\ List.length
       (before_calls
          (log (validate_records (ModelClass Person) None None None None None None
                                 RAISE None (Some watching)
                                 (CallerIterator [RecordDict alice; RecordDict bob;
                                                  RecordDict charlie]) false)))
     = 2%nat.
Proof.
  assert (Hresults :
            Forall2 (fun record r =>
                       validate_record (ModelClass Person) None None None None None
                                       None record true = Ok r)
                    [RecordDict alice] [alice_result])
    by (repeat constructor).
  assert (Hcont : Forall (continues (Some watching)) [alice_result])
    by (repeat constructor).
  assert (Hbad : validate_record (ModelClass Person) None None None None None None
                                 (RecordDict bob) true
                 = Raise (PydanticValidationError bob_error))
    by reflexivity.
  split; [repeat split; assumption |].
  destruct (raise_stops_at_first_failure
              (ModelClass Person) None None None None None None None (Some watching)
              (CallerIterator [RecordDict alice; RecordDict bob; RecordDict charlie])
              [RecordDict alice] [RecordDict charlie] (RecordDict bob)
              [alice_result] (PydanticValidationError bob_error) false
              eq_refl Hresults Hcont Hbad)
    as (Hraised & Hyields & _ & _ & Hbefore & _).
  split; [exact Hraised |]. split; [exact Hyields |].
  rewrite Hbefore. reflexivity.
Defined.

Lemma cast_as_scalar_stable_witness :
  (is_scalar_kind TInt = true /\ cast_as (VStr " 42 ") TInt = Ok (VInt 42))
  /\ isinstance (VInt 42) TInt = Ok true
  /\ cast_as (VInt 42) TInt = Ok (VInt 42).
Proof.
  split; [split; reflexivity |].
  exact (cast_as_scalar_stable (VStr " 42 ") (VInt 42) TInt eq_refl eq_refl).
Defined.

Lemma str_first_absorbs_witness :
  is_container VNone = false
  /\ cast_as_union VNone (Union [TStr; TClass NoneType]) = Ok (VStr "None").
Proof.
  split; [reflexivity |].
  exact (str_first_absorbs VNone [TClass NoneType] eq_refl).
Defined.


Lemma field_transforms_keep_shape_witness :
  (Forall (fun transform => field transform <> None) [double_id; double_id]
   /\ apply_transforms alice (Some (TransformList [double_id; double_id]))
      = Ok [("id", VInt 4); ("name", VStr "Alice");
            ("age", VFloat (float_of_Z 30))])
  /\ dict_keys [("id", VInt 4); ("name", VStr "Alice");
                ("age", VFloat (float_of_Z 30))]
     = dict_keys alice
  /\ dict_get "name" [("id", VInt 4); ("name", VStr "Alice");
                      ("age", VFloat (float_of_Z 30))]
     = dict_get "name" alice.
Proof.
  assert (Hfields : Forall (fun transform => field transform <> None)
                           [double_id; double_id])
    by (repeat constructor; discriminate).
  split; [split; [exact Hfields | reflexivity] |].
  destruct (field_transforms_keep_shape
              alice [("id", VInt 4); ("name", VStr "Alice");
                     ("age", VFloat (float_of_Z 30))]
              [double_id; double_id] Hfields eq_refl) as [Hkeys Hget].
  split; [exact Hkeys |]. apply Hget. repeat constructor; discriminate.
Defined.

Lemma record_transform_must_return_dict_witness :
  (apply_transforms alice (Some (TransformList [double_id]))
   = Ok [("id", VInt 2); ("name", VStr "Alice"); ("age", VFloat (float_of_Z 30))]
   /\ field to_none = None
   /\ func to_none (VDict [("id", VInt 2); ("name", VStr "Alice");
                           ("age", VFloat (float_of_Z 30))]) = Ok VNone)
  /\ apply_transforms alice
       (Some (TransformList [double_id; to_none; double_id]))
     = Raise (ValueError
                "Record-level transform must return dict, got <class 'NoneType'>").
Proof.
  split; [repeat split |].
  exact (record_transform_must_return_dict
           alice [("id", VInt 2); ("name", VStr "Alice");
                  ("age", VFloat (float_of_Z 30))]
           [double_id] [double_id] to_none VNone eq_refl eq_refl eq_refl
           (fun d (Hd : VNone = VDict d) =>
              eq_ind VNone (fun v => match v with VNone => True | _ => False end)
                     I (VDict d) Hd)).
Defined.

Lemma field_rule_reported_witness :
  ("id" <> "*" /\ "id" <> "__record__"
   /\ dict_get "id" (instance_dict charlie_instance) = Some (VInt 3))
  /\ exists rule,
      In rule [id_below 3 5; id_below 2 1; reject_all]
      /\ rule_field rule = "id" /\ accepts rule (VInt 3) = false
      /\ Some (RuleError "id" "id must be below 2" (VInt 3))
         = Some (rule_entry rule (VInt 3))
      /\ forall other,
          In other [id_below 3 5; id_below 2 1; reject_all] ->
          rule_field other = "id" -> accepts other (VInt 3) = false ->
          priority rule <= priority other.
Proof.
  assert (Hstar : "id" <> "*") by discriminate.
  assert (Hrecord : "id" <> "__record__") by discriminate.
  split; [repeat split; assumption |].
  pose proof (field_rule_reported [id_below 3 5; id_below 2 1; reject_all]
                                  charlie_instance "id" (VInt 3)
                                  Hstar Hrecord eq_refl) as Hreported.
  change (dict_get "id"
            (rules_validate
               (new_RuleValidator [id_below 3 5; id_below 2 1; reject_all])
               charlie_instance))
    with (Some (RuleError "id" "id must be below 2" (VInt 3))) in Hreported.
  destruct Hreported as (rule & Hin & Hfield & Hreject & Hentry & Hleast).
  exists rule. repeat split; try assumption. now rewrite Hentry.
Defined.

Lemma record_rule_reported_witness :
  dict_get "__record__" (instance_dict charlie_instance) = None
  /\ exists rule,
      In rule [id_below 3 5; reject_all]
      /\ rule_field rule = "*"
      /\ accepts rule (VDict (instance_dict charlie_instance)) = false
      /\ Some (RuleError "*" "rejected" (VDict charlie))
         = Some (rule_entry rule (VDict (instance_dict charlie_instance)))
      /\ forall other,
          In other [id_below 3 5; reject_all] -> rule_field other = "*" ->
          accepts other (VDict (instance_dict charlie_instance)) = false ->
          priority other <= priority rule.
Proof.
  split; [reflexivity |].
  pose proof (record_rule_reported [id_below 3 5; reject_all] charlie_instance
                                   eq_refl) as Hreported.
  change (dict_get "__record__"
            (rules_validate (new_RuleValidator [id_below 3 5; reject_all])
                            charlie_instance))
    with (Some (RuleError "*" "rejected" (VDict charlie))) in Hreported.
  destruct Hreported as (rule & Hin & Hfield & Hreject & Hentry & Hgreatest).
  exists rule. repeat split; try assumption. now rewrite Hentry.
Defined.

Lemma rejecting_rule_is_attribute_error_witness :
  (apply_transforms (record_to_dict (RecordDict charlie)) None = Ok charlie
   /\ lift (model_validate Person (VDict charlie) None None) = Ok charlie_instance
   /\ rules_validate (new_RuleValidator [id_below 2 0]) charlie_instance <> []
   /\ from_exception_data "Person"
        [mk_line_error "value_error" []
           "'str' object has no attribute '__name__'" (VDict charlie)]
      = Raise (TypeError "ValueError: 'error' required in context"))
  /\ validate_record (ModelClass Person) None None None None None
                     (Some [id_below 2 0]) (RecordDict charlie) true
     = Raise (AttributeError "'str' object has no attribute '__name__'")
  /\ validate_record (ModelClass Person) None None None None None
                     (Some [id_below 2 0]) (RecordDict charlie) false
     = Raise (TypeError "ValueError: 'error' required in context").
Proof.
  assert (Hrules : rules_validate (new_RuleValidator [id_below 2 0])
                                  charlie_instance <> [])
    by discriminate.
  split; [repeat split; try reflexivity; exact Hrules |].
  split.
  - exact (rejecting_rule_is_attribute_error
             (ModelClass Person) None None None None None [id_below 2 0]
             (RecordDict charlie) charlie charlie_instance true
             (TypeError "ValueError: 'error' required in context")
             eq_refl eq_refl Hrules eq_refl).
  - exact (rejecting_rule_is_attribute_error
             (ModelClass Person) None None None None None [id_below 2 0]
             (RecordDict charlie) charlie charlie_instance false
             (TypeError "ValueError: 'error' required in context")
             eq_refl eq_refl Hrules eq_refl).
Defined.

Lemma should_continue_stops_witness :
  (Forall2 (fun record r =>
              validate_record (ModelClass Person) None None None None None None
                              record false = Ok r)
           [RecordDict alice] [alice_result]
   /\ Forall (continues (Some stop_at_failure)) [alice_result]
   /\ validate_record (ModelClass Person) None None None None None None
                      (RecordDict bob) false = Ok bob_result
   /\ is_None (error bob_result) = false)
  /\ raised (validate_records (ModelClass Person) None None None None None None
                              RETURN None (Some stop_at_failure)
                              (CallerList [RecordDict alice; RecordDict bob;
                                           RecordDict charlie]) false)
     = None
  /\ yields (log (validate_records (ModelClass Person) None None None None None
                                   None RETURN None (Some stop_at_failure)
                                   (CallerList [RecordDict alice; RecordDict bob;
                                                RecordDict charlie]) false))
     = [alice_result].
Proof.
  assert (Hresults :
            Forall2 (fun record r =>
                       validate_record (ModelClass Person) None None None None None
                                       None record false = Ok r)
                    [RecordDict alice] [alice_result])
    by (repeat constructor).
  assert (Hcont : Forall (continues (Some stop_at_failure)) [alice_result])
    by (repeat constructor).
  split; [repeat split; assumption || reflexivity |].
  destruct (should_continue_stops
              (ModelClass Person) None None None None None None RETURN None
              (Some stop_at_failure)
              (CallerList [RecordDict alice; RecordDict bob; RecordDict charlie])
              [RecordDict alice] [RecordDict charlie] (RecordDict bob)
              [alice_result] bob_result stop_at_failure
              (fun r => Ok (is_None (error r)))
              eq_refl Hresults Hcont eq_refl eq_refl eq_refl eq_refl)
    as (Hraised & Hyields & _).
  split; [exact Hraised | exact Hyields].
Defined.

Lemma validate_is_lazy_witness :
  (validate_item (ModelClass Person) None None None None None None
                 (OfJson alice_json) (is_RAISE RETURN)
   = Ok (result_of OfJson alice_json_result)
   /\ continues None (result_of OfJson alice_json_result))
  /\ pulls (until_first_yield
              (log (validate (ModelClass Person) None None None None None None
                             RETURN None None
                             (CallerIterator [OfJson alice_json;
                                              OfRecord (RecordDict bob);
                                              OfJson charlie_json]) true)))
     = [OfJson alice_json].
Proof.
  split; [split; reflexivity |].
  exact (validate_is_lazy None None None None None None RETURN None None
                          (ModelClass Person) (OfJson alice_json)
                          [OfRecord (RecordDict bob); OfJson charlie_json]
                          (result_of OfJson alice_json_result) true
                          eq_refl eq_refl eq_refl).
Defined.

Lemma bulk_path_results_witness :
  (forallb is_dict [RecordDict alice; RecordDict charlie] = true
   /\ bulk_prepare None (Some (TransformList [double_id]))
                   (map as_dict [RecordDict alice; RecordDict charlie])
      = Ok [[("id", VInt 2); ("name", VStr "Alice");
             ("age", VFloat (float_of_Z 30))];
            [("id", VInt 6); ("name", VStr "Charlie");
             ("age", VFloat (float_of_Z 35))]])
  /\ yields (log (validate_records (ModelClass Person) None None None None
                                   (Some (TransformList [double_id])) None RETURN
                                   None None
                                   (CallerIterator [RecordDict alice;
                                                    RecordDict charlie]) true))
     = [mk_result None
          (Some (mk_instance "Person"
                   (Some [("id", VInt 2); ("name", VStr "Alice");
                          ("age", VFloat (float_of_Z 30))])
                   [("id", VInt 2); ("name", VStr "Alice");
                    ("age", VFloat (float_of_Z 30))]))
          (RecordDict [("id", VInt 2); ("name", VStr "Alice");
                       ("age", VFloat (float_of_Z 30))]);
        mk_result None
          (Some (mk_instance "Person"
                   (Some [("id", VInt 6); ("name", VStr "Charlie");
                          ("age", VFloat (float_of_Z 35))])
                   [("id", VInt 6); ("name", VStr "Charlie");
                    ("age", VFloat (float_of_Z 35))]))
          (RecordDict [("id", VInt 6); ("name", VStr "Charlie");
                       ("age", VFloat (float_of_Z 35))])].
Proof.
  split; [split; reflexivity |].
  refine (proj2 (bulk_path_results
                   None None None None (Some (TransformList [double_id])) None
                   None None Person
                   (CallerIterator [RecordDict alice; RecordDict charlie])
                   [[("id", VInt 2); ("name", VStr "Alice");
                     ("age", VFloat (float_of_Z 30))];
                    [("id", VInt 6); ("name", VStr "Charlie");
                     ("age", VFloat (float_of_Z 35))]]
                   [mk_instance "Person"
                      (Some [("id", VInt 2); ("name", VStr "Alice");
                             ("age", VFloat (float_of_Z 30))])
                      [("id", VInt 2); ("name", VStr "Alice");
                       ("age", VFloat (float_of_Z 30))];
                    mk_instance "Person"
                      (Some [("id", VInt 6); ("name", VStr "Charlie");
                             ("age", VFloat (float_of_Z 35))])
                      [("id", VInt 6); ("name", VStr "Charlie");
                       ("age", VFloat (float_of_Z 35))]]
                   _ eq_refl eq_refl eq_refl eq_refl _ _)).
  - discriminate.
  - repeat constructor.
  - repeat constructor.
Defined.

Lemma bulk_rejection_starts_over_witness :
  (forallb is_dict [RecordDict alice; RecordDict charlie] = true
   /\ validate_python_list Person (map VDict [alice; charlie]) None
      = Ok [alice_instance; charlie_instance]
   /\ rules_accept (Some [id_below 2 0]) alice_instance
   /\ ~ rules_accept (Some [id_below 2 0]) charlie_instance)
  /\ raised (validate_records (ModelClass Person) None None None None None
                              (Some [id_below 2 0]) RETURN None None
                              (CallerList [RecordDict alice;
                                           RecordDict charlie]) true)
     = Some (TypeError "ValueError: 'error' required in context")
  /\ yields (log (validate_records (ModelClass Person) None None None None None
                                   (Some [id_below 2 0]) RETURN None None
                                   (CallerList [RecordDict alice;
                                                RecordDict charlie]) true))
     = [alice_result; alice_result].
Proof.
  assert (Haccept : rules_accept (Some [id_below 2 0]) alice_instance)
    by reflexivity.
  assert (Hreject : ~ rules_accept (Some [id_below 2 0]) charlie_instance)
    by discriminate.
  split; [repeat split; assumption || reflexivity |].
  refine (bulk_rejection_starts_over
            None None None None None (Some [id_below 2 0]) None None
            Person [RecordDict alice; RecordDict charlie]
            [alice] [charlie] [alice_instance] [] charlie_instance
            _ eq_refl eq_refl eq_refl eq_refl _ Hreject _).
  - discriminate.
  - repeat constructor.
  - repeat constructor.
Defined.

Lemma bulk_failure_validates_prepared_witness :
  (forallb is_dict [RecordDict alice; RecordDict bob] = true
   /\ bulk_prepare None (Some (TransformList [double_id]))
                   (map as_dict [RecordDict alice; RecordDict bob])
      = Ok [[("id", VInt 2); ("name", VStr "Alice");
             ("age", VFloat (float_of_Z 30))]; bob]
   /\ validate_python_list
        Person
        (map VDict [[("id", VInt 2); ("name", VStr "Alice");
                     ("age", VFloat (float_of_Z 30))]; bob]) None
      = Raise (PydanticValidationError bob_error))
  /\ map (fun r => option_map inst_dict (result r))
         (yields (log (validate_records (ModelClass Person) None None None None
                                        (Some (TransformList [double_id])) None
                                        RETURN None None
                                        (CallerList [RecordDict alice;
                                                     RecordDict bob]) true)))
     = [Some [("id", VInt 4); ("name", VStr "Alice");
              ("age", VFloat (float_of_Z 30))]; None].
Proof.
  split; [repeat split |].
  refine (eq_trans
            (f_equal (map (fun r => option_map inst_dict (result r)))
                     (proj2 (bulk_failure_validates_prepared
                               None None None None
                               (Some (TransformList [double_id])) None None None
                               Person
                               (CallerList [RecordDict alice; RecordDict bob])
                               [[("id", VInt 2); ("name", VStr "Alice");
                                 ("age", VFloat (float_of_Z 30))]; bob]
                               bob_error _ eq_refl eq_refl eq_refl)))
            eq_refl).
  discriminate.
Defined.

Lemma validate_jsons_propagates_witness :
  (Forall2 (fun json r => validate_json Fragile None json (is_RAISE SKIP) = Ok r)
           [alice_json] [alice_json_result]
   /\ Forall (continues None) [alice_json_result]
   /\ model_validate_json Fragile bob_json None
      = Raise (OtherException "RuntimeError" "validator failed"))
  /\ raised (validate_jsons Fragile None SKIP None None
                            (CallerIterator [alice_json; bob_json; charlie_json]))
     = Some (OtherException "RuntimeError" "validator failed")
  /\ yields (log (validate_jsons Fragile None SKIP None None
                                 (CallerIterator [alice_json; bob_json;
                                                  charlie_json])))
     = [alice_json_result].
Proof.
  assert (Hresults :
            Forall2 (fun json r =>
                       validate_json Fragile None json (is_RAISE SKIP) = Ok r)
                    [alice_json] [alice_json_result])
    by (repeat constructor).
  assert (Hcont : Forall (continues (@None (ValidationHooks Json)))
                         [alice_json_result])
    by (repeat constructor).
  split; [repeat split; assumption || reflexivity |].
  exact (validate_jsons_propagates
           Fragile None SKIP None None
           (CallerIterator [alice_json; bob_json; charlie_json])
           [alice_json] [charlie_json] bob_json [alice_json_result]
           (OtherException "RuntimeError" "validator failed")
           eq_refl Hresults Hcont eq_refl
           (fun validation_error
                (He : OtherException "RuntimeError" "validator failed"
                      = PydanticValidationError validation_error) =>
              eq_ind (OtherException "RuntimeError" "validator failed")
                     (fun e => match e with
                               | OtherException _ _ => True
                               | _ => False
                               end)
                     I (PydanticValidationError validation_error) He)).
Defined.

Lemma caster_collects_failures_witness :
  (missing_keys (cls_annotations PersonClass)
                [("id", VStr "x"); ("name", VStr "Alice"); ("age", VStr "y")] = []
   /\ failing_fields (cls_annotations PersonClass)
                     [("id", VStr "x"); ("name", VStr "Alice"); ("age", VStr "y")]
      = ["id"; "age"])
  /\ cast_to_annotated_class
       [("id", VStr "x"); ("name", VStr "Alice"); ("age", VStr "y")] PersonClass
     = Raise (Invalid
                (mk_ValidationError
                   (failure_entries (cls_annotations PersonClass)
                      [("id", VStr "x"); ("name", VStr "Alice");
                       ("age", VStr "y")])))
  /\ dict_keys (failure_entries (cls_annotations PersonClass)
                  [("id", VStr "x"); ("name", VStr "Alice"); ("age", VStr "y")])
     = ["id"; "age"].
Proof.
  split; [split; reflexivity |].
  assert (Hnodup : NoDup (dict_keys [("id", VStr "x"); ("name", VStr "Alice");
                                     ("age", VStr "y")])).
  { repeat constructor; cbn; intuition discriminate. }
  assert (Hcaught : failures_caught (cls_annotations PersonClass)
                      [("id", VStr "x"); ("name", VStr "Alice");
                       ("age", VStr "y")]).
  { intros key value annotation e [Hin | [Hin | [Hin | []]]];
      injection Hin as <- <-; intros [= <-] [= <-]; reflexivity. }
  assert (Hnamed : forall key value annotation e,
             In (key, value) [("id", VStr "x"); ("name", VStr "Alice");
                              ("age", VStr "y")] ->
             dict_get key (cls_annotations PersonClass) = Some annotation ->
             cast_field value annotation = Raise e ->
             named annotation = true).
  { intros key value annotation e [Hin | [Hin | [Hin | []]]];
      injection Hin as <- <-; intros [= <-] _; reflexivity. }
  assert (Hfailing : failing_fields (cls_annotations PersonClass)
                       [("id", VStr "x"); ("name", VStr "Alice");
                        ("age", VStr "y")] <> [])
    by discriminate.
  exact (caster_collects_failures
           [("id", VStr "x"); ("name", VStr "Alice"); ("age", VStr "y")]
           PersonClass Hnodup eq_refl Hcaught Hnamed Hfailing).
Defined.

Lemma validate_jsons_is_lazy_witness :
  (validate_json Person None alice_json (is_RAISE RETURN) = Ok alice_json_result
   /\ continues None alice_json_result)
  /\ pulls (until_first_yield
              (log (validate_jsons Person None RETURN None None
                                   (CallerIterator [alice_json; bob_json;
                                                    charlie_json]))))
     = [alice_json].
Proof.
  split; [split; reflexivity |].
  exact (validate_jsons_is_lazy Person None RETURN None None alice_json
                                [bob_json; charlie_json] alice_json_result
                                eq_refl eq_refl eq_refl).
Defined.

Lemma project_fields_ignored_witness :
  (ac_model PersonClass = None
   /\ forall new_data made,
       ac_call PersonClass new_data = Ok made -> inst_dump made = None)
  /\ validate_record (AnnotatedClass PersonClass) None None None (Some ["name"])
                     None None (RecordDict loose) false
     = Ok (mk_result None (Some (mk_instance "Person" None loose_cast))
                     (RecordDict loose)).
Proof.
  assert (Hcall : forall new_data made,
             ac_call PersonClass new_data = Ok made -> inst_dump made = None)
    by (intros new_data made Hmade; discriminate Hmade).
  split; [split; [reflexivity | exact Hcall] |].
  exact (eq_trans
           (project_fields_ignored None None None None None PersonClass
                                   (RecordDict loose) ["name"] false
                                   eq_refl Hcall)
           eq_refl).
Defined.
